(** * TrackMint: order lifecycle and inventory costing engine

    A shallow embedding of the business logic of the TrackMint backend
    (FastAPI + SQLAlchemy) together with the properties its specification
    states about it.

    Modelling conventions.
    - [Integer] columns and Python [int]s are [Z]; [Numeric] columns hold
      [Decimal]s, given by the exact rational [Q] they denote and compared
      with [==].  Where a function computes with numbers of several kinds,
      they are values of [Python.number], and an operation between a
      [float] and a [Decimal] raises [TypeError], as in Python.
    - UUID primary keys are [N]; [DateTime] values are [Z] time stamps; a
      nullable column is an [option].
    - Python exceptions are values of [exception]; a function that can raise
      returns a [result].
    - A table is a [gmap] from the primary key (the [id] column) to the
      other columns of the row; columns the engine never reads are left
      out.
    - A mapped class has the attributes that app/models declares for it.
      Where a route names an attribute its class does not have, the access
      raises [AttributeError] ([Models.getattr]); the statements of the
      route after it are never executed and have no embedding. *)

From Stdlib Require Import ZArith QArith Qabs Lqa Lia.
From Stdlib Require Import Ascii String DecimalString DecimalZ.
From stdpp Require Import base option gmap strings list fin_maps.

Open Scope string_scope.
Open Scope Z_scope.

Abbreviation UUID := N (only parsing).
Abbreviation datetime := Z (only parsing).

(** Python's [str(n)] for an [int]. *)
Definition str_int (n : Z) : string := NilZero.string_of_int (Z.to_int n).

(** [d.get(key, default)] on a dictionary with string keys, written as the
    list of its items. *)
Fixpoint dict_get {V} (d : list (string * V)) (key : string) (dflt : V) : V :=
  match d with
  | [] => dflt
  | (k, v) :: d' => if String.eqb k key then v else dict_get d' key dflt
  end.

(** [x in l] for a list of strings. *)
Fixpoint str_in (x : string) (l : list string) : bool :=
  match l with
  | [] => false
  | y :: l' => String.eqb x y || str_in x l'
  end.

(* ===================================================================== *)
(** * app/utils/exceptions.py *)
(* ===================================================================== *)

Module Exceptions.

(** Values stored in the [details] dictionary of an exception. *)
Inductive json : Type :=
| JNone
| JInt (n : Z)
| JStr (s : string).

(** The exception classes the engine raises.  [TrackMintException] carries
    [message], [error_code] and [details]; the sub-class is recorded in
    [cls].  [PyError] stands for a built-in Python exception (its class
    name). *)
Inductive exn_class : Type :=
| CValidationError
| CBusinessLogicError.

Inductive exception : Type :=
| HTTPException (status_code : Z) (detail : string)
| TrackMintException (cls : exn_class) (message : string)
    (error_code : string) (details : list (string * json))
| PyError (name : string).

Inductive result (A : Type) : Type :=
| Return (a : A)
| Raise (e : exception).
Arguments Return {A} a.
Arguments Raise {A} e.

(** Sequencing: an exception aborts the rest of the function. *)
#[export] Instance result_ret : MRet result := λ A a, Return a.
#[export] Instance result_bind : MBind result := λ A B k r,
  match r with
  | Return a => k a
  | Raise e => Raise e
  end.

(** [ValidationError.__init__] *)
Definition ValidationError (message : string) (field : json) (value : json)
  : exception :=
  TrackMintException CValidationError message "VALIDATION_ERROR"
    [("field", field); ("value", value)].

(** [BusinessLogicError.__init__]: [error_code or "BUSINESS_LOGIC_ERROR"],
    and [details or {}] in the base class. *)
Definition BusinessLogicError (message : string) (error_code : option string)
    (details : option (list (string * json))) : exception :=
  TrackMintException CBusinessLogicError message
    (match error_code with
     | Some c => if String.eqb c "" then "BUSINESS_LOGIC_ERROR" else c
     | None => "BUSINESS_LOGIC_ERROR"
     end)
    (default [] details).

(** [valid_transitions] of [validate_work_order_status_transition]. *)
Definition valid_transitions : list (string * list string) :=
  [ ("Ready", ["Started"; "Canceled"]);
    ("Started", ["Paused"; "Completed"; "Canceled"]);
    ("Paused", ["Started"; "Canceled"]);
    ("Completed", []);
    ("Canceled", []) ].

Definition validate_work_order_status_transition
    (current_status new_status : string) : result unit :=
  if negb (str_in new_status (dict_get valid_transitions current_status []))
  then Raise (BusinessLogicError
         ("Cannot transition work order from " +:+ current_status +:+
          " to " +:+ new_status)
         (Some "INVALID_STATUS_TRANSITION")
         (Some [("current_status", JStr current_status);
                ("new_status", JStr new_status)]))
  else Return tt.

Definition validate_manufacturing_order_quantity (quantity : Z) : result unit :=
  if quantity <=? 0
  then Raise (ValidationError
         "Manufacturing order quantity must be greater than 0"
         (JStr "quantity") (JInt quantity))
  else if quantity >? 10000
  then Raise (BusinessLogicError
         "Manufacturing order quantity cannot exceed 10,000 units"
         (Some "QUANTITY_LIMIT_EXCEEDED")
         (Some [("quantity", JInt quantity); ("max_quantity", JInt 10000)]))
  else Return tt.

Definition validate_stock_availability
    (product_id : string) (required_quantity available_quantity : Z)
  : result unit :=
  if available_quantity <? required_quantity
  then Raise (BusinessLogicError
         ("Insufficient stock. Required: " +:+ str_int required_quantity +:+
          ", Available: " +:+ str_int available_quantity)
         (Some "INSUFFICIENT_STOCK")
         (Some [("product_id", JStr product_id);
                ("required_quantity", JInt required_quantity);
                ("available_quantity", JInt available_quantity)]))
  else Return tt.

End Exceptions.

Import Exceptions.

(* ===================================================================== *)
(** * app/models: the entities the engine reads and writes *)
(* ===================================================================== *)

Module UserRole.
Record t : Type := mk { id : UUID; name : string }.
End UserRole.

Module User.
Record t : Type := mk { id : UUID; role : option UserRole.t }.
End User.

(* ===================================================================== *)
(** * app/utils/rbac.py *)
(* ===================================================================== *)

Module Rbac.

Inductive Permission : Type :=
(* User Management *)
| CREATE_USER | READ_USER | UPDATE_USER | DELETE_USER
(* Product Management *)
| CREATE_PRODUCT | READ_PRODUCT | UPDATE_PRODUCT | DELETE_PRODUCT
(* BOM Management *)
| CREATE_BOM | READ_BOM | UPDATE_BOM | DELETE_BOM
(* Work Center Management *)
| CREATE_WORK_CENTER | READ_WORK_CENTER | UPDATE_WORK_CENTER
| DELETE_WORK_CENTER
(* Manufacturing Order Management *)
| CREATE_MANUFACTURING_ORDER | READ_MANUFACTURING_ORDER
| UPDATE_MANUFACTURING_ORDER | DELETE_MANUFACTURING_ORDER
| APPROVE_MANUFACTURING_ORDER
(* Work Order Management *)
| CREATE_WORK_ORDER | READ_WORK_ORDER | UPDATE_WORK_ORDER | DELETE_WORK_ORDER
| START_WORK_ORDER | PAUSE_WORK_ORDER | COMPLETE_WORK_ORDER
(* Stock Management *)
| CREATE_STOCK_MOVE | READ_STOCK_MOVE | UPDATE_STOCK_MOVE | DELETE_STOCK_MOVE
(* Reports and Analytics *)
| READ_REPORTS | EXPORT_REPORTS | READ_ANALYTICS
(* System Administration *)
| MANAGE_ROLES | MANAGE_SYSTEM | VIEW_AUDIT_LOGS.

(** [permission.value] *)
Definition value (p : Permission) : string :=
  match p with
  | CREATE_USER => "create_user" | READ_USER => "read_user"
  | UPDATE_USER => "update_user" | DELETE_USER => "delete_user"
  | CREATE_PRODUCT => "create_product" | READ_PRODUCT => "read_product"
  | UPDATE_PRODUCT => "update_product" | DELETE_PRODUCT => "delete_product"
  | CREATE_BOM => "create_bom" | READ_BOM => "read_bom"
  | UPDATE_BOM => "update_bom" | DELETE_BOM => "delete_bom"
  | CREATE_WORK_CENTER => "create_work_center"
  | READ_WORK_CENTER => "read_work_center"
  | UPDATE_WORK_CENTER => "update_work_center"
  | DELETE_WORK_CENTER => "delete_work_center"
  | CREATE_MANUFACTURING_ORDER => "create_manufacturing_order"
  | READ_MANUFACTURING_ORDER => "read_manufacturing_order"
  | UPDATE_MANUFACTURING_ORDER => "update_manufacturing_order"
  | DELETE_MANUFACTURING_ORDER => "delete_manufacturing_order"
  | APPROVE_MANUFACTURING_ORDER => "approve_manufacturing_order"
  | CREATE_WORK_ORDER => "create_work_order"
  | READ_WORK_ORDER => "read_work_order"
  | UPDATE_WORK_ORDER => "update_work_order"
  | DELETE_WORK_ORDER => "delete_work_order"
  | START_WORK_ORDER => "start_work_order"
  | PAUSE_WORK_ORDER => "pause_work_order"
  | COMPLETE_WORK_ORDER => "complete_work_order"
  | CREATE_STOCK_MOVE => "create_stock_move"
  | READ_STOCK_MOVE => "read_stock_move"
  | UPDATE_STOCK_MOVE => "update_stock_move"
  | DELETE_STOCK_MOVE => "delete_stock_move"
  | READ_REPORTS => "read_reports" | EXPORT_REPORTS => "export_reports"
  | READ_ANALYTICS => "read_analytics"
  | MANAGE_ROLES => "manage_roles" | MANAGE_SYSTEM => "manage_system"
  | VIEW_AUDIT_LOGS => "view_audit_logs"
  end.

(** Iteration over the enumeration ([for permission in Permission]), in
    definition order. *)
Definition Permission_members : list Permission :=
  [ CREATE_USER; READ_USER; UPDATE_USER; DELETE_USER;
    CREATE_PRODUCT; READ_PRODUCT; UPDATE_PRODUCT; DELETE_PRODUCT;
    CREATE_BOM; READ_BOM; UPDATE_BOM; DELETE_BOM;
    CREATE_WORK_CENTER; READ_WORK_CENTER; UPDATE_WORK_CENTER;
    DELETE_WORK_CENTER;
    CREATE_MANUFACTURING_ORDER; READ_MANUFACTURING_ORDER;
    UPDATE_MANUFACTURING_ORDER; DELETE_MANUFACTURING_ORDER;
    APPROVE_MANUFACTURING_ORDER;
    CREATE_WORK_ORDER; READ_WORK_ORDER; UPDATE_WORK_ORDER; DELETE_WORK_ORDER;
    START_WORK_ORDER; PAUSE_WORK_ORDER; COMPLETE_WORK_ORDER;
    CREATE_STOCK_MOVE; READ_STOCK_MOVE; UPDATE_STOCK_MOVE; DELETE_STOCK_MOVE;
    READ_REPORTS; EXPORT_REPORTS; READ_ANALYTICS;
    MANAGE_ROLES; MANAGE_SYSTEM; VIEW_AUDIT_LOGS ].

(** Role-based permissions mapping. *)
Definition ROLE_PERMISSIONS : list (string * list string) :=
  [ ("Admin", map value Permission_members);
    ("ManufacturingManager",
      map value
      [ CREATE_MANUFACTURING_ORDER; READ_MANUFACTURING_ORDER;
        UPDATE_MANUFACTURING_ORDER; DELETE_MANUFACTURING_ORDER;
        APPROVE_MANUFACTURING_ORDER;
        CREATE_WORK_ORDER; READ_WORK_ORDER; UPDATE_WORK_ORDER;
        DELETE_WORK_ORDER; START_WORK_ORDER; PAUSE_WORK_ORDER;
        COMPLETE_WORK_ORDER;
        CREATE_PRODUCT; READ_PRODUCT; UPDATE_PRODUCT; DELETE_PRODUCT;
        CREATE_BOM; READ_BOM; UPDATE_BOM; DELETE_BOM;
        CREATE_WORK_CENTER; READ_WORK_CENTER; UPDATE_WORK_CENTER;
        DELETE_WORK_CENTER;
        CREATE_STOCK_MOVE; READ_STOCK_MOVE; UPDATE_STOCK_MOVE;
        DELETE_STOCK_MOVE;
        READ_REPORTS; EXPORT_REPORTS; READ_ANALYTICS;
        READ_USER ]);
    ("Operator",
      map value
      [ READ_MANUFACTURING_ORDER; READ_WORK_ORDER; UPDATE_WORK_ORDER;
        START_WORK_ORDER; PAUSE_WORK_ORDER; COMPLETE_WORK_ORDER;
        READ_PRODUCT; READ_BOM; READ_WORK_CENTER;
        READ_STOCK_MOVE; CREATE_STOCK_MOVE ]);
    ("InventoryManager",
      map value
      [ READ_PRODUCT; UPDATE_PRODUCT;
        CREATE_STOCK_MOVE; READ_STOCK_MOVE; UPDATE_STOCK_MOVE;
        DELETE_STOCK_MOVE;
        READ_MANUFACTURING_ORDER; READ_WORK_ORDER;
        READ_REPORTS; EXPORT_REPORTS ]) ].

Definition has_permission (user : User.t) (permission : Permission) : bool :=
  match User.role user with
  | None => false
  | Some role =>
      let role_name := UserRole.name role in
      let user_permissions := dict_get ROLE_PERMISSIONS role_name [] in
      str_in (value permission) user_permissions
  end.

End Rbac.

(* ===================================================================== *)
(** * The SQLAlchemy session *)
(* ===================================================================== *)

(** Within a request the session holds the rows as the database has them
    ([stored]) and the objects as the request has changed them so far
    ([current]); [commit] writes [current].  A query evaluates its filter in
    the database: on [current] when the session autoflushes pending changes
    before a query, on [stored] when it does not.  A row whose object is
    already loaded is returned as that object, with its in-memory
    attributes.  [autoflush] is a setting of the session factory
    ([sessionmaker(autoflush=...)]), which the routes receive with the
    session. *)
Section Query.
Context {R : Type}.

Definition flushed (autoflush : bool) (stored current : gmap UUID R)
  : gmap UUID R :=
  if autoflush then current else stored.

(** [db.query(R).filter(P).all()], each row with its [id]. *)
Definition query_all (autoflush : bool) (stored current : gmap UUID R)
    (P : R → bool) : list (UUID * R) :=
  omap (λ ir : UUID * R,
          if P ir.2 then Some (ir.1, default ir.2 (current !! ir.1))
          else None)
       (map_to_list (flushed autoflush stored current)).

(** [db.query(R).filter(P).count()] *)
Definition query_count (autoflush : bool) (stored current : gmap UUID R)
    (P : R → bool) : nat :=
  length (filter (λ ir : UUID * R, P ir.2 = true)
            (map_to_list (flushed autoflush stored current))).

(** [db.query(R).filter(R.id == id, P).first()] *)
Definition query_get (autoflush : bool) (stored current : gmap UUID R)
    (id : UUID) (P : R → bool) : option R :=
  match flushed autoflush stored current !! id with
  | Some r => if P r then Some (default r (current !! id)) else None
  | None => None
  end.
End Query.

(** [x is None] for a nullable column. *)
Definition is_None {A} (o : option A) : bool :=
  match o with None => true | Some _ => false end.

(** What a request leaves in the database: its commit, or nothing when it
    raised before committing. *)
Definition committed {DB A} (db : DB) (r : result (DB * A)) : DB :=
  match r with
  | Return (db', _) => db'
  | Raise _ => db
  end.

(* ===================================================================== *)
(** * Python numbers *)
(* ===================================================================== *)

Module Python.

(** A number is an [int], a [float] or a [Decimal], given with the rational
    it denotes.  [Decimal] arithmetic is exact up to the 28 significant
    digits of the default context, which the sums of products of
    [Numeric(10, 3)] and [Numeric(10, 2)] values taken below stay within
    for fewer than 10^8 terms.  The rounding of [float] arithmetic is not
    modelled: no result below rests on the value of a [float]. *)
Inductive number : Type :=
| int (n : Z)
| float (x : Q)
| Decimal (d : Q).

Definition value (a : number) : Q :=
  match a with
  | int n => inject_Z n
  | float x => x
  | Decimal d => d
  end.

(** A binary arithmetic operator: an [int] operand is converted to the kind
    of the other one; a [float] and a [Decimal] do not mix ("unsupported
    operand type(s)"). *)
Definition binary (opZ : Z → Z → Z) (opQ : Q → Q → Q) (a b : number)
  : result number :=
  match a, b with
  | int m, int n => Return (int (opZ m n))
  | int m, float y => Return (float (opQ (inject_Z m) y))
  | float x, int n => Return (float (opQ x (inject_Z n)))
  | float x, float y => Return (float (opQ x y))
  | int m, Decimal e => Return (Decimal (opQ (inject_Z m) e))
  | Decimal d, int n => Return (Decimal (opQ d (inject_Z n)))
  | Decimal d, Decimal e => Return (Decimal (opQ d e))
  | float _, Decimal _ | Decimal _, float _ => Raise (PyError "TypeError")
  end.

(** [a + b] and [a * b] *)
Definition add : number → number → result number := binary Z.add Qplus.
Definition mul : number → number → result number := binary Z.mul Qmult.

(** [m / n] for two [int]s: a [float]. *)
Definition truediv (m n : Z) : result number :=
  if n =? 0 then Raise (PyError "ZeroDivisionError")
  else Return (float (inject_Z m / inject_Z n)).

(** [sum(...)] over a generator: each term is computed and added to the
    total, which starts at the [int] 0, before the next one is. *)
Definition sum (terms : list (result number)) : result number :=
  fold_left (λ total term, total ← total; x ← term; add total x)
            terms (Return (int 0)).

End Python.

(* ===================================================================== *)
(** * app/models: the attributes of the mapped classes *)
(* ===================================================================== *)

Module Models.

(** The columns of [BaseModel] (app/models/base.py), which its sub-classes
    inherit. *)
Definition BaseModel : list string :=
  [ "id"; "created_at"; "updated_at"; "deleted_at"; "created_by_id";
    "updated_by_id" ].

(** [class Product(Base)] (app/models/product.py): the class derives from
    [Base], not from [BaseModel], and declares these columns and
    relationships. *)
Definition Product : list string :=
  [ "id"; "name"; "sku"; "category"; "unit_of_measure"; "unit_cost";
    "stock_quantity"; "reorder_level"; "description"; "is_active";
    "boms"; "manufacturing_orders"; "bom_components"; "stock_moves" ].

(** [class WorkOrder(BaseModel)] (app/models/manufacturing.py) *)
Definition WorkOrder : list string :=
  BaseModel ++
  [ "work_order_number"; "manufacturing_order_id"; "bom_operation_id";
    "status_id"; "assigned_operator_id"; "planned_duration";
    "actual_duration"; "start_time"; "end_time"; "comments"; "issues";
    "manufacturing_order"; "bom_operation"; "status"; "assigned_operator" ].

(** What the access to an attribute gives the statements after it: nothing
    that this embedding reads when the class has the attribute (its value
    is a field of the class's record), and nothing at all when it has
    not. *)
Definition attribute (cls : list string) (name : string) : Type :=
  if str_in name cls then unit else Empty_set.

(** [cls.name], and [obj.name] on an object of the class: [AttributeError]
    when [name] is no attribute of the class. *)
Definition getattr (cls : list string) (name : string)
  : result (attribute cls name) :=
  match str_in name cls as b return result (if b then unit else Empty_set)
  with
  | true => Return tt
  | false => Raise (PyError "AttributeError")
  end.

End Models.

(* ===================================================================== *)
(** * app/api/routes/stock.py *)
(* ===================================================================== *)

Module Product.
Record t : Type := mk {
  name : string;
  unit_cost : Q;
  stock_quantity : Z }.
End Product.

Module StockMoveType.
Record t : Type := mk { name : string }.
End StockMoveType.

Module Location.
Record t : Type := mk { deleted_at : option datetime }.
End Location.

(** The request body; [quantity] and [unit_cost] are [float]s. *)
Module StockMoveCreate.
Record t : Type := mk {
  product_id : UUID;
  move_type_id : UUID;
  quantity : Q;
  unit_cost : Q;
  reference_id : option UUID;
  reference_type : option string;
  location_id : UUID;
  notes : option string }.
End StockMoveCreate.

Module StockMove.
Record t : Type := mk {
  product_id : UUID;
  move_type_id : UUID;
  quantity : Z;
  unit_cost : Q;
  reference_id : option UUID;
  reference_type : option string;
  location_id : UUID;
  notes : option string;
  created_by_id : option UUID;
  deleted_at : option datetime }.
End StockMove.

Module Stock.

Record DB : Type := mkDB {
  products : gmap UUID Product.t;
  stock_move_types : gmap UUID StockMoveType.t;
  locations : gmap UUID Location.t;
  stock_moves : gmap UUID StockMove.t }.

(** [POST /stock/moves].  [new_id] is the primary key drawn for the new
    stock move.  The first statement builds the query
    [db.query(Product).filter(Product.id == ..., Product.deleted_at == None)]
    and so evaluates [Product.deleted_at]. *)
Definition create_stock_move (stock_move_data : StockMoveCreate.t)
    (current_user : User.t) (db : DB) (new_id : UUID)
  : result (DB * StockMove.t) :=
  (* Validate product exists *)
  deleted_at ← Models.getattr Models.Product "deleted_at";
  match deleted_at : Empty_set with end.

End Stock.

(* ===================================================================== *)
(** * app/api/routes/bom.py *)
(* ===================================================================== *)

Module BOM.
Record t : Type := mk {
  total_cost : Q;
  deleted_at : option datetime }.
End BOM.

Module BOMComponent.
Record t : Type := mk {
  bom_id : UUID;
  product_id : UUID;
  quantity : Q;
  unit_cost : Q;
  created_by_id : option UUID;
  updated_by_id : option UUID;
  deleted_at : option datetime }.
End BOMComponent.

Module BOMOperation.
Record t : Type := mk {
  bom_id : UUID;
  work_center_id : UUID;
  sequence : Z;
  description : string;
  duration : Z;
  setup_time : Z;
  cost_per_hour : Q;
  created_by_id : option UUID;
  updated_by_id : option UUID;
  deleted_at : option datetime }.
End BOMOperation.

Module WorkCenter.
Record t : Type := mk { deleted_at : option datetime }.
End WorkCenter.

(** Request bodies.  In an update every field is optional; [None] is a field
    the request left unset ([dict(exclude_unset=True)] skips it). *)
Module BOMComponentCreate.
Record t : Type := mk { product_id : UUID; quantity : Q; unit_cost : Q }.
End BOMComponentCreate.

Module BOMOperationCreate.
Record t : Type := mk {
  work_center_id : UUID;
  sequence : Z;
  description : string;
  duration : Z;
  setup_time : Z;
  cost_per_hour : Q }.
End BOMOperationCreate.

Module BOMOperationUpdate.
Record t : Type := mk {
  work_center_id : option UUID;
  sequence : option Z;
  description : option string;
  duration : option Z;
  setup_time : option Z;
  cost_per_hour : option Q }.
End BOMOperationUpdate.

Module Bom.

Record DB : Type := mkDB {
  boms : gmap UUID BOM.t;
  bom_components : gmap UUID BOMComponent.t;
  bom_operations : gmap UUID BOMOperation.t;
  products : gmap UUID Product.t;
  work_centers : gmap UUID WorkCenter.t }.

(** The arithmetic of [calculate_bom_cost_detailed], on the components and
    operations its two queries return:
    [(material_cost, labor_cost, total_cost, component_count,
      operation_count)].  The columns [quantity], [unit_cost] and
    [cost_per_hour] are [Numeric] and hold [Decimal]s, [duration] and
    [setup_time] are [Integer] and hold [int]s. *)
Definition cost_breakdown (components : list BOMComponent.t)
    (operations : list BOMOperation.t)
  : result (Python.number * Python.number * Python.number * nat * nat) :=
  material_cost ←
    Python.sum
      (map (λ component,
              Python.mul (Python.Decimal (BOMComponent.quantity component))
                         (Python.Decimal (BOMComponent.unit_cost component)))
           components);
  let component_count := length components in
  labor_cost ←
    Python.sum
      (map (λ operation,
              hours ← Python.truediv (BOMOperation.duration operation
                                      + BOMOperation.setup_time operation) 60;
              Python.mul hours
                (Python.Decimal (BOMOperation.cost_per_hour operation)))
           operations);
  let operation_count := length operations in
  total_cost ← Python.add material_cost labor_cost;
  Return
    (material_cost, labor_cost, total_cost, component_count, operation_count).

Definition active_components (autoflush : bool) (stored current : DB)
    (bom_id : UUID) : list BOMComponent.t :=
  (query_all autoflush (bom_components stored) (bom_components current)
     (λ c, N.eqb (BOMComponent.bom_id c) bom_id
           && is_None (BOMComponent.deleted_at c))).*2.

Definition active_operations (autoflush : bool) (stored current : DB)
    (bom_id : UUID) : list BOMOperation.t :=
  (query_all autoflush (bom_operations stored) (bom_operations current)
     (λ o, N.eqb (BOMOperation.bom_id o) bom_id
           && is_None (BOMOperation.deleted_at o))).*2.

Definition calculate_bom_cost_detailed (autoflush : bool)
    (stored current : DB) (bom_id : UUID)
  : result (Python.number * Python.number * Python.number * nat * nat) :=
  cost_breakdown (active_components autoflush stored current bom_id)
                 (active_operations autoflush stored current bom_id).

Definition calculate_bom_cost (autoflush : bool) (stored current : DB)
    (bom_id : UUID) : result Python.number :=
  '(material_cost, labor_cost, total_cost, _, _) ←
    calculate_bom_cost_detailed autoflush stored current bom_id;
  Return total_cost.

Definition set_bom_operations (db : DB) (o : gmap UUID BOMOperation.t) : DB :=
  {| boms := boms db; bom_components := bom_components db;
     bom_operations := o; products := products db;
     work_centers := work_centers db |}.

(** [POST /bom/{bom_id}/components].  After the BOM is found, the query for
    the product evaluates [Product.deleted_at]. *)
Definition create_bom_component (autoflush : bool) (bom_id : UUID)
    (component_data : BOMComponentCreate.t) (current_user : User.t)
    (db : DB) (new_id : UUID) : result (DB * BOMComponent.t) :=
  (* Check if BOM exists *)
  bom ←
    match query_get autoflush (boms db) (boms db) bom_id
            (λ b, is_None (BOM.deleted_at b)) with
    | Some b => Return b
    | None => Raise (HTTPException 404 "BOM not found")
    end;
  (* Check if product exists *)
  deleted_at ← Models.getattr Models.Product "deleted_at";
  match deleted_at : Empty_set with end.

(** [POST /bom/{bom_id}/operations] *)
Definition create_bom_operation (autoflush : bool) (bom_id : UUID)
    (operation_data : BOMOperationCreate.t) (current_user : User.t)
    (db : DB) (new_id : UUID) : result (DB * BOMOperation.t) :=
  (* Check if BOM exists *)
  _ ←
    match query_get autoflush (boms db) (boms db) bom_id
            (λ b, is_None (BOM.deleted_at b)) with
    | Some b => Return b
    | None => Raise (HTTPException 404 "BOM not found")
    end;
  (* Check if work center exists *)
  _ ←
    match query_get autoflush (work_centers db) (work_centers db)
            (BOMOperationCreate.work_center_id operation_data)
            (λ w, is_None (WorkCenter.deleted_at w)) with
    | Some w => Return w
    | None => Raise (HTTPException 404 "Work center not found")
    end;
  (* Create new BOM operation *)
  let new_operation :=
    {| BOMOperation.bom_id := bom_id;
       BOMOperation.work_center_id :=
         BOMOperationCreate.work_center_id operation_data;
       BOMOperation.sequence := BOMOperationCreate.sequence operation_data;
       BOMOperation.description :=
         BOMOperationCreate.description operation_data;
       BOMOperation.duration := BOMOperationCreate.duration operation_data;
       BOMOperation.setup_time :=
         BOMOperationCreate.setup_time operation_data;
       BOMOperation.cost_per_hour :=
         BOMOperationCreate.cost_per_hour operation_data;
       BOMOperation.created_by_id := Some (User.id current_user);
       BOMOperation.updated_by_id := None;
       BOMOperation.deleted_at := None |} in
  (* db.add(new_operation); db.commit() *)
  Return
    (set_bom_operations db (<[new_id := new_operation]> (bom_operations db)),
     new_operation).

(** [PUT /bom/{bom_id}/operations/{operation_id}] *)
Definition update_bom_operation (autoflush : bool) (bom_id operation_id : UUID)
    (operation_update : BOMOperationUpdate.t) (current_user : User.t)
    (db : DB) : result (DB * BOMOperation.t) :=
  operation ←
    match query_get autoflush (bom_operations db) (bom_operations db)
            operation_id
            (λ o, N.eqb (BOMOperation.bom_id o) bom_id
                  && is_None (BOMOperation.deleted_at o)) with
    | Some o => Return o
    | None => Raise (HTTPException 404 "BOM operation not found")
    end;
  (* Update operation fields *)
  let operation' :=
    {| BOMOperation.bom_id := BOMOperation.bom_id operation;
       BOMOperation.work_center_id :=
         default (BOMOperation.work_center_id operation)
                 (BOMOperationUpdate.work_center_id operation_update);
       BOMOperation.sequence :=
         default (BOMOperation.sequence operation)
                 (BOMOperationUpdate.sequence operation_update);
       BOMOperation.description :=
         default (BOMOperation.description operation)
                 (BOMOperationUpdate.description operation_update);
       BOMOperation.duration :=
         default (BOMOperation.duration operation)
                 (BOMOperationUpdate.duration operation_update);
       BOMOperation.setup_time :=
         default (BOMOperation.setup_time operation)
                 (BOMOperationUpdate.setup_time operation_update);
       BOMOperation.cost_per_hour :=
         default (BOMOperation.cost_per_hour operation)
                 (BOMOperationUpdate.cost_per_hour operation_update);
       BOMOperation.created_by_id := BOMOperation.created_by_id operation;
       BOMOperation.updated_by_id := Some (User.id current_user);
       BOMOperation.deleted_at := BOMOperation.deleted_at operation |} in
  (* db.commit() *)
  Return
    (set_bom_operations db
       (<[operation_id := operation']> (bom_operations db)),
     operation').

(** [DELETE /bom/{bom_id}/operations/{operation_id}] *)
Definition delete_bom_operation (autoflush : bool) (bom_id operation_id : UUID)
    (current_user : User.t) (db : DB) (now : datetime) : result (DB * unit) :=
  operation ←
    match query_get autoflush (bom_operations db) (bom_operations db)
            operation_id
            (λ o, N.eqb (BOMOperation.bom_id o) bom_id
                  && is_None (BOMOperation.deleted_at o)) with
    | Some o => Return o
    | None => Raise (HTTPException 404 "BOM operation not found")
    end;
  (* Soft delete *)
  let operation' :=
    {| BOMOperation.bom_id := BOMOperation.bom_id operation;
       BOMOperation.work_center_id := BOMOperation.work_center_id operation;
       BOMOperation.sequence := BOMOperation.sequence operation;
       BOMOperation.description := BOMOperation.description operation;
       BOMOperation.duration := BOMOperation.duration operation;
       BOMOperation.setup_time := BOMOperation.setup_time operation;
       BOMOperation.cost_per_hour := BOMOperation.cost_per_hour operation;
       BOMOperation.created_by_id := BOMOperation.created_by_id operation;
       BOMOperation.updated_by_id := Some (User.id current_user);
       BOMOperation.deleted_at := Some now |} in
  (* db.commit() *)
  Return
    (set_bom_operations db
       (<[operation_id := operation']> (bom_operations db)),
     tt).

End Bom.

(* ===================================================================== *)
(** * Order numbers: the statements under "Generate order number" of
      app/api/routes/manufacturing_orders.py *)
(* ===================================================================== *)

Module OrderNumber.

(** [s.split(sep)] for a one-character separator. *)
Fixpoint split (sep : ascii) (s : string) : list string :=
  match s with
  | EmptyString => [EmptyString]
  | String c s' =>
      if Ascii.eqb c sep then EmptyString :: split sep s'
      else match split sep s' with
           | seg :: segs => String c seg :: segs
           | [] => [String c EmptyString]
           end
  end.

(** [int(s)] on a string of decimal digits; [ValueError] on the empty string
    and on a string with another character. *)
Definition int (s : string) : result Z :=
  match NilZero.uint_of_string s with
  | Some d => Return (Z.of_N (N.of_uint d))
  | None => Raise (PyError "ValueError")
  end.

(** [s.zfill(width)] for an unsigned [s]. *)
Definition zfill (width : nat) (s : string) : string :=
  string_of_list_ascii (replicate (width - String.length s) "0"%char) +:+ s.

(** [f"{n:04d}"]: at least four characters, padded with zeros after the
    sign. *)
Definition format_04d (n : Z) : string :=
  if n <? 0 then "-" +:+ zfill 3 (str_int (- n)) else zfill 4 (str_int n).

(** [ORDER BY order_number DESC ... .first()]: the greatest order number,
    compared character by character. *)
Definition order_by_desc_first (order_numbers : list string) : option string :=
  fold_left (λ best s,
               match best with
               | None => Some s
               | Some b => if String.ltb b s then Some s else Some b
               end) order_numbers None.

(** [order_number LIKE f"{prefix}-{today}-%"]: the pattern has no other
    wildcard, so it asks for a prefix. *)
Definition like (prefix today order_number : string) : bool :=
  String.prefix (prefix +:+ "-" +:+ today +:+ "-") order_number.

(** The statements under "Generate order number" of
    [create_manufacturing_order], which passes the prefix "MO":
    [order_numbers] is the [order_number] column of the table, [today] is
    [datetime.now().strftime("%Y%m%d")]. *)
Definition generate_order_number (prefix today : string)
    (order_numbers : list string) : result string :=
  let last_order :=
    order_by_desc_first (filter (λ s, like prefix today s = true)
                           order_numbers) in
  new_number ←
    match last_order with
    | Some order_number =>
        last_number ← int (List.last (split "-"%char order_number) "");
        Return (format_04d (last_number + 1))
    | None => Return "0001"
    end;
  Return (prefix +:+ "-" +:+ today +:+ "-" +:+ new_number).

End OrderNumber.

(* ===================================================================== *)
(** * app/api/routes/manufacturing_orders.py, work_orders.py *)
(* ===================================================================== *)

Module OrderStatus.
Record t : Type := mk { name : string }.
End OrderStatus.

Module ManufacturingOrder.
Record t : Type := mk {
  order_number : string;
  product_id : UUID;
  bom_id : UUID;
  quantity : Z;
  status_id : UUID;
  priority_id : UUID;
  planned_start_date : datetime;
  planned_end_date : datetime;
  actual_start_date : option datetime;
  actual_end_date : option datetime;
  assigned_to_id : option UUID;
  notes : option string;
  created_by_id : option UUID;
  updated_by_id : option UUID;
  deleted_at : option datetime }.
End ManufacturingOrder.

Module ManufacturingOrderCreate.
Record t : Type := mk {
  product_id : UUID;
  bom_id : UUID;
  quantity : Z;
  status_id : UUID;
  priority_id : UUID;
  planned_start_date : datetime;
  planned_end_date : datetime;
  assigned_to_id : option UUID;
  notes : option string }.
End ManufacturingOrderCreate.

Module WorkOrder.
Record t : Type := mk {
  work_order_number : string;
  manufacturing_order_id : UUID;
  bom_operation_id : UUID;
  status_id : UUID;
  assigned_operator_id : option UUID;
  planned_duration : Z;
  actual_duration : option Z;
  start_time : option datetime;
  end_time : option datetime;
  comments : option string;
  issues : option string;
  created_by_id : option UUID;
  updated_by_id : option UUID;
  deleted_at : option datetime }.
End WorkOrder.

Module WorkOrderCreate.
Record t : Type := mk {
  manufacturing_order_id : UUID;
  operation_id : UUID;
  work_center_id : UUID;
  status_id : UUID;
  planned_duration : Q;
  planned_start_date : datetime;
  planned_end_date : datetime;
  assigned_to_id : option UUID;
  notes : option string }.
End WorkOrderCreate.

Module WorkOrderStatusUpdate.
Record t : Type := mk {
  status_id : UUID;
  actual_start_date : option datetime;
  actual_end_date : option datetime;
  actual_duration : option Q;
  notes : option string }.
End WorkOrderStatusUpdate.

Module Orders.

Record DB : Type := mkDB {
  manufacturing_orders : gmap UUID ManufacturingOrder.t;
  work_orders : gmap UUID WorkOrder.t;
  order_statuses : gmap UUID OrderStatus.t }.

(** The [unique=True] constraint of the [order_number] column, checked when
    the new row is written. *)
Definition unique_violation (order_number : string)
    (order_numbers : list string) : bool :=
  str_in order_number order_numbers.

(** The [order_number] column of the manufacturing orders, which the
    creation route queries (soft-deleted orders included). *)
Definition manufacturing_order_numbers (db : DB) : list string :=
  map (λ ir : UUID * ManufacturingOrder.t,
         ManufacturingOrder.order_number ir.2)
      (map_to_list (manufacturing_orders db)).

(** [POST /manufacturing-orders] *)
Definition create_manufacturing_order
    (order_data : ManufacturingOrderCreate.t) (current_user : User.t)
    (db : DB) (today : string) (new_id : UUID)
  : result (DB * ManufacturingOrder.t) :=
  let order_numbers := manufacturing_order_numbers db in
  (* Generate order number (format: MO-YYYYMMDD-XXXX) *)
  order_number ← OrderNumber.generate_order_number "MO" today order_numbers;
  (* Create new manufacturing order *)
  let new_order :=
    {| ManufacturingOrder.order_number := order_number;
       ManufacturingOrder.product_id :=
         ManufacturingOrderCreate.product_id order_data;
       ManufacturingOrder.bom_id := ManufacturingOrderCreate.bom_id order_data;
       ManufacturingOrder.quantity :=
         ManufacturingOrderCreate.quantity order_data;
       ManufacturingOrder.status_id :=
         ManufacturingOrderCreate.status_id order_data;
       ManufacturingOrder.priority_id :=
         ManufacturingOrderCreate.priority_id order_data;
       ManufacturingOrder.planned_start_date :=
         ManufacturingOrderCreate.planned_start_date order_data;
       ManufacturingOrder.planned_end_date :=
         ManufacturingOrderCreate.planned_end_date order_data;
       ManufacturingOrder.actual_start_date := None;
       ManufacturingOrder.actual_end_date := None;
       ManufacturingOrder.assigned_to_id :=
         ManufacturingOrderCreate.assigned_to_id order_data;
       ManufacturingOrder.notes := ManufacturingOrderCreate.notes order_data;
       ManufacturingOrder.created_by_id := Some (User.id current_user);
       ManufacturingOrder.updated_by_id := None;
       ManufacturingOrder.deleted_at := None |} in
  (* db.add(new_order); db.commit() *)
  if unique_violation order_number order_numbers
  then Raise (PyError "IntegrityError")
  else
    Return
      ({| manufacturing_orders :=
            <[new_id := new_order]> (manufacturing_orders db);
          work_orders := work_orders db;
          order_statuses := order_statuses db |},
       new_order).

(** [POST /work-orders].  The first query,
    [db.query(WorkOrder).filter(WorkOrder.order_number.like(...))],
    evaluates [WorkOrder.order_number]; the column of the class is
    [work_order_number]. *)
Definition create_work_order (work_order_data : WorkOrderCreate.t)
    (current_user : User.t) (db : DB) (today : string) (new_id : UUID)
  : result (DB * WorkOrder.t) :=
  (* Generate order number (format: WO-YYYYMMDD-XXXX) *)
  order_number ← Models.getattr Models.WorkOrder "order_number";
  match order_number : Empty_set with end.

(** [PUT /work-orders/{work_order_id}/status].  [stamp] is
    [datetime.now().strftime('%Y-%m-%d %H:%M')], [utcnow] is
    [datetime.utcnow()].  Once the work order is found, the check of the
    assignee reads [work_order.assigned_to_id]; the column of the class is
    [assigned_operator_id]. *)
Definition update_work_order_status (autoflush : bool) (work_order_id : UUID)
    (status_update : WorkOrderStatusUpdate.t) (current_user : User.t)
    (db : DB) (stamp : string) (utcnow : datetime)
  : result (DB * WorkOrder.t) :=
  work_order ←
    match query_get autoflush (work_orders db) (work_orders db) work_order_id
            (λ w, is_None (WorkOrder.deleted_at w)) with
    | Some w => Return w
    | None => Raise (HTTPException 404 "Work order not found")
    end;
  (* Check if user is assigned to this work order or is an admin *)
  assigned_to_id ← Models.getattr Models.WorkOrder "assigned_to_id";
  match assigned_to_id : Empty_set with end.

End Orders.

(* ===================================================================== *)
(** * Scenarios: the concrete data of the examples *)
(* ===================================================================== *)

Module Scenario.

Definition operator : User.t :=
  {| User.id := 9%N;
     User.role := Some {| UserRole.id := 3%N; UserRole.name := "Operator" |} |}.

Definition widget (stock_quantity : Z) (unit_cost : Q) : Product.t :=
  {| Product.name := "Widget"; Product.unit_cost := unit_cost;
     Product.stock_quantity := stock_quantity |}.

(** One product (id 1), the three move types (ids 1, 2, 3), one location
    (id 1) and the given stock moves. *)
Definition stock_db (product : Product.t) (stock_moves : gmap N StockMove.t)
  : Stock.DB :=
  {| Stock.products := {[ 1%N := product ]};
     Stock.stock_move_types :=
       <[ 1%N := {| StockMoveType.name := "Receipt" |} ]>
       (<[ 2%N := {| StockMoveType.name := "Issue" |} ]>
        {[ 3%N := {| StockMoveType.name := "Adjustment" |} ]});
     Stock.locations := {[ 1%N := {| Location.deleted_at := None |} ]};
     Stock.stock_moves := stock_moves |}.

(** A request to move product 1 at location 1. *)
Definition stock_move (move_type_id : N) (quantity unit_cost : Q)
  : StockMoveCreate.t :=
  {| StockMoveCreate.product_id := 1%N;
     StockMoveCreate.move_type_id := move_type_id;
     StockMoveCreate.quantity := quantity;
     StockMoveCreate.unit_cost := unit_cost;
     StockMoveCreate.reference_id := None;
     StockMoveCreate.reference_type := None;
     StockMoveCreate.location_id := 1%N;
     StockMoveCreate.notes := None |}.

(** A row of the stock moves: product 1 moved at location 1. *)
Definition stock_move_row (move_type_id : N) (quantity : Z) (unit_cost : Q)
  : StockMove.t :=
  {| StockMove.product_id := 1%N;
     StockMove.move_type_id := move_type_id;
     StockMove.quantity := quantity;
     StockMove.unit_cost := unit_cost;
     StockMove.reference_id := None;
     StockMove.reference_type := None;
     StockMove.location_id := 1%N;
     StockMove.notes := None;
     StockMove.created_by_id := Some 9%N;
     StockMove.deleted_at := None |}.

(** The work-order statuses of the specification and the [Done] status the
    cascade looks for (ids 1 to 6). *)
Definition order_statuses : gmap N OrderStatus.t :=
  <[ 1%N := {| OrderStatus.name := "Ready" |} ]>
  (<[ 2%N := {| OrderStatus.name := "Started" |} ]>
   (<[ 3%N := {| OrderStatus.name := "Paused" |} ]>
    (<[ 4%N := {| OrderStatus.name := "Completed" |} ]>
     (<[ 5%N := {| OrderStatus.name := "Canceled" |} ]>
      {[ 6%N := {| OrderStatus.name := "Done" |} ]})))).

Definition manufacturing_order (order_number : string) (quantity : Z)
    (status_id : N) : ManufacturingOrder.t :=
  {| ManufacturingOrder.order_number := order_number;
     ManufacturingOrder.product_id := 1%N;
     ManufacturingOrder.bom_id := 1%N;
     ManufacturingOrder.quantity := quantity;
     ManufacturingOrder.status_id := status_id;
     ManufacturingOrder.priority_id := 1%N;
     ManufacturingOrder.planned_start_date := 0;
     ManufacturingOrder.planned_end_date := 100;
     ManufacturingOrder.actual_start_date := None;
     ManufacturingOrder.actual_end_date := None;
     ManufacturingOrder.assigned_to_id := None;
     ManufacturingOrder.notes := None;
     ManufacturingOrder.created_by_id := None;
     ManufacturingOrder.updated_by_id := None;
     ManufacturingOrder.deleted_at := None |}.

Definition manufacturing_order_data (quantity : Z)
  : ManufacturingOrderCreate.t :=
  {| ManufacturingOrderCreate.product_id := 1%N;
     ManufacturingOrderCreate.bom_id := 1%N;
     ManufacturingOrderCreate.quantity := quantity;
     ManufacturingOrderCreate.status_id := 1%N;
     ManufacturingOrderCreate.priority_id := 1%N;
     ManufacturingOrderCreate.planned_start_date := 0;
     ManufacturingOrderCreate.planned_end_date := 100;
     ManufacturingOrderCreate.assigned_to_id := None;
     ManufacturingOrderCreate.notes := None |}.

(** A work order of manufacturing order 1, whose operator is
    [operator]. *)
Definition work_order (work_order_number : string) (status_id : N)
    (deleted_at : option Z) : WorkOrder.t :=
  {| WorkOrder.work_order_number := work_order_number;
     WorkOrder.manufacturing_order_id := 1%N;
     WorkOrder.bom_operation_id := 1%N;
     WorkOrder.status_id := status_id;
     WorkOrder.assigned_operator_id := Some 9%N;
     WorkOrder.planned_duration := 60;
     WorkOrder.actual_duration := None;
     WorkOrder.start_time := None;
     WorkOrder.end_time := None;
     WorkOrder.comments := None;
     WorkOrder.issues := None;
     WorkOrder.created_by_id := None;
     WorkOrder.updated_by_id := None;
     WorkOrder.deleted_at := deleted_at |}.

(** Manufacturing order 1 (status Started) with the given work orders. *)
Definition orders_db (work_orders : gmap N WorkOrder.t) : Orders.DB :=
  {| Orders.manufacturing_orders :=
       {[ 1%N := manufacturing_order "MO-20240101-0001" 10 2%N ]};
     Orders.work_orders := work_orders;
     Orders.order_statuses := order_statuses |}.

Definition empty_orders_db : Orders.DB :=
  {| Orders.manufacturing_orders := ∅;
     Orders.work_orders := ∅;
     Orders.order_statuses := order_statuses |}.

Definition status_update (status_id : N) : WorkOrderStatusUpdate.t :=
  {| WorkOrderStatusUpdate.status_id := status_id;
     WorkOrderStatusUpdate.actual_start_date := None;
     WorkOrderStatusUpdate.actual_end_date := None;
     WorkOrderStatusUpdate.actual_duration := None;
     WorkOrderStatusUpdate.notes := None |}.

Definition component (quantity unit_cost : Q) : BOMComponent.t :=
  {| BOMComponent.bom_id := 1%N; BOMComponent.product_id := 1%N;
     BOMComponent.quantity := quantity; BOMComponent.unit_cost := unit_cost;
     BOMComponent.created_by_id := None; BOMComponent.updated_by_id := None;
     BOMComponent.deleted_at := None |}.

Definition operation (duration setup_time : Z) (cost_per_hour : Q)
  : BOMOperation.t :=
  {| BOMOperation.bom_id := 1%N; BOMOperation.work_center_id := 1%N;
     BOMOperation.sequence := 1; BOMOperation.description := "Assemble";
     BOMOperation.duration := duration;
     BOMOperation.setup_time := setup_time;
     BOMOperation.cost_per_hour := cost_per_hour;
     BOMOperation.created_by_id := None; BOMOperation.updated_by_id := None;
     BOMOperation.deleted_at := None |}.

(** BOM 1 with the given stored total cost and components, no operation,
    product 1 and work center 1. *)
Definition bom_db (total_cost : Q) (components : gmap N BOMComponent.t)
  : Bom.DB :=
  {| Bom.boms :=
       {[ 1%N := {| BOM.total_cost := total_cost; BOM.deleted_at := None |} ]};
     Bom.bom_components := components;
     Bom.bom_operations := ∅;
     Bom.products := {[ 1%N := widget 100 10 ]};
     Bom.work_centers := {[ 1%N := {| WorkCenter.deleted_at := None |} ]} |}.

Definition operation_data (duration setup_time : Z) (cost_per_hour : Q)
  : BOMOperationCreate.t :=
  {| BOMOperationCreate.work_center_id := 1%N;
     BOMOperationCreate.sequence := 1;
     BOMOperationCreate.description := "Assemble";
     BOMOperationCreate.duration := duration;
     BOMOperationCreate.setup_time := setup_time;
     BOMOperationCreate.cost_per_hour := cost_per_hour |}.

Definition component_data (quantity unit_cost : Q) : BOMComponentCreate.t :=
  {| BOMComponentCreate.product_id := 1%N;
     BOMComponentCreate.quantity := quantity;
     BOMComponentCreate.unit_cost := unit_cost |}.

End Scenario.

(* ===================================================================== *)
(** * Properties *)
(* ===================================================================== *)

(** ** Stock ledger *)

(** The failure the specification calls [InsufficientStock]: the business
    logic error of code [INSUFFICIENT_STOCK] whose details carry the required
    and the available quantity. *)
Definition InsufficientStock (e : exception) (required available : Z) : Prop :=
  ∃ message details,
    e = TrackMintException CBusinessLogicError message "INSUFFICIENT_STOCK"
          details
    ∧ dict_get details "required_quantity" JNone = JInt required
    ∧ dict_get details "available_quantity" JNone = JInt available.

(** The check that raises it: [validate_stock_availability] fails with
    [INSUFFICIENT_STOCK], carrying both quantities, exactly when the
    required quantity is above the available one. *)
Lemma validate_stock_availability_outcome (product_id : string)
    (required available : Z) :
  (available < required →
   ∃ e, validate_stock_availability product_id required available = Raise e
        ∧ InsufficientStock e required available)
  ∧ (required ≤ available →
     validate_stock_availability product_id required available = Return tt).
Proof.
  unfold validate_stock_availability.
  destruct (Z.ltb_spec available required) as [Hlt|Hge].
  - split; [ | lia ]. intros _. eexists. split; [ reflexivity | ].
    do 2 eexists. repeat split; reflexivity.
  - split; [ lia | reflexivity ].
Qed.

(** [POST /stock/moves] ends in [AttributeError] for every request: the
    class [Product] has no attribute [deleted_at]. *)
Lemma create_stock_move_raises (stock_move_data : StockMoveCreate.t)
    (current_user : User.t) (db : Stock.DB) (new_id : N) :
  Stock.create_stock_move stock_move_data current_user db new_id
  = Raise (PyError "AttributeError").
Proof. reflexivity. Qed.

(** C1 fails on the code.  Against a stock of 20, an Issue of 15 and an
    Issue of 30 through [POST /stock/moves] both end in [AttributeError],
    raised while the first query of the route is built: the Issue of 15 is
    not applied, the Issue of 30 is not refused with [INSUFFICIENT_STOCK],
    and so it is for every request.  The error the specification describes
    is the one [validate_stock_availability] raises, carrying the required
    and the available quantity; no route calls that check. *)
Theorem issue_stock_move_raises_AttributeError :
  let db := Scenario.stock_db (Scenario.widget 20 10) ∅ in
  let issue quantity := Scenario.stock_move 2 quantity 10 in
  Stock.create_stock_move (issue 15%Q) Scenario.operator db 4%N
  = Raise (PyError "AttributeError")
  ∧ Stock.products
      (committed db
         (Stock.create_stock_move (issue 15%Q) Scenario.operator db 4%N))
    !! 1%N = Some (Scenario.widget 20 10)
  ∧ Stock.create_stock_move (issue 30%Q) Scenario.operator db 4%N
    = Raise (PyError "AttributeError")
  ∧ ¬ InsufficientStock (PyError "AttributeError") 30 20
  ∧ (∀ stock_move_data current_user db new_id,
       Stock.create_stock_move stock_move_data current_user db new_id
       = Raise (PyError "AttributeError"))
  ∧ (∃ e, validate_stock_availability "1" 30 20 = Raise e
          ∧ InsufficientStock e 30 20)
  ∧ validate_stock_availability "1" 15 20 = Return tt.
Proof.
  cbv zeta. split; [ reflexivity | ]. split; [ reflexivity | ].
  split; [ reflexivity | ].
  split; [ intros (message & details & Heq & _); discriminate Heq | ].
  split; [ exact create_stock_move_raises | ].
  split; [ | reflexivity ].
  apply (validate_stock_availability_outcome "1" 30 20). lia.
Qed.

(** C2 fails on the code.  The first example scenario of the
    specification, a product with stock 100 at cost 10.00 receiving 50 at
    16.00 through [POST /stock/moves], ends in [AttributeError]: no stock
    move is stored and the product keeps stock 100 at cost 10.00 instead of
    150 at 12.00. *)
Theorem receipt_stock_move_raises_AttributeError :
  let db := Scenario.stock_db (Scenario.widget 100 10) ∅ in
  let receipt := Scenario.stock_move 1 50 16 in
  let outcome := Stock.create_stock_move receipt Scenario.operator db 4%N in
  outcome = Raise (PyError "AttributeError")
  ∧ Stock.products (committed db outcome) !! 1%N
    = Some (Scenario.widget 100 10)
  ∧ Stock.stock_moves (committed db outcome) = ∅.
Proof. cbv zeta. repeat split; reflexivity. Qed.

(** ** Work-order status transitions *)

(** The transition table of the specification. *)
Inductive transition_edge : string → string → Prop :=
| Ready_Started : transition_edge "Ready" "Started"
| Ready_Canceled : transition_edge "Ready" "Canceled"
| Started_Paused : transition_edge "Started" "Paused"
| Started_Completed : transition_edge "Started" "Completed"
| Started_Canceled : transition_edge "Started" "Canceled"
| Paused_Started : transition_edge "Paused" "Started"
| Paused_Canceled : transition_edge "Paused" "Canceled".

(** The failure the specification calls [InvalidStatusTransition]. *)
Definition InvalidStatusTransition (e : exception)
    (current_status new_status : string) : Prop :=
  ∃ message,
    e = TrackMintException CBusinessLogicError message
          "INVALID_STATUS_TRANSITION"
          [("current_status", JStr current_status);
           ("new_status", JStr new_status)].

Lemma str_in_spec (x : string) (l : list string) :
  str_in x l = true ↔ x ∈ l.
Proof.
  induction l as [|y l IH]; cbn.
  - split; [ discriminate | intros H; inversion H ].
  - rewrite orb_true_iff, IH, String.eqb_eq, elem_of_cons. reflexivity.
Qed.

(** The targets the validator allows from a status are those of its table
    row; a status without a row allows none. *)
Lemma valid_transitions_edge (current_status new_status : string) :
  str_in new_status (dict_get valid_transitions current_status []) = true
  ↔ transition_edge current_status new_status.
Proof.
  split.
  - unfold valid_transitions. cbn [dict_get].
    repeat match goal with
    | |- context [String.eqb ?a current_status] =>
        destruct (String.eqb_spec a current_status) as [<-|_]
    end;
    rewrite str_in_spec; intros Hin;
    repeat match type of Hin with
    | _ ∈ _ :: _ => apply elem_of_cons in Hin; destruct Hin as [->|Hin]
    | _ ∈ [] => inversion Hin
    end; constructor.
  - intros []; reflexivity.
Qed.

Lemma validate_transition_outcome (current_status new_status : string) :
  (transition_edge current_status new_status
   ∧ validate_work_order_status_transition current_status new_status
     = Return tt)
  ∨ (¬ transition_edge current_status new_status
     ∧ ∃ e, validate_work_order_status_transition current_status new_status
            = Raise e
            ∧ InvalidStatusTransition e current_status new_status).
Proof.
  unfold validate_work_order_status_transition.
  destruct (str_in new_status (dict_get valid_transitions current_status []))
    eqn:Hin; cbn.
  - left. split; [ | reflexivity ]. apply valid_transitions_edge, Hin.
  - right. split.
    + intros Hedge. apply valid_transitions_edge in Hedge. congruence.
    + eexists. split; [ reflexivity | ]. eexists. reflexivity.
Qed.

(** [PUT /work-orders/{work_order_id}/status] never returns: it answers 404
    for a work order that does not exist or is retired, and for every other
    one it ends in [AttributeError] when it reads [assigned_to_id], which
    the class [WorkOrder] does not have. *)
Lemma update_work_order_status_outcome (autoflush : bool) (work_order_id : N)
    (status_update : WorkOrderStatusUpdate.t) (current_user : User.t)
    (db : Orders.DB) (stamp : string) (utcnow : Z) :
  Orders.update_work_order_status autoflush work_order_id status_update
    current_user db stamp utcnow
  = match Orders.work_orders db !! work_order_id with
    | Some work_order =>
        if is_None (WorkOrder.deleted_at work_order)
        then Raise (PyError "AttributeError")
        else Raise (HTTPException 404 "Work order not found")
    | None => Raise (HTTPException 404 "Work order not found")
    end.
Proof.
  unfold Orders.update_work_order_status, query_get.
  destruct autoflush; cbn [flushed];
    (destruct (Orders.work_orders db !! work_order_id) as [work_order|];
     [ | reflexivity ]);
    destruct (is_None (WorkOrder.deleted_at work_order)); reflexivity.
Qed.

(** C3 fails on the code.  The transition check
    [validate_work_order_status_transition] implements the table: it
    succeeds exactly on the edges of the table Ready → {Started, Canceled},
    Started → {Paused, Completed, Canceled}, Paused → {Started, Canceled},
    fails with [INVALID_STATUS_TRANSITION] on every other pair, and so for
    every target from Completed and from Canceled.  The status-change route
    does not call it, and changes no status at all: for every work order
    that exists and is not retired, whatever the requested status, it ends
    in [AttributeError]. *)
Theorem status_route_raises_AttributeError :
  (∀ current_status new_status,
     (validate_work_order_status_transition current_status new_status
      = Return tt
      ↔ transition_edge current_status new_status)
     ∧ (¬ transition_edge current_status new_status →
        ∃ e, validate_work_order_status_transition current_status new_status
             = Raise e
             ∧ InvalidStatusTransition e current_status new_status))
  ∧ (∀ current_status new_status,
       current_status = "Completed" ∨ current_status = "Canceled" →
       ∃ e, validate_work_order_status_transition current_status new_status
            = Raise e
            ∧ InvalidStatusTransition e current_status new_status)
  ∧ (∀ autoflush work_order_id status_update current_user db stamp utcnow
       work_order,
       Orders.work_orders db !! work_order_id = Some work_order →
       WorkOrder.deleted_at work_order = None →
       Orders.update_work_order_status autoflush work_order_id
         status_update current_user db stamp utcnow
       = Raise (PyError "AttributeError")).
Proof.
  split; [ | split ].
  - intros current_status new_status.
    destruct (validate_transition_outcome current_status new_status)
      as [[Hedge Hok] | [Hnot (e & Hraise & Hkind)]].
    + split; [ tauto | ]. intros Hnot. contradiction.
    + split.
      * rewrite Hraise. split; [ discriminate | intros; contradiction ].
      * intros _. exists e. auto.
  - intros current_status new_status Hterminal.
    destruct (validate_transition_outcome current_status new_status)
      as [[Hedge _] | [_ Hraise]]; [ | exact Hraise ].
    exfalso. destruct Hterminal as [-> | ->]; inversion Hedge.
  - intros autoflush work_order_id status_update current_user db stamp utcnow
      work_order Hfound Hactive.
    rewrite update_work_order_status_outcome, Hfound, Hactive. reflexivity.
Qed.

(** A work order in Ready (1), asked by its operator to move to Started
    (2): the check accepts the pair, an edge of the table, and the route
    ends in [AttributeError]. *)
Lemma status_route_raises_AttributeError_witness :
  validate_work_order_status_transition "Ready" "Started" = Return tt
  ∧ Orders.update_work_order_status true 1%N (Scenario.status_update 2%N)
      Scenario.operator
      (Scenario.orders_db
         {[ 1%N := Scenario.work_order "WO-20240101-0001" 1%N None ]})
      "2024-01-01 10:00" 50
    = Raise (PyError "AttributeError").
Proof.
  destruct status_route_raises_AttributeError as (Hcheck & _ & Hroute).
  split.
  - apply Hcheck. constructor.
  - apply (Hroute true 1%N (Scenario.status_update 2%N) Scenario.operator
             _ "2024-01-01 10:00" 50
             (Scenario.work_order "WO-20240101-0001" 1%N None));
      reflexivity.
Defined.


(** ** Manufacturing-order quantity *)

(** The failure the specification calls [QuantityLimitExceeded], and the
    validation failure of a quantity that is not positive. *)
Definition QuantityLimitExceeded (e : exception) (quantity : Z) : Prop :=
  ∃ message,
    e = TrackMintException CBusinessLogicError message
          "QUANTITY_LIMIT_EXCEEDED"
          [("quantity", JInt quantity); ("max_quantity", JInt 10000)].

Definition InvalidQuantity (e : exception) (quantity : Z) : Prop :=
  ∃ message,
    e = TrackMintException CValidationError message "VALIDATION_ERROR"
          [("field", JStr "quantity"); ("value", JInt quantity)].

Lemma validate_quantity_outcome (quantity : Z) :
  (quantity ≤ 0 →
   ∃ e, validate_manufacturing_order_quantity quantity = Raise e
        ∧ InvalidQuantity e quantity)
  ∧ (quantity > 10000 →
     ∃ e, validate_manufacturing_order_quantity quantity = Raise e
          ∧ QuantityLimitExceeded e quantity)
  ∧ (1 ≤ quantity ≤ 10000 →
     validate_manufacturing_order_quantity quantity = Return tt).
Proof.
  unfold validate_manufacturing_order_quantity.
  destruct (Z.leb_spec quantity 0) as [Hle|Hgt].
  - split; [ | split ]; [ | lia | lia ].
    intros _. eexists. split; [ reflexivity | ]. eexists. reflexivity.
  - destruct (Z.gtb_spec quantity 10000) as [Hbig|Hsmall].
    + split; [ | split ]; [ lia | | lia ].
      intros _. eexists. split; [ reflexivity | ]. eexists. reflexivity.
    + split; [ | split ]; [ lia | lia | reflexivity ].
Qed.

(** C9 fails on the code for the creation route, which does not call the
    quantity check: a manufacturing order of 20,000 units, and one of 0
    units, are created, although the check refuses both quantities. *)
Lemma manufacturing_order_of_20000_units_is_created :
  (∃ e, validate_manufacturing_order_quantity 20000 = Raise e)
  ∧ (∃ e, validate_manufacturing_order_quantity 0 = Raise e)
  ∧ (∃ db' new_order,
       Orders.create_manufacturing_order
         (Scenario.manufacturing_order_data 20000) Scenario.operator
         Scenario.empty_orders_db "20240101" 1%N
       = Return (db', new_order)
       ∧ ManufacturingOrder.quantity
           <$> Orders.manufacturing_orders db' !! 1%N = Some 20000)
  ∧ (∃ db' new_order,
       Orders.create_manufacturing_order
         (Scenario.manufacturing_order_data 0) Scenario.operator
         Scenario.empty_orders_db "20240101" 1%N
       = Return (db', new_order)
       ∧ ManufacturingOrder.quantity
           <$> Orders.manufacturing_orders db' !! 1%N = Some 0).
Proof.
  split; [ eexists; reflexivity | ].
  split; [ eexists; reflexivity | ].
  split; do 2 eexists; split; reflexivity.
Qed.

(** ** Permission evaluator *)

(** The roles of the static configuration, and the permission set of a role
    name (empty for a name that is not configured). *)
Definition configured_roles : list string := map fst Rbac.ROLE_PERMISSIONS.

Definition role_permission_set (role_name : string) : list string :=
  dict_get Rbac.ROLE_PERMISSIONS role_name [].

Lemma dict_get_not_configured {V} (d : list (string * V)) key dflt :
  key ∉ map fst d → dict_get d key dflt = dflt.
Proof.
  induction d as [|[k v] d IH]; cbn; [ reflexivity | ].
  intros Hnot. apply not_elem_of_cons in Hnot as [Hne Hnot].
  destruct (String.eqb_spec k key) as [->|_]; [ contradiction | auto ].
Qed.

Lemma admin_has_every_permission (permission : Rbac.Permission) :
  str_in (Rbac.value permission) (role_permission_set "Admin") = true.
Proof. destruct permission; reflexivity. Qed.

(** C10.  [has_permission] is a function of the role name and the permission
    alone; it is true for every permission when the role is "Admin", false
    for every permission when the role name is not a configured role (and
    when the user has no role), and otherwise true exactly when the
    permission is in the role's static permission set. *)
Theorem has_permission_evaluates_static_mapping :
  (∀ user user' permission,
     UserRole.name <$> User.role user = UserRole.name <$> User.role user' →
     Rbac.has_permission user permission
     = Rbac.has_permission user' permission)
  ∧ (∀ user role permission,
       User.role user = Some role → UserRole.name role = "Admin" →
       Rbac.has_permission user permission = true)
  ∧ (∀ user role permission,
       User.role user = Some role →
       UserRole.name role ∉ configured_roles →
       Rbac.has_permission user permission = false)
  ∧ (∀ user permission,
       User.role user = None → Rbac.has_permission user permission = false)
  ∧ (∀ user role permission,
       User.role user = Some role →
       (Rbac.has_permission user permission = true
        ↔ Rbac.value permission ∈ role_permission_set (UserRole.name role))).
Proof.
  unfold Rbac.has_permission.
  split; [ | split; [ | split; [ | split ] ] ].
  - intros user user' permission Hsame.
    destruct (User.role user) as [role|], (User.role user') as [role'|];
      cbn in Hsame; try discriminate; [ | reflexivity ].
    injection Hsame as ->. reflexivity.
  - intros user role permission -> ->. apply admin_has_every_permission.
  - intros user role permission -> Hnot.
    rewrite (dict_get_not_configured _ _ _ Hnot). reflexivity.
  - intros user permission ->. reflexivity.
  - intros user role permission ->. apply str_in_spec.
Qed.

(** The users of the repository's tests: an operator may read work orders
    and may not manage the system, an administrator may, and the unconfigured
    role "TestRole" may do neither. *)
Lemma has_permission_evaluates_static_mapping_witness :
  let user role_name :=
    {| User.id := 1%N;
       User.role := Some {| UserRole.id := 1%N; UserRole.name := role_name |} |}
  in
  Rbac.has_permission (user "Operator") Rbac.READ_WORK_ORDER = true
  ∧ Rbac.has_permission (user "Operator") Rbac.MANAGE_SYSTEM = false
  ∧ Rbac.has_permission (user "Admin") Rbac.MANAGE_SYSTEM = true
  ∧ Rbac.has_permission (user "TestRole") Rbac.READ_WORK_ORDER = false.
Proof.
  cbv zeta.
  destruct has_permission_evaluates_static_mapping
    as (_ & Hadmin & Hunknown & _ & Hset).
  split; [ | split; [ | split ] ].
  - eapply Hset; [ reflexivity | ]. apply str_in_spec. reflexivity.
  - apply not_true_is_false. intros Htrue.
    eapply Hset in Htrue; [ | reflexivity ].
    apply str_in_spec in Htrue. discriminate Htrue.
  - eapply Hadmin; reflexivity.
  - eapply Hunknown; [ reflexivity | ].
    intros Hin. apply str_in_spec in Hin. discriminate Hin.
Defined.


(** ** BOM cost roll-up *)

Section RollUp.
Local Open Scope Q_scope.

(** The sum over a list, as the specification writes it: [Σ_{x ∈ l} f x]. *)
Fixpoint sum_over {A} (f : A → Q) (l : list A) : Q :=
  match l with
  | [] => 0
  | x :: l' => f x + sum_over f l'
  end.

Definition component_cost (component : BOMComponent.t) : Q :=
  BOMComponent.quantity component * BOMComponent.unit_cost component.

Definition operation_cost (operation : BOMOperation.t) : Q :=
  inject_Z (BOMOperation.duration operation
            + BOMOperation.setup_time operation) / 60
  * BOMOperation.cost_per_hour operation.

(** [r] is [x] rounded to two decimal places: a whole number of hundredths,
    at most half a hundredth away from [x] (whatever the rounding mode). *)
Definition rounded_to_2_places (x r : Q) : Prop :=
  (∃ n : Z, r == n # 100) ∧ Qabs (r - x) <= 1 # 200.

(** The Cost Roll-up in the words of the specification: the material cost
    is the sum over the components of quantity × unit_cost, rounded to two
    decimal places at the sum; the labor cost is the sum over the
    operations of ((duration + setup_time) / 60) × cost_per_hour; the total
    cost is their sum. *)
Definition rollUp (components : list BOMComponent.t)
    (operations : list BOMOperation.t) (materialCost laborCost totalCost : Q)
  : Prop :=
  rounded_to_2_places (sum_over component_cost components) materialCost
  ∧ laborCost == sum_over operation_cost operations
  ∧ totalCost == materialCost + laborCost.


(** A total that is an [int] or a [Decimal]. *)
Definition exact (a : Python.number) : Prop :=
  match a with
  | Python.float _ => False
  | _ => True
  end.

(** The sum of the component costs never raises: every term is a product
    of two [Decimal]s, and the total is the mathematical sum. *)
Lemma sum_of_component_costs (components : list BOMComponent.t)
    (total : Python.number) :
  exact total →
  ∃ total',
    fold_left (λ total term, total ← total; x ← term; Python.add total x)
      (map (λ component,
              Python.mul (Python.Decimal (BOMComponent.quantity component))
                         (Python.Decimal (BOMComponent.unit_cost component)))
           components)
      (Return total)
    = Return total'
    ∧ exact total'
    ∧ Python.value total'
      == Python.value total + sum_over component_cost components.
Proof.
  revert total. induction components as [|component components IH];
    intros total Hexact.
  - exists total. cbn. split; [ reflexivity | ]. split; [ exact Hexact | ].
    ring.
  - cbn [map fold_left sum_over].
    destruct total as [m|x|d]; [ | destruct Hexact | ].
    + destruct (IH (Python.Decimal (inject_Z m + component_cost component)) I)
        as (total' & Hsum & Hexact' & Hvalue).
      exists total'. split; [ exact Hsum | ]. split; [ exact Hexact' | ].
      rewrite Hvalue. cbn. ring.
    + destruct (IH (Python.Decimal (d + component_cost component)) I)
        as (total' & Hsum & Hexact' & Hvalue).
      exists total'. split; [ exact Hsum | ]. split; [ exact Hexact' | ].
      rewrite Hvalue. cbn. ring.
Qed.


(** Without operations, the roll-up of the code returns the sum of the
    component costs as material cost and as total cost, and no labor
    cost. *)
Lemma cost_breakdown_components (components : list BOMComponent.t) :
  ∃ material_cost total_cost,
    Bom.cost_breakdown components []
    = Return (material_cost, Python.int 0, total_cost, length components,
              0%nat)
    ∧ Python.value material_cost == sum_over component_cost components
    ∧ Python.value total_cost == sum_over component_cost components.
Proof.
  unfold Bom.cost_breakdown, Python.sum.
  destruct (sum_of_component_costs components (Python.int 0) I)
    as (material_cost & -> & Hexact & Hvalue).
  cbn in Hvalue. cbn [mbind result_bind map fold_left].
  destruct material_cost as [m|x|d]; [ | destruct Hexact | ].
  - eexists _, _. split; [ reflexivity | ]. cbn in *.
    split; [ rewrite Hvalue; ring | ].
    rewrite Z.add_0_r, Hvalue. ring.
  - eexists _, _. split; [ reflexivity | ]. cbn in *.
    split; [ rewrite Hvalue; ring | ]. rewrite Hvalue. ring.
Qed.


(** C6 as stated fails: a single component of quantity 0.001 at unit cost
    0.01 gives a material cost of 0.00001, which is not a value rounded to
    two decimal places. *)
Lemma material_cost_is_not_rounded :
  let components := [Scenario.component 0.001 0.01] in
  ∃ material_cost labor_cost total_cost,
    Bom.cost_breakdown components []
    = Return (material_cost, labor_cost, total_cost, 1%nat, 0%nat)
    ∧ Python.value material_cost == 0.00001
    ∧ ¬ rounded_to_2_places (sum_over component_cost components)
          (Python.value material_cost).
Proof.
  cbv zeta. eexists _, _, _. split; [ reflexivity | ].
  split; [ reflexivity | ].
  intros [[n Hn] _]. unfold Qeq in Hn. cbn in Hn. lia.
Qed.

(** C6 (amended).  For every list of components and no operation, the
    roll-up returns materialCost equal to the sum over the components of
    quantity × unit_cost, with no rounding applied, no laborCost, and
    totalCost equal to materialCost.  Components [(2, 5.00); (1, 3.00)]
    give materialCost 13.00 and totalCost 13.00. *)
Theorem roll_up_of_components :
  (∀ components,
     ∃ material_cost labor_cost total_cost,
       Bom.cost_breakdown components []
       = Return (material_cost, labor_cost, total_cost, length components,
                 0%nat)
       ∧ Python.value material_cost == sum_over component_cost components
       ∧ Python.value labor_cost == 0
       ∧ Python.value total_cost
         == Python.value material_cost + Python.value labor_cost)
  ∧ (∃ material_cost labor_cost total_cost,
       Bom.cost_breakdown [Scenario.component 2 5; Scenario.component 1 3] []
       = Return (material_cost, labor_cost, total_cost, 2%nat, 0%nat)
       ∧ Python.value material_cost == 13
       ∧ Python.value labor_cost == 0
       ∧ Python.value total_cost == 13).
Proof.
  split.
  - intros components.
    destruct (cost_breakdown_components components)
      as (material_cost & total_cost & Hret & Hmaterial & Htotal).
    exists material_cost, (Python.int 0), total_cost.
    split; [ exact Hret | ]. split; [ exact Hmaterial | ].
    split; [ reflexivity | ].
    rewrite Htotal, Hmaterial. cbn. ring.
  - eexists _, _, _. split; [ reflexivity | ]. repeat split; reflexivity.
Qed.



End RollUp.

(** ** Queries *)

Lemma flushed_same {R} (autoflush : bool) (table : gmap N R) :
  flushed autoflush table table = table.
Proof. destruct autoflush; reflexivity. Qed.

(** ** Consistency of the stored BOM total cost *)

(** The stored total cost of BOM [bom_id] is the total cost of the Cost
    Roll-up over its current non-retired components and operations. *)
Definition total_cost_consistent (db : Bom.DB) (bom_id : N) : Prop :=
  ∀ bom, Bom.boms db !! bom_id = Some bom →
         ∃ materialCost laborCost,
           rollUp (Bom.active_components true db db bom_id)
                  (Bom.active_operations true db db bom_id)
                  materialCost laborCost (BOM.total_cost bom).

(** A value rounded from zero is zero. *)
Lemma rounded_from_0 (r : Q) : rounded_to_2_places 0 r → (r == 0)%Q.
Proof.
  intros [[n Hn] Hnear]. rewrite Hn in *.
  apply Qabs_Qle_condition in Hnear as [Hlow Hhigh].
  unfold Qle, Qminus, Qplus, Qopp in Hlow, Hhigh. cbn in Hlow, Hhigh.
  assert (n = 0) as -> by lia. reflexivity.
Qed.

(** The operation routes never write the BOM: they leave every stored total
    cost as it was. *)
Lemma operation_routes_keep_total_cost
    (autoflush : bool) (bom_id : N) (current_user : User.t)
    (db db' : Bom.DB) :
  (∀ operation_data new_id operation,
     Bom.create_bom_operation autoflush bom_id operation_data current_user db
       new_id = Return (db', operation) →
     Bom.boms db' = Bom.boms db)
  ∧ (∀ operation_id operation_update operation,
       Bom.update_bom_operation autoflush bom_id operation_id
         operation_update current_user db = Return (db', operation) →
       Bom.boms db' = Bom.boms db)
  ∧ (∀ operation_id now,
       Bom.delete_bom_operation autoflush bom_id operation_id current_user db
         now = Return (db', tt) →
       Bom.boms db' = Bom.boms db).
Proof.
  split; [ | split ].
  - intros operation_data new_id operation. unfold Bom.create_bom_operation.
    destruct (query_get _ _ _ bom_id _); [ | discriminate ].
    destruct (query_get _ _ _ _ _); [ | discriminate ].
    cbn. intros [= <- _]. reflexivity.
  - intros operation_id operation_update operation.
    unfold Bom.update_bom_operation.
    destruct (query_get _ _ _ _ _); [ | discriminate ].
    cbn. intros [= <- _]. reflexivity.
  - intros operation_id now. unfold Bom.delete_bom_operation.
    destruct (query_get _ _ _ _ _); [ | discriminate ].
    cbn. intros [= <-]. reflexivity.
Qed.

(** C5 fails for the operation routes.  A BOM without children stores the
    total cost 0, consistently; adding the operation (duration 30, setup 10,
    rate 60.00) commits the operation and leaves the stored total cost at 0,
    while the total cost of the Cost Roll-up over the BOM's children is now
    40.00.  The roll-up of the code, which the route does not call, raises
    [TypeError] on these children. *)
Theorem create_bom_operation_leaves_total_cost_stale :
  let db := Scenario.bom_db 0 ∅ in
  total_cost_consistent db 1%N
  ∧ ∀ autoflush, ∃ db' operation,
      Bom.create_bom_operation autoflush 1%N (Scenario.operation_data 30 10 60)
        Scenario.operator db 5%N = Return (db', operation)
      ∧ Bom.bom_operations db' !! 5%N = Some operation
      ∧ Bom.boms db' !! 1%N
        = Some {| BOM.total_cost := 0; BOM.deleted_at := None |}
      ∧ (∃ materialCost laborCost totalCost,
           rollUp (Bom.active_components true db' db' 1%N)
                  (Bom.active_operations true db' db' 1%N)
                  materialCost laborCost totalCost)
      ∧ (∀ materialCost laborCost totalCost,
           rollUp (Bom.active_components true db' db' 1%N)
                  (Bom.active_operations true db' db' 1%N)
                  materialCost laborCost totalCost →
           (totalCost == 40)%Q)
      ∧ ¬ total_cost_consistent db' 1%N
      ∧ Bom.calculate_bom_cost true db' db' 1%N = Raise (PyError "TypeError").
Proof.
  cbv zeta.
  assert (Hrolled :
    ∀ db',
      Bom.active_components true db' db' 1%N = [] →
      (sum_over operation_cost (Bom.active_operations true db' db' 1%N)
       == 40)%Q →
      ∀ materialCost laborCost totalCost,
        rollUp (Bom.active_components true db' db' 1%N)
               (Bom.active_operations true db' db' 1%N)
               materialCost laborCost totalCost →
        (totalCost == 40)%Q).
  { intros db' -> Hoperations materialCost laborCost totalCost
      (Hmaterial%rounded_from_0 & Hlabor & Htotal).
    rewrite Htotal, Hmaterial, Hlabor, Hoperations. reflexivity. }
  split.
  - intros bom [= <-]. exists 0%Q, 0%Q. split; [ | split; reflexivity ].
    split; [ exists 0; reflexivity | ]. cbn. discriminate.
  - intros autoflush. do 2 eexists.
    split; [ destruct autoflush; reflexivity | ].
    split; [ reflexivity | ]. split; [ reflexivity | ].
    split.
    { exists 0%Q, 40%Q, 40%Q. split; [ | split; reflexivity ].
      split; [ exists 0; reflexivity | ]. cbn. discriminate. }
    split; [ apply Hrolled; reflexivity | ].
    split; [ | reflexivity ].
    intros Hconsistent.
    destruct (Hconsistent _ eq_refl) as (materialCost & laborCost & Hroll).
    apply Hrolled in Hroll; [ | reflexivity | reflexivity ].
    cbn in Hroll. discriminate Hroll.
Qed.

(** ** Order numbering *)

(** *** Strings *)

Lemma append_nil (t : string) : "" +:+ t = t.
Proof. reflexivity. Qed.

Lemma append_cons (c : ascii) (s t : string) :
  String c s +:+ t = String c (s +:+ t).
Proof. reflexivity. Qed.

Lemma append_assoc (s t u : string) : (s +:+ t) +:+ u = s +:+ (t +:+ u).
Proof.
  induction s as [|c s IH]; [ reflexivity | ].
  rewrite !append_cons. f_equal. exact IH.
Qed.

Lemma prefix_append (s t : string) : String.prefix s (s +:+ t) = true.
Proof.
  induction s as [|c s IH]; [ destruct t; reflexivity | ].
  rewrite append_cons. cbn.
  destruct (ascii_dec c c) as [_|Hne]; [ exact IH | contradiction ].
Qed.

(** A prefix of a string built on another string of the same length is that
    string. *)
Lemma prefix_same_length (s s' t t' : string) :
  String.length s = String.length s' →
  String.prefix (s +:+ t) (s' +:+ t') = true → s = s'.
Proof.
  revert s'. induction s as [|c s IH]; intros [|c' s'] Hlen;
    try discriminate Hlen; [ reflexivity | ].
  rewrite !append_cons. cbn.
  destruct (ascii_dec c c') as [->|_]; [ | discriminate ].
  intros Hprefix. f_equal. apply IH; [ | exact Hprefix ].
  cbn in Hlen. lia.
Qed.

Lemma prefix_append_inv (s t t' : string) :
  String.prefix (s +:+ t) (s +:+ t') = String.prefix t t'.
Proof.
  induction s as [|c s IH]; [ reflexivity | ].
  rewrite !append_cons. cbn.
  destruct (ascii_dec c c) as [_|Hne]; [ exact IH | contradiction ].
Qed.

Lemma ascii_compare_refl (c : ascii) : Ascii.compare c c = Eq.
Proof. unfold Ascii.compare. apply N.compare_refl. Qed.

(** Comparison skips a common prefix. *)
Lemma compare_append (s t t' : string) :
  String.compare (s +:+ t) (s +:+ t') = String.compare t t'.
Proof.
  induction s as [|c s IH]; [ reflexivity | ].
  rewrite !append_cons. cbn.
  rewrite ascii_compare_refl. exact IH.
Qed.

(** What follows the last separator: the segments before it do not count. *)
Lemma split_nonempty (sep : ascii) (s : string) : OrderNumber.split sep s ≠ [].
Proof.
  destruct s as [|c s]; cbn; [ discriminate | ].
  destruct (Ascii.eqb c sep); [ discriminate | ].
  destruct (OrderNumber.split sep s); discriminate.
Qed.

Lemma last_cons_nonempty {A} (x : A) (l : list A) (d : A) :
  l ≠ [] → List.last (x :: l) d = List.last l d.
Proof. destruct l; [ contradiction | reflexivity ]. Qed.

Lemma last_split_append (sep : ascii) (s t : string) :
  List.last (OrderNumber.split sep (s +:+ String sep t)) ""
  = List.last (OrderNumber.split sep t) "".
Proof.
  induction s as [|c s IH].
  - rewrite append_nil. cbn. rewrite Ascii.eqb_refl.
    apply last_cons_nonempty, split_nonempty.
  - rewrite append_cons. cbn [OrderNumber.split].
    destruct (Ascii.eqb c sep).
    + rewrite last_cons_nonempty by apply split_nonempty. exact IH.
    + destruct (OrderNumber.split sep (s +:+ String sep t))
        as [|seg [|seg' segs]] eqn:Hsplit.
      * exfalso. exact (split_nonempty _ _ Hsplit).
      * (* a single segment would hold the separator *)
        exfalso. clear IH.
        revert seg Hsplit. induction s as [|c' s IHs]; intros seg Hsplit.
        -- rewrite append_nil in Hsplit. cbn in Hsplit.
           rewrite Ascii.eqb_refl in Hsplit.
           injection Hsplit as _ Hrest. exact (split_nonempty _ _ Hrest).
        -- rewrite append_cons in Hsplit. cbn [OrderNumber.split] in Hsplit.
           destruct (Ascii.eqb c' sep).
           ++ injection Hsplit as _ Hrest.
              exact (split_nonempty _ _ Hrest).
           ++ destruct (OrderNumber.split sep (s +:+ String sep t))
                as [|seg1 [|seg2 segs]] eqn:Hinner.
              ** exact (split_nonempty _ _ Hinner).
              ** exact (IHs seg1 eq_refl).
              ** discriminate Hsplit.
      * rewrite <- IH. reflexivity.
Qed.

(** *** Four-digit counters *)

(** The decimal digit [k] (0 to 9) as a character, and the four decimal
    digits of a counter below 10000. *)
Definition digit (k : Z) : ascii := ascii_of_N (48 + Z.to_N k).

Definition four_digits (n : Z) : string :=
  String (digit (n / 1000))
    (String (digit (n / 100 mod 10))
       (String (digit (n / 10 mod 10))
          (String (digit (n mod 10)) EmptyString))).

(** The order number of a scope with a given counter. *)
Definition order_number (prefix today : string) (counter : Z) : string :=
  prefix +:+ "-" +:+ today +:+ "-" +:+ four_digits counter.

(** A property of all counters below 10000 that can be computed is checked
    by running it on each of them. *)
Lemma below_10000 (P : Z → bool) :
  forallb P (map Z.of_nat (seq 0 (Z.to_nat 10000))) = true →
  ∀ n, 0 ≤ n < 10000 → P n = true.
Proof.
  intros Hall n Hn. rewrite forallb_forall in Hall. apply Hall.
  apply in_map_iff. exists (Z.to_nat n). split; [ lia | ].
  apply in_seq. lia.
Qed.

(** How the code prints, parses and splits a counter below 10000. *)
Definition counter_round_trip (n : Z) : bool :=
  String.eqb (OrderNumber.format_04d n) (four_digits n)
  && match OrderNumber.int (four_digits n) with
     | Return m => m =? n
     | Raise _ => false
     end
  && String.eqb (List.last (OrderNumber.split "-" (four_digits n)) "")
       (four_digits n).

Lemma counter_round_trip_below_10000 (n : Z) :
  0 ≤ n < 10000 →
  OrderNumber.format_04d n = four_digits n
  ∧ OrderNumber.int (four_digits n) = Return n
  ∧ List.last (OrderNumber.split "-" (four_digits n)) "" = four_digits n.
Proof.
  intros Hn.
  assert (Hall : forallb counter_round_trip
                   (map Z.of_nat (seq 0 (Z.to_nat 10000)))
                 = true) by (vm_compute; reflexivity).
  pose proof (below_10000 _ Hall n Hn) as Hrt.
  unfold counter_round_trip in Hrt.
  apply andb_true_iff in Hrt as [Hrt Hsplit].
  apply andb_true_iff in Hrt as [Hformat Hint].
  apply String.eqb_eq in Hformat, Hsplit.
  split; [ exact Hformat | ]. split; [ | exact Hsplit ].
  destruct (OrderNumber.int (four_digits n)) as [m|e]; [ | discriminate ].
  apply Z.eqb_eq in Hint. congruence.
Qed.

Lemma digit_compare (a b : Z) :
  0 ≤ a < 10 → 0 ≤ b < 10 → Ascii.compare (digit a) (digit b) = (a ?= b).
Proof.
  intros Ha Hb. unfold Ascii.compare, digit.
  rewrite !N_ascii_embedding by lia.
  destruct (N.compare_spec (48 + Z.to_N a) (48 + Z.to_N b));
    destruct (Z.compare_spec a b); first [ reflexivity | lia ].
Qed.

(** Four-digit counters compare as strings the way they compare as
    numbers. *)
Lemma four_digits_compare (i j : Z) :
  0 ≤ i < 10000 → 0 ≤ j < 10000 →
  String.compare (four_digits i) (four_digits j) = (i ?= j).
Proof.
  intros Hi Hj. unfold four_digits. cbn [String.compare].
  rewrite !digit_compare by (Z.div_mod_to_equations; lia).
  destruct (Z.compare_spec (i / 1000) (j / 1000));
  destruct (Z.compare_spec (i / 100 mod 10) (j / 100 mod 10));
  destruct (Z.compare_spec (i / 10 mod 10) (j / 10 mod 10));
  destruct (Z.compare_spec (i mod 10) (j mod 10));
  symmetry;
  first [ apply Z.compare_eq_iff | apply Z.compare_lt_iff
        | apply Z.compare_gt_iff ];
  Z.div_mod_to_equations; lia.
Qed.

Lemma order_number_compare (prefix today : string) (i j : Z) :
  0 ≤ i < 10000 → 0 ≤ j < 10000 →
  String.compare (order_number prefix today i) (order_number prefix today j)
  = (i ?= j).
Proof.
  intros Hi Hj. unfold order_number.
  rewrite !(compare_append prefix), !(compare_append "-"),
    !(compare_append today), !(compare_append "-").
  apply four_digits_compare; assumption.
Qed.

Lemma order_number_ltb (prefix today : string) (i j : Z) :
  0 ≤ i < 10000 → 0 ≤ j < 10000 →
  String.ltb (order_number prefix today i) (order_number prefix today j)
  = (i <? j).
Proof.
  intros Hi Hj. unfold String.ltb, Z.ltb.
  rewrite order_number_compare by assumption. reflexivity.
Qed.

Lemma order_number_inj (prefix today : string) (i j : Z) :
  0 ≤ i < 10000 → 0 ≤ j < 10000 →
  order_number prefix today i = order_number prefix today j → i = j.
Proof.
  intros Hi Hj Heq.
  pose proof (order_number_compare prefix today i j Hi Hj) as Hcmp.
  rewrite Heq, order_number_compare in Hcmp by assumption.
  rewrite Z.compare_refl in Hcmp. symmetry in Hcmp.
  apply Z.compare_eq_iff, Hcmp.
Qed.

Lemma like_order_number (prefix today : string) (counter : Z) :
  OrderNumber.like prefix today (order_number prefix today counter) = true.
Proof.
  unfold OrderNumber.like, order_number.
  rewrite <- !append_assoc. apply prefix_append.
Qed.

(** An order number of another date, written with as many characters, is
    not in the scope. *)
Lemma like_other_date (prefix today today' : string) (counter : Z) :
  String.length today = String.length today' → today ≠ today' →
  OrderNumber.like prefix today' (order_number prefix today counter) = false.
Proof.
  intros Hlen Hne. apply not_true_is_false. intros Hlike. apply Hne.
  unfold OrderNumber.like, order_number in Hlike.
  rewrite !prefix_append_inv in Hlike.
  symmetry. exact (prefix_same_length _ _ _ _ (eq_sym Hlen) Hlike).
Qed.

Lemma last_split_order_number (prefix today : string) (counter : Z) :
  0 ≤ counter < 10000 →
  List.last (OrderNumber.split "-" (order_number prefix today counter)) ""
  = four_digits counter.
Proof.
  intros Hc. unfold order_number.
  change ("-" +:+ today +:+ "-" +:+ four_digits counter)
    with (String "-" (today +:+ String "-" (four_digits counter))).
  rewrite !last_split_append.
  apply counter_round_trip_below_10000, Hc.
Qed.

(** *** The next order number of a scope *)

(** The greatest of a list of counters, found the way the query finds the
    greatest order number. *)
Definition greatest_counter (counters : list Z) (best : option Z) : option Z :=
  fold_left (λ best j,
               match best with
               | None => Some j
               | Some b => if b <? j then Some j else Some b
               end) counters best.

Lemma greatest_counter_spec (counters : list Z) (best : option Z) :
  match greatest_counter counters best with
  | Some m =>
      (m ∈ counters ∨ best = Some m)
      ∧ (∀ j, j ∈ counters → j ≤ m)
      ∧ (∀ b, best = Some b → b ≤ m)
  | None => counters = [] ∧ best = None
  end.
Proof.
  revert best. induction counters as [|j counters IH]; intros best; cbn.
  - destruct best as [b|].
    + split; [ right; reflexivity | ]. split.
      * intros j Hj. inversion Hj.
      * intros b' [= <-]. lia.
    + split; reflexivity.
  - fold (greatest_counter counters
            (match best with
             | Some b => if b <? j then Some j else Some b
             | None => Some j
             end)).
    specialize (IH (match best with
                    | Some b => if b <? j then Some j else Some b
                    | None => Some j
                    end)).
    destruct (greatest_counter counters _) as [m|].
    + destruct IH as (Hin & Hmax & Hbest). split; [ | split ].
      * destruct Hin as [Hin | Hin]; [ left; apply elem_of_cons; auto | ].
        destruct best as [b|].
        -- destruct (Z.ltb_spec b j); injection Hin as <-;
             [ left; apply elem_of_cons; auto | right; reflexivity ].
        -- injection Hin as <-. left. apply elem_of_cons. auto.
      * intros j' Hj'. apply elem_of_cons in Hj' as [->|Hj']; [ | auto ].
        destruct best as [b|].
        -- destruct (Z.ltb_spec b j);
             [ apply Hbest; reflexivity
             | specialize (Hbest b eq_refl); lia ].
        -- apply Hbest. reflexivity.
      * intros b ->. destruct (Z.ltb_spec b j);
          [ specialize (Hbest j eq_refl); lia | apply Hbest; reflexivity ].
    + destruct IH as [_ Hnone]. destruct best as [b|];
        [ destruct (b <? j) | ]; discriminate Hnone.
Qed.

(** On the order numbers of one scope the query finds the one with the
    greatest counter. *)
Lemma order_by_desc_first_counters (prefix today : string)
    (counters : list Z) (best : option Z) :
  Forall (λ j, 0 ≤ j < 10000) counters →
  (∀ b, best = Some b → 0 ≤ b < 10000) →
  fold_left (λ best s,
               match best with
               | None => Some s
               | Some b => if String.ltb b s then Some s else Some b
               end)
    (map (order_number prefix today) counters)
    (order_number prefix today <$> best)
  = order_number prefix today <$> greatest_counter counters best.
Proof.
  intros Hrange. revert best.
  induction Hrange as [|j counters Hj _ IH]; intros best Hbest;
    [ reflexivity | ].
  cbn [map fold_left greatest_counter].
  fold (greatest_counter counters).
  destruct best as [b|]; cbn [fmap option_fmap option_map].
  - rewrite order_number_ltb by auto.
    destruct (Z.ltb_spec b j).
    + apply (IH (Some j)). intros b' [= <-]. exact Hj.
    + apply (IH (Some b)). exact Hbest.
  - apply (IH (Some j)). intros b' [= <-]. exact Hj.
Qed.

(** The scope [(prefix, today)] of a table holds exactly the order numbers
    with the counters 1 to [k]. *)
Definition scope_holds (prefix today : string) (table : list string) (k : Z)
  : Prop :=
  (∀ s, s ∈ table → OrderNumber.like prefix today s = true →
        ∃ j, 1 ≤ j ≤ k ∧ s = order_number prefix today j)
  ∧ (∀ j, 1 ≤ j ≤ k → order_number prefix today j ∈ table).

Lemma counters_of_scope (prefix today : string) (l : list string) (k : Z) :
  (∀ s, s ∈ l → ∃ j, 1 ≤ j ≤ k ∧ s = order_number prefix today j) →
  ∃ counters,
    l = map (order_number prefix today) counters
    ∧ Forall (λ j, 1 ≤ j ≤ k) counters.
Proof.
  induction l as [|s l IH]; intros Hall.
  - exists []. split; [ reflexivity | constructor ].
  - destruct (Hall s) as (j & Hj & ->); [ apply elem_of_cons; auto | ].
    destruct IH as (counters & -> & Hrange).
    { intros s' Hs'. apply Hall, elem_of_cons. auto. }
    exists (j :: counters). split; [ reflexivity | constructor; assumption ].
Qed.

(** The generator on a scope that holds the counters 1 to [k]: it returns
    the order number with the counter [k + 1], which the table does not
    hold. *)
Lemma generate_next (prefix today : string) (table : list string) (k : Z) :
  0 ≤ k < 9999 →
  scope_holds prefix today table k →
  OrderNumber.generate_order_number prefix today table
  = Return (order_number prefix today (k + 1))
  ∧ order_number prefix today (k + 1) ∉ table.
Proof.
  intros Hk [Honly Hevery]. split.
  - unfold OrderNumber.generate_order_number.
    destruct (counters_of_scope prefix today
                (filter (λ s, OrderNumber.like prefix today s = true) table) k)
      as (counters & Hfiltered & Hrange).
    { intros s Hs. apply list_elem_of_filter in Hs as [Hlike Hs]. auto. }
    rewrite Hfiltered. unfold OrderNumber.order_by_desc_first.
    pose proof (order_by_desc_first_counters prefix today counters None)
      as Hfold.
    cbn [fmap option_fmap option_map] in Hfold. rewrite Hfold; clear Hfold.
    2: { eapply Forall_impl; [ exact Hrange | ]. cbn. intros; lia. }
    2: { intros b [=]. }
    pose proof (greatest_counter_spec counters None) as Hgreatest.
    destruct (greatest_counter counters None) as [m|]; cbn.
    + destruct Hgreatest as ([Hin | [=]] & Hmax & _).
      rewrite Forall_forall in Hrange.
      assert (Hm : 1 ≤ m ≤ k) by auto.
      assert (Hkin : k ∈ counters).
      { assert (Hon : order_number prefix today k
                      ∈ map (order_number prefix today) counters).
        { rewrite <- Hfiltered. apply list_elem_of_filter.
          split; [ apply like_order_number | apply Hevery; lia ]. }
        apply list_elem_of_fmap in Hon as (j & Heq & Hj).
        apply order_number_inj in Heq; [ | lia | ].
        - subst j. exact Hj.
        - specialize (Hrange j Hj). cbn in Hrange. lia. }
      assert (m = k) by (specialize (Hmax k Hkin); lia). subst m.
      rewrite last_split_order_number by lia.
      destruct (counter_round_trip_below_10000 k) as (_ & -> & _); [ lia | ].
      cbn.
      destruct (counter_round_trip_below_10000 (k + 1)) as (-> & _);
        [ lia | ].
      reflexivity.
    + destruct Hgreatest as [-> _]. cbn.
      assert (k = 0).
      { destruct (decide (k = 0)) as [|Hne]; [ assumption | exfalso ].
        assert (Hon : order_number prefix today k
                      ∈ filter (λ s, OrderNumber.like prefix today s = true)
                          table).
        { apply list_elem_of_filter.
          split; [ apply like_order_number | apply Hevery; lia ]. }
        rewrite Hfiltered in Hon. inversion Hon. }
      subst k. reflexivity.
  - intros Hin.
    destruct (Honly _ Hin (like_order_number _ _ _)) as (j & Hj & Heq).
    apply order_number_inj in Heq; lia.
Qed.

(** [n] sequential calls of the generator for one scope, each generated
    number being stored before the next call: the numbers in the order of
    the calls. *)
Fixpoint sequential_calls (prefix today : string) (n : nat)
    (table : list string) : result (list string) :=
  match n with
  | O => Return []
  | S n' =>
      number ← OrderNumber.generate_order_number prefix today table;
      numbers ← sequential_calls prefix today n' (number :: table);
      Return (number :: numbers)
  end.

Lemma scope_holds_next (prefix today : string) (table : list string) (k : Z) :
  0 ≤ k →
  scope_holds prefix today table k →
  scope_holds prefix today (order_number prefix today (k + 1) :: table)
    (k + 1).
Proof.
  intros Hk [Honly Hevery]. split.
  - intros s Hs Hlike. apply elem_of_cons in Hs as [-> | Hs].
    + exists (k + 1). split; [ lia | reflexivity ].
    + destruct (Honly s Hs Hlike) as (j & Hj & ->).
      exists j. split; [ lia | reflexivity ].
  - intros j Hj. apply elem_of_cons.
    destruct (decide (j = k + 1)) as [-> | Hne]; [ left; reflexivity | ].
    right. apply Hevery. lia.
Qed.

Lemma sequential_calls_count (prefix today : string) (n : nat)
    (table : list string) (k : Z) :
  0 ≤ k → k + Z.of_nat n ≤ 9999 →
  scope_holds prefix today table k →
  sequential_calls prefix today n table
  = Return (map (λ i, order_number prefix today (k + Z.of_nat i)) (seq 1 n)).
Proof.
  revert table k. induction n as [|n IH]; intros table k Hk Hn Hscope;
    [ reflexivity | ].
  cbn [sequential_calls].
  destruct (generate_next prefix today table k) as [-> _];
    [ lia | exact Hscope | ].
  cbn. rewrite (IH _ (k + 1)); [ | lia | lia | ].
  - cbn [mbind result_bind mret result_ret].
    change (seq 1 (S n)) with (1%nat :: seq 2 n). cbn [map].
    replace (k + Z.of_nat 1) with (k + 1) by lia. do 2 f_equal.
    rewrite <- (seq_shift n 1), map_map. apply map_ext.
    intros i. f_equal. lia.
  - apply scope_holds_next; [ lia | exact Hscope ].
Qed.

(** The order-number column after a row is inserted under a fresh key. *)
Lemma column_insert {R} (f : R → string) (table : gmap N R) (i : N) (row : R) :
  table !! i = None →
  ∀ s, s ∈ map (λ ir : N * R, f ir.2) (map_to_list (<[i := row]> table))
       ↔ s = f row
         ∨ s ∈ map (λ ir : N * R, f ir.2) (map_to_list table).
Proof.
  intros Hfresh s. split.
  - intros Hs. apply list_elem_of_fmap in Hs as ([i' row'] & -> & Hin).
    apply elem_of_map_to_list in Hin.
    apply lookup_insert_Some in Hin as [[_ <-] | [_ Hin]];
      [ left; reflexivity | right ].
    apply list_elem_of_fmap. exists (i', row').
    split; [ reflexivity | apply elem_of_map_to_list, Hin ].
  - intros [-> | Hs]; apply list_elem_of_fmap.
    + exists (i, row). split; [ reflexivity | ].
      apply elem_of_map_to_list, lookup_insert_eq.
    + apply list_elem_of_fmap in Hs as ([i' row'] & -> & Hin).
      apply elem_of_map_to_list in Hin.
      exists (i', row'). split; [ reflexivity | ].
      apply elem_of_map_to_list. rewrite lookup_insert_ne; [ exact Hin | ].
      intros <-. rewrite Hfresh in Hin. discriminate Hin.
Qed.

Lemma scope_holds_stored (prefix today : string) (table table' : list string)
    (k : Z) :
  0 ≤ k →
  (∀ s, s ∈ table' ↔ s = order_number prefix today (k + 1) ∨ s ∈ table) →
  scope_holds prefix today table k →
  scope_holds prefix today table' (k + 1).
Proof.
  intros Hk Hmembers Hscope.
  destruct (scope_holds_next prefix today table k Hk Hscope) as [Honly Hevery].
  split.
  - intros s Hs. apply Honly, elem_of_cons, Hmembers, Hs.
  - intros j Hj. apply Hmembers, elem_of_cons, Hevery, Hj.
Qed.

(** The creation route, on a table whose scope holds the counters 1 to
    [k], stores an order with the counter [k + 1]; the scope then holds the
    counters 1 to [k + 1]. *)
Lemma create_manufacturing_order_next
    (order_data : ManufacturingOrderCreate.t) (current_user : User.t)
    (db : Orders.DB) (today : string) (new_id : N) (k : Z) :
  0 ≤ k < 9999 →
  scope_holds "MO" today (Orders.manufacturing_order_numbers db) k →
  Orders.manufacturing_orders db !! new_id = None →
  ∃ db' new_order,
    Orders.create_manufacturing_order order_data current_user db today new_id
      = Return (db', new_order)
    ∧ ManufacturingOrder.order_number new_order
      = order_number "MO" today (k + 1)
    ∧ scope_holds "MO" today (Orders.manufacturing_order_numbers db') (k + 1).
Proof.
  intros Hk Hscope Hfresh.
  destruct (generate_next "MO" today _ k Hk Hscope) as [Hnext Hnew].
  unfold Orders.create_manufacturing_order. cbv zeta. rewrite Hnext. cbn.
  unfold Orders.unique_violation.
  destruct (str_in _ _) eqn:Hdup;
    [ apply str_in_spec in Hdup; contradiction | ].
  do 2 eexists. split; [ reflexivity | ]. split; [ reflexivity | ].
  apply (scope_holds_stored "MO" today
           (Orders.manufacturing_order_numbers db)); [ lia | | exact Hscope ].
  intros s. unfold Orders.manufacturing_order_numbers.
  cbn [Orders.manufacturing_orders].
  exact (column_insert ManufacturingOrder.order_number _ _ _ Hfresh s).
Qed.

(** C7 as stated fails once a scope holds the counter 9999: the generator
    returns the five-digit counter 10000, and, that number stored, returns
    it a second time, because "…-10000" sorts before "…-9999". *)
Lemma order_number_after_9999 :
  let table := [ "MO-20240101-9998"; "MO-20240101-9999" ] in
  OrderNumber.generate_order_number "MO" "20240101" table
  = Return "MO-20240101-10000"
  ∧ String.length (OrderNumber.format_04d 10000) = 5%nat
  ∧ OrderNumber.generate_order_number "MO" "20240101"
      ("MO-20240101-10000" :: table)
    = Return "MO-20240101-10000"
  ∧ "MO-20240101-10000" ∈ "MO-20240101-10000" :: table.
Proof.
  cbv zeta. split; [ reflexivity | ]. split; [ reflexivity | ].
  split; [ reflexivity | ]. apply elem_of_cons. left. reflexivity.
Qed.

(** C7 (amended).  For the prefix "MO" and a date, the generator returns
    MO-{date}-0001 when the table holds no order number of the scope; when
    the scope holds the order numbers with the counters 1 to k, for
    k < 9999, it returns the one with the counter k + 1, written with four
    digits, which is the counter parsed from the highest order number of the
    scope plus one, and which the table does not hold yet.  So the first n
    sequential calls in a scope, for n ≤ 9999, return the counters 1, 2, …,
    n in this order, without gap or duplicate.  Order numbers of another date
    (written with as many characters) do not count for the scope.  The
    creation route of the manufacturing orders stores the order number the
    generator returns for its table, and so extends the scope by one
    counter. *)
Theorem order_numbers_are_sequential (today : string) :
  (∀ table,
     (∀ s, s ∈ table → OrderNumber.like "MO" today s = false) →
     OrderNumber.generate_order_number "MO" today table
     = Return ("MO-" +:+ today +:+ "-0001"))
  ∧ (∀ table k,
       0 ≤ k < 9999 → scope_holds "MO" today table k →
       OrderNumber.generate_order_number "MO" today table
       = Return ("MO-" +:+ today +:+ "-" +:+ OrderNumber.format_04d (k + 1))
       ∧ String.length (OrderNumber.format_04d (k + 1)) = 4%nat
       ∧ OrderNumber.int (OrderNumber.format_04d (k + 1)) = Return (k + 1)
       ∧ "MO-" +:+ today +:+ "-" +:+ OrderNumber.format_04d (k + 1) ∉ table)
  ∧ (∀ table n,
       Z.of_nat n ≤ 9999 → scope_holds "MO" today table 0 →
       sequential_calls "MO" today n table
       = Return (map (λ i, "MO-" +:+ today +:+ "-"
                           +:+ OrderNumber.format_04d (Z.of_nat i))
                   (seq 1 n)))
  ∧ (∀ other_day k,
       String.length other_day = String.length today → other_day ≠ today →
       OrderNumber.like "MO" today
         ("MO-" +:+ other_day +:+ "-" +:+ OrderNumber.format_04d k)
       = false)
  ∧ (∀ order_data current_user db new_id k,
       0 ≤ k < 9999 →
       scope_holds "MO" today (Orders.manufacturing_order_numbers db) k →
       Orders.manufacturing_orders db !! new_id = None →
       ∃ db' new_order,
         Orders.create_manufacturing_order order_data current_user db today
           new_id = Return (db', new_order)
         ∧ ManufacturingOrder.order_number new_order
           = "MO-" +:+ today +:+ "-" +:+ OrderNumber.format_04d (k + 1)
         ∧ scope_holds "MO" today (Orders.manufacturing_order_numbers db')
             (k + 1)).
Proof.
  change (λ s, "MO-" +:+ s) with (λ s, "MO" +:+ "-" +:+ s).
  split; [ | split; [ | split; [ | split ] ] ].
  - intros table Hnone.
    destruct (generate_next "MO" today table 0) as [-> _]; [ lia | | ].
    + split.
      * intros s Hs Hlike. rewrite (Hnone s Hs) in Hlike. discriminate Hlike.
      * intros j Hj. lia.
    + reflexivity.
  - intros table k Hk Hscope.
    destruct (generate_next "MO" today table k Hk Hscope) as [Hnext Hnew].
    destruct (counter_round_trip_below_10000 (k + 1)) as (Hformat & Hint & _);
      [ lia | ].
    rewrite Hformat. change ("MO-" +:+ ?s) with ("MO" +:+ "-" +:+ s).
    fold (order_number "MO" today (k + 1)).
    repeat split; assumption.
  - intros table n Hn Hscope.
    rewrite (sequential_calls_count "MO" today n table 0);
      [ | lia | lia | exact Hscope ].
    f_equal. apply map_ext_in. intros i Hi. apply in_seq in Hi.
    destruct (counter_round_trip_below_10000 (Z.of_nat i)) as (-> & _);
      [ lia | ].
    reflexivity.
  - intros other_day k Hlen Hne. apply not_true_is_false. intros Hlike.
    apply Hne. unfold OrderNumber.like in Hlike.
    change ("MO-" +:+ ?s) with ("MO" +:+ "-" +:+ s) in Hlike.
    rewrite !prefix_append_inv in Hlike.
    symmetry. exact (prefix_same_length _ _ _ _ (eq_sym Hlen) Hlike).
  - intros order_data current_user db new_id k Hk Hscope Hfresh.
    destruct (create_manufacturing_order_next order_data current_user db
                today new_id k Hk Hscope Hfresh)
      as (db' & new_order & Hret & Hnumber & Hscope').
    exists db', new_order. split; [ exact Hret | ]. split; [ | exact Hscope' ].
    rewrite Hnumber.
    destruct (counter_round_trip_below_10000 (k + 1)) as (-> & _); [ lia | ].
    reflexivity.
Qed.

(** The fifth example scenario of the specification: MO-20240101-0001
    exists, the next call on the same date gives MO-20240101-0002 and the
    first call on the next date gives MO-20240102-0001; three calls on an
    empty table give 0001, 0002, 0003. *)
Lemma order_numbers_are_sequential_witness :
  OrderNumber.generate_order_number "MO" "20240101" ["MO-20240101-0001"]
  = Return "MO-20240101-0002"
  ∧ OrderNumber.generate_order_number "MO" "20240102" ["MO-20240101-0001"]
    = Return "MO-20240102-0001"
  ∧ sequential_calls "MO" "20240101" 3 []
    = Return ["MO-20240101-0001"; "MO-20240101-0002"; "MO-20240101-0003"].
Proof.
  destruct (order_numbers_are_sequential "20240101")
    as (_ & Hnext & Hcalls & _).
  destruct (order_numbers_are_sequential "20240102")
    as (Hfirst & _ & _ & Hother & _).
  split; [ | split ].
  - refine (proj1 (Hnext ["MO-20240101-0001"] 1 _ _)); [ lia | ].
    split.
    + intros s Hs _. apply list_elem_of_singleton in Hs as ->.
      exists 1. split; [ lia | reflexivity ].
    + intros j Hj. assert (j = 1) as -> by lia.
      apply list_elem_of_singleton. reflexivity.
  - apply Hfirst. intros s Hs. apply list_elem_of_singleton in Hs as ->.
    apply (Hother "20240101" 1); [ reflexivity | discriminate ].
  - refine (Hcalls [] 3%nat _ _); [ lia | ].
    split.
    + intros s Hs. inversion Hs.
    + intros j Hj. lia.
Defined.


(* ===================================================================== *)
(** * app/utils/rbac.py: the permission dependencies *)
(* ===================================================================== *)

Module RbacDependencies.
Import Rbac.

(** [str(l)] for a list of plain strings: ['a', 'b']. *)
Definition repr_list (l : list string) : string :=
  "[" +:+ String.concat ", " (map (λ s, "'" +:+ s +:+ "'") l) +:+ "]".

(** [Permission(value)]: the member with that value; [ValueError] when there
    is none. *)
Definition Permission_of_value (v : string) : result Permission :=
  match find (λ p, String.eqb (value p) v) Permission_members with
  | Some p => Return p
  | None => Raise (PyError "ValueError")
  end.

(** The dependency [require_permission(permission)] returns, applied to the
    user the request is made by. *)
Definition require_permission (permission : Permission)
    (current_user : User.t) : result User.t :=
  if negb (has_permission current_user permission)
  then Raise (HTTPException 403
         ("Permission denied. Required permission: " +:+ value permission))
  else Return current_user.

Definition require_any_permission (permissions : list Permission)
    (current_user : User.t) : result User.t :=
  if negb (existsb (λ perm, has_permission current_user perm) permissions)
  then
    let required_perms := map value permissions in
    Raise (HTTPException 403
      ("Permission denied. Required any of: " +:+ repr_list required_perms))
  else Return current_user.

Definition require_all_permissions (permissions : list Permission)
    (current_user : User.t) : result User.t :=
  if negb (forallb (λ perm, has_permission current_user perm) permissions)
  then
    let required_perms := map value permissions in
    Raise (HTTPException 403
      ("Permission denied. Required all of: " +:+ repr_list required_perms))
  else Return current_user.

Definition get_user_permissions (user : User.t) : list string :=
  match User.role user with
  | None => []
  | Some role => dict_get ROLE_PERMISSIONS (UserRole.name role) []
  end.

Definition can_access_resource (user : User.t) (resource_type action : string)
  : bool :=
  let permission_name := action +:+ "_" +:+ resource_type in
  match Permission_of_value permission_name with
  | Return permission => has_permission user permission
  | Raise _ => false
  end.

(** Common permission dependencies. *)
Definition require_admin : User.t → result User.t :=
  require_permission MANAGE_SYSTEM.

Definition require_manufacturing_manager : User.t → result User.t :=
  require_any_permission
    [ CREATE_MANUFACTURING_ORDER; UPDATE_MANUFACTURING_ORDER;
      DELETE_MANUFACTURING_ORDER ].

Definition require_operator : User.t → result User.t :=
  require_any_permission
    [ START_WORK_ORDER; PAUSE_WORK_ORDER; COMPLETE_WORK_ORDER ].

Definition require_inventory_manager : User.t → result User.t :=
  require_any_permission
    [ CREATE_STOCK_MOVE; UPDATE_STOCK_MOVE; DELETE_STOCK_MOVE ].

End RbacDependencies.

(** ** Permission dependencies *)

Section PermissionDependencies.
Import Rbac RbacDependencies.

(** The user's role is one of the given role names. *)
Definition role_among (names : list string) (user : User.t) : bool :=
  match User.role user with
  | None => false
  | Some role => str_in (UserRole.name role) names
  end.

Lemma eqb_sym_false (s t : string) : s ≠ t → String.eqb t s = false.
Proof. intros H. apply String.eqb_neq. congruence. Qed.

(** Splits on the role of [user]: none, each configured name, any other. *)
Ltac by_role user :=
  destruct user as [? [[? name]|]]; [ | reflexivity ];
  unfold require_admin, require_manufacturing_manager, require_operator,
    require_inventory_manager, require_permission, require_any_permission,
    require_all_permissions, get_user_permissions, has_permission, role_among;
  cbn [User.role UserRole.name existsb forallb];
  unfold ROLE_PERMISSIONS; cbn [dict_get];
  destruct (String.eqb_spec "Admin" name) as [<-|HA]; [ reflexivity | ];
  destruct (String.eqb_spec "ManufacturingManager" name) as [<-|HM];
    [ reflexivity | ];
  destruct (String.eqb_spec "Operator" name) as [<-|HO]; [ reflexivity | ];
  destruct (String.eqb_spec "InventoryManager" name) as [<-|HI];
    [ reflexivity | ];
  cbn [str_in];
  rewrite ?(eqb_sym_false _ _ HA), ?(eqb_sym_false _ _ HM),
    ?(eqb_sym_false _ _ HO), ?(eqb_sym_false _ _ HI);
  reflexivity.

(** [require_admin] lets a user through exactly when the user's role is
    named Admin; every other user, with another role, an unknown role or no
    role, gets 403 with the name of the missing permission. *)
Theorem require_admin_only_Admin (user : User.t) :
  require_admin user
  = if role_among ["Admin"] user then Return user
    else Raise (HTTPException 403
           "Permission denied. Required permission: manage_system").
Proof. by_role user. Qed.

(** The three other common dependencies form a chain:
    [require_manufacturing_manager] admits Admin and ManufacturingManager,
    [require_operator] those and Operator, [require_inventory_manager] every
    configured role (an Operator may create stock moves); each refuses all
    other users with 403 and the list of the permissions asked for. *)
Theorem common_dependencies_by_role (user : User.t) :
  require_manufacturing_manager user
  = (if role_among ["Admin"; "ManufacturingManager"] user then Return user
     else Raise (HTTPException 403
       ("Permission denied. Required any of: "
        +:+ "['create_manufacturing_order', 'update_manufacturing_order', "
        +:+ "'delete_manufacturing_order']")))
  ∧ require_operator user
  = (if role_among ["Admin"; "ManufacturingManager"; "Operator"] user
     then Return user
     else Raise (HTTPException 403
       ("Permission denied. Required any of: "
        +:+ "['start_work_order', 'pause_work_order', "
        +:+ "'complete_work_order']")))
  ∧ require_inventory_manager user
  = (if role_among
          ["Admin"; "ManufacturingManager"; "Operator"; "InventoryManager"]
          user
     then Return user
     else Raise (HTTPException 403
       ("Permission denied. Required any of: "
        +:+ "['create_stock_move', 'update_stock_move', "
        +:+ "'delete_stock_move']"))).
Proof. split; [ | split ]; by_role user. Qed.

Lemma Permission_of_value_value (permission : Permission) :
  Permission_of_value (value permission) = Return permission.
Proof. destruct permission; reflexivity. Qed.

Lemma Permission_of_value_Return (v : string) (permission : Permission) :
  Permission_of_value v = Return permission → value permission = v.
Proof.
  unfold Permission_of_value.
  destruct (find _ _) as [p|] eqn:Hfind; [ | discriminate ].
  intros [= <-]. apply find_some in Hfind as [_ Heq].
  apply String.eqb_eq, Heq.
Qed.

Lemma Permission_of_value_Raise (v : string) (e : exception) :
  Permission_of_value v = Raise e → ∀ permission, value permission ≠ v.
Proof.
  intros Hraise permission <-.
  rewrite Permission_of_value_value in Hraise. discriminate.
Qed.

Lemma str_in_values (v : string) (permissions : list Permission) :
  (∀ permission, value permission ≠ v) →
  str_in v (map value permissions) = false.
Proof.
  intros Hv. induction permissions as [|p l IH]; [ reflexivity | ].
  cbn [map str_in]. rewrite IH, orb_false_r.
  apply String.eqb_neq. intros ->. exact (Hv p eq_refl).
Qed.

Lemma get_user_permissions_values (user : User.t) :
  ∃ permissions, get_user_permissions user = map value permissions.
Proof.
  unfold get_user_permissions.
  destruct (User.role user) as [role|]; [ | exists []; reflexivity ].
  unfold ROLE_PERMISSIONS. cbn [dict_get].
  repeat (destruct (String.eqb _ (UserRole.name role));
          [ eexists; reflexivity | ]).
  exists []. reflexivity.
Qed.

Lemma has_permission_get_user_permissions (user : User.t)
    (permission : Permission) :
  has_permission user permission
  = str_in (value permission) (get_user_permissions user).
Proof.
  unfold has_permission, get_user_permissions.
  destruct (User.role user); reflexivity.
Qed.

(** [can_access_resource] answers exactly whether the string
    action_resource is among the user's permissions as
    [get_user_permissions] lists them: a name that is no permission at all
    ([ValueError] inside) is in no role's list. *)
Theorem can_access_resource_lists_agree (user : User.t)
    (resource_type action : string) :
  can_access_resource user resource_type action
  = str_in (action +:+ "_" +:+ resource_type) (get_user_permissions user).
Proof.
  unfold can_access_resource.
  destruct (Permission_of_value _) as [permission|e] eqn:Hvalue.
  - apply Permission_of_value_Return in Hvalue. rewrite <- Hvalue.
    apply has_permission_get_user_permissions.
  - destruct (get_user_permissions_values user) as [l ->].
    symmetry. apply str_in_values.
    exact (Permission_of_value_Raise _ _ Hvalue).
Qed.

Lemma has_permission_role (user : User.t) (permission : Permission) :
  has_permission user permission = true →
  ∃ role, User.role user = Some role
    ∧ str_in (value permission)
        (dict_get ROLE_PERMISSIONS (UserRole.name role) []) = true.
Proof.
  unfold has_permission. destruct (User.role user) as [role|];
    [ eauto | discriminate ].
Qed.

(** The roles are nested: whatever an Operator or an InventoryManager
    may do, a ManufacturingManager and an Admin may do as well. *)
Theorem manager_roles_include_operator_and_inventory
    (user manager : User.t) (permission : Permission) :
  role_among ["Operator"; "InventoryManager"] user = true →
  role_among ["ManufacturingManager"; "Admin"] manager = true →
  has_permission user permission = true →
  has_permission manager permission = true.
Proof.
  unfold role_among, has_permission.
  destruct (User.role user) as [[? name]|]; [ | discriminate ].
  destruct (User.role manager) as [[? name']|]; [ | discriminate ].
  cbn [UserRole.name str_in]. rewrite !orb_false_r.
  intros Hname Hname'.
  apply orb_true_iff in Hname as [->%String.eqb_eq | ->%String.eqb_eq];
    apply orb_true_iff in Hname' as [->%String.eqb_eq | ->%String.eqb_eq];
    destruct permission; vm_compute; congruence.
Qed.

Lemma manager_roles_include_operator_and_inventory_witness :
  Rbac.has_permission
    {| User.id := 2%N;
       User.role := Some {| UserRole.id := 2%N;
                            UserRole.name := "ManufacturingManager" |} |}
    Rbac.START_WORK_ORDER = true.
Proof.
  apply (manager_roles_include_operator_and_inventory
           {| User.id := 1%N;
              User.role := Some {| UserRole.id := 3%N;
                                   UserRole.name := "Operator" |} |});
    reflexivity.
Defined.

(** The permissions that administer users, roles and the system. *)
Definition administrative (permission : Permission) : bool :=
  match permission with
  | CREATE_USER | UPDATE_USER | DELETE_USER
  | MANAGE_ROLES | MANAGE_SYSTEM | VIEW_AUDIT_LOGS => true
  | _ => false
  end.

(** Only the Admin role holds a permission that creates, changes or
    deletes users, manages roles or the system, or views the audit logs. *)
Theorem administrative_permissions_are_Admin_only (user : User.t)
    (permission : Permission) :
  administrative permission = true →
  has_permission user permission = true →
  role_among ["Admin"] user = true.
Proof.
  intros Hadm Hperm. unfold role_among.
  apply has_permission_role in Hperm as (role & -> & Hin).
  cbn [str_in]. rewrite orb_false_r. revert Hin.
  unfold ROLE_PERMISSIONS. cbn [dict_get].
  destruct (String.eqb_spec "Admin" (UserRole.name role)) as [<-|_];
    [ reflexivity | ].
  repeat (destruct (String.eqb _ (UserRole.name role));
          [ destruct permission; try discriminate Hadm; vm_compute;
            congruence | ]).
  discriminate.
Qed.

Lemma administrative_permissions_are_Admin_only_witness :
  role_among ["Admin"]
    {| User.id := 1%N;
       User.role := Some {| UserRole.id := 1%N; UserRole.name := "Admin" |} |}
  = true.
Proof.
  apply (administrative_permissions_are_Admin_only _ Rbac.MANAGE_ROLES);
    reflexivity.
Defined.

(** A dependency on an empty list of permissions is degenerate:
    [require_any_permission([])] refuses every user, an Admin too, and
    [require_all_permissions([])] admits every user, one without a role too.
    With at least one permission asked for, whoever passes the "all"
    dependency passes the "any" dependency. *)
Theorem any_and_all_permissions (user : User.t)
    (permissions : list Permission) :
  require_any_permission [] user
  = Raise (HTTPException 403 "Permission denied. Required any of: []")
  ∧ require_all_permissions [] user = Return user
  ∧ (permissions ≠ [] →
     require_all_permissions permissions user = Return user →
     require_any_permission permissions user = Return user).
Proof.
  split; [ reflexivity | split; [ reflexivity | ] ].
  unfold require_all_permissions, require_any_permission.
  destruct permissions as [|p l]; [ congruence | intros _ ].
  cbn [forallb existsb].
  destruct (has_permission user p); [ reflexivity | discriminate ].
Qed.

Lemma any_and_all_permissions_witness :
  require_any_permission [Rbac.READ_BOM; Rbac.READ_PRODUCT]
    {| User.id := 1%N;
       User.role := Some {| UserRole.id := 3%N;
                            UserRole.name := "Operator" |} |}
  = Return {| User.id := 1%N;
              User.role := Some {| UserRole.id := 3%N;
                                   UserRole.name := "Operator" |} |}.
Proof.
  apply (any_and_all_permissions _ [Rbac.READ_BOM; Rbac.READ_PRODUCT]);
    [ discriminate | reflexivity ].
Defined.

End PermissionDependencies.

(* ===================================================================== *)
(** * app/utils/exceptions.py: error responses;
      app/middleware/error_handler.py *)
(* ===================================================================== *)

Module ErrorResponse.

(** The content of a JSON response: the Python value handed to
    [JSONResponse]. *)
#[local] Unset Elimination Schemes.
Inductive json_value : Type :=
| VNone
| VBool (b : bool)
| VInt (n : Z)
| VStr (s : string)
| VList (l : list json_value)
| VDict (d : list (string * json_value)).
#[local] Set Elimination Schemes.

Record JSONResponse : Type := mkJSONResponse {
  status_code : Z;
  content : json_value }.

(** The [details] dictionary of an exception as a response value. *)
Definition of_json (j : json) : json_value :=
  match j with
  | JNone => VNone
  | JInt n => VInt n
  | JStr s => VStr s
  end.

Definition of_details (details : list (string * json)) : json_value :=
  VDict (map (λ kv : string * json, (kv.1, of_json kv.2)) details).

(** What an exception handler is handed: an exception of the classes of
    [exception] (FastAPI's [HTTPException] among them), a
    [RequestValidationError] with the list its [errors()] returns, or a
    Starlette [HTTPException] that is not FastAPI's. *)
Inductive error : Type :=
| Exc (e : exception)
| RequestValidationError (errors : list json_value)
| StarletteHTTPException (status_code : Z) (detail : string).

(** The dictionary every branch builds:
    [{"success": False, "error": {"message": ..., "code": ...,
      "details": ...}}]. *)
Definition error_content (message code : string) (details : json_value)
  : json_value :=
  VDict [ ("success", VBool false);
          ("error", VDict [ ("message", VStr message);
                            ("code", VStr code);
                            ("details", details) ]) ].

(** [get_status_code_for_error]; an exception without [error_code] gives
    [AttributeError]. *)
Definition get_status_code_for_error (error : exception) : result Z :=
  match error with
  | TrackMintException _ _ error_code _ =>
      if String.eqb error_code "VALIDATION_ERROR" then Return 422
      else if String.eqb error_code "RESOURCE_NOT_FOUND" then Return 404
      else if String.eqb error_code "PERMISSION_DENIED" then Return 403
      else if String.eqb error_code "CONFLICT_ERROR" then Return 409
      else if String.eqb error_code "BUSINESS_LOGIC_ERROR" then Return 400
      else if String.eqb error_code "EXTERNAL_SERVICE_ERROR" then Return 502
      else Return 500
  | _ => Raise (PyError "AttributeError")
  end.

Definition format_error_response (error : error) (status_code : Z)
    (include_details : bool) : result JSONResponse :=
  '(response_data, status_code) ←
    match error with
    | Exc (TrackMintException cls message error_code details as e) =>
        let response_data :=
          error_content message error_code
            (if include_details then of_details details else VDict []) in
        status_code ← get_status_code_for_error e;
        Return (response_data, status_code)
    | Exc (HTTPException status_code' detail) =>
        let response_data := error_content detail "HTTP_ERROR" (VDict []) in
        Return (response_data, status_code')
    | RequestValidationError errors =>
        let response_data :=
          error_content "Validation error" "VALIDATION_ERROR"
            (VDict [ ("errors",
                      if include_details then VList errors else VList []) ])
        in
        Return (response_data, 422)
    | _ =>
        (* Generic error *)
        let response_data :=
          error_content "Internal server error" "INTERNAL_ERROR" (VDict []) in
        Return (response_data, 500)
    end;
  Return {| status_code := status_code; content := response_data |}.

(** app/middleware/error_handler.py.  A handler is given the exception; the
    request is not read. *)
Definition global_exception_handler (exc : error) : result JSONResponse :=
  match exc with
  | Exc (TrackMintException _ _ _ _) => format_error_response exc 500 true
  | Exc (HTTPException _ _) => format_error_response exc 500 true
  | RequestValidationError _ => format_error_response exc 500 true
  | StarletteHTTPException status_code detail =>
      format_error_response (Exc (HTTPException status_code detail)) 500 true
  | _ =>
      (* Generic error response *)
      Return {| status_code := 500;
                content := error_content "Internal server error"
                             "INTERNAL_ERROR" (VDict []) |}
  end.

(** [validation_exception_handler], on [exc.errors()]. *)
Definition validation_exception_handler (errors : list json_value)
  : JSONResponse :=
  {| status_code := 422;
     content := error_content "Validation error" "VALIDATION_ERROR"
                  (VDict [ ("errors", VList errors) ]) |}.

(** [http_exception_handler], on [exc.status_code] and [exc.detail]. *)
Definition http_exception_handler (status_code : Z) (detail : string)
  : JSONResponse :=
  {| status_code := status_code;
     content := error_content detail "HTTP_ERROR" (VDict []) |}.

Definition trackmint_exception_handler (exc : exception)
  : result JSONResponse :=
  format_error_response (Exc exc) 500 true.

End ErrorResponse.

(** ** Error responses *)

Section ErrorResponses.
Import ErrorResponse.

(** The response has the given status. *)
Definition answers (status : Z) (response : result JSONResponse) : Prop :=
  ∃ body, response = Return {| status_code := status; content := body |}.

(** An exception of one of the two application classes that are raised:
    [ValidationError] carries the code VALIDATION_ERROR,
    [BusinessLogicError] the code it is given. *)
Lemma get_status_code_for_error_business (message : string)
    (error_code : option string) (details : option (list (string * json))) :
  get_status_code_for_error (BusinessLogicError message error_code details)
  = match error_code with
    | None => Return 400
    | Some c =>
        if String.eqb c "" then Return 400
        else get_status_code_for_error
               (TrackMintException CBusinessLogicError message c
                  (default [] details))
    end.
Proof.
  unfold BusinessLogicError. destruct error_code as [c|]; [ | reflexivity ].
  destruct (String.eqb c ""); reflexivity.
Qed.

(** Whatever a caller passes as [status_code], the outcome of
    [format_error_response] is the same: the argument plays no part in it.
    The status of a response it returns is the one of the exception's code
    or class: that of [get_status_code_for_error] for a
    [TrackMintException], the exception's own for FastAPI's
    [HTTPException], 422 for a [RequestValidationError] and 500 for
    anything else, a Starlette [HTTPException] included. *)
Theorem format_error_response_ignores_status_code (error : error)
    (status_code status_code' : Z) (include_details : bool) :
  format_error_response error status_code include_details
  = format_error_response error status_code' include_details
  ∧ ∀ response,
      format_error_response error status_code include_details
        = Return response →
      Return (ErrorResponse.status_code response)
      = match error with
        | Exc (TrackMintException _ _ _ _ as e) => get_status_code_for_error e
        | Exc (HTTPException status_code'' _) => Return status_code''
        | RequestValidationError _ => Return 422
        | _ => Return 500
        end.
Proof.
  split; [ reflexivity | ].
  intros response.
  destruct error as [[sc detail | cls message code details | name] | errors
                    | sc detail];
    try (intros [= <-]; reflexivity).
  unfold format_error_response.
  destruct (get_status_code_for_error _) as [status|e]; [ | discriminate ].
  cbn. intros [= <-]. reflexivity.
Qed.

(** A Starlette [HTTPException] with status 404, formatted with the status
    404 passed along, is answered 500. *)
Lemma format_error_response_ignores_status_code_witness :
  let response :=
    {| ErrorResponse.status_code := 500;
       content := error_content "Internal server error" "INTERNAL_ERROR"
                    (VDict []) |} in
  format_error_response (StarletteHTTPException 404 "Not Found") 404 true
  = Return response
  ∧ Return (ErrorResponse.status_code response) = (Return 500 : result Z).
Proof.
  cbv zeta. split; [ reflexivity | ].
  exact (proj2 (format_error_response_ignores_status_code
                  (StarletteHTTPException 404 "Not Found") 404 200 true)
           _ eq_refl).
Defined.

(** The errors the business validators raise, once formatted: a work-order
    transition that is refused, a manufacturing-order quantity above 10000
    and an insufficient stock all carry a code of their own and are answered
    with status 500; only the quantity that is not positive, a
    [ValidationError], is answered with 422.  A [BusinessLogicError] raised
    without a code is answered with 400. *)
Theorem validator_errors_status (status_code : Z) (include_details : bool) :
  (∀ current_status new_status e,
     validate_work_order_status_transition current_status new_status
       = Raise e →
     answers 500 (format_error_response (Exc e) status_code include_details))
  ∧ (∀ quantity e,
       validate_manufacturing_order_quantity quantity = Raise e →
       answers (if quantity <=? 0 then 422 else 500)
         (format_error_response (Exc e) status_code include_details))
  ∧ (∀ product_id required_quantity available_quantity e,
       validate_stock_availability product_id required_quantity
         available_quantity = Raise e →
       answers 500
         (format_error_response (Exc e) status_code include_details))
  ∧ (∀ message details,
       answers 400
         (format_error_response
            (Exc (BusinessLogicError message None details))
            status_code include_details)).
Proof.
  split; [ | split; [ | split ] ].
  - intros current_status new_status e.
    unfold validate_work_order_status_transition.
    destruct (negb _); [ | discriminate ].
    intros [= <-]. eexists. reflexivity.
  - intros quantity e. unfold validate_manufacturing_order_quantity.
    destruct (quantity <=? 0).
    + intros [= <-]. eexists. reflexivity.
    + destruct (quantity >? 10000); [ | discriminate ].
      intros [= <-]. eexists. reflexivity.
  - intros product_id required_quantity available_quantity e.
    unfold validate_stock_availability.
    destruct (available_quantity <? required_quantity); [ | discriminate ].
    intros [= <-]. eexists. reflexivity.
  - intros message details. eexists. reflexivity.
Qed.

Lemma validator_errors_status_witness :
  answers 500
    (format_error_response
       (Exc (BusinessLogicError
               "Manufacturing order quantity cannot exceed 10,000 units"
               (Some "QUANTITY_LIMIT_EXCEEDED")
               (Some [("quantity", JInt 20000);
                      ("max_quantity", JInt 10000)])))
       200 true).
Proof.
  refine (proj1 (proj2 (validator_errors_status 200 true)) 20000 _ _).
  reflexivity.
Defined.

(** The global handler answers each class of exception as the handler
    registered for that class does; a Starlette [HTTPException] it answers
    as [http_exception_handler] does, with the exception's own status, where
    [format_error_response] alone answers 500; any other exception gets the
    generic response of [format_error_response]. *)
Theorem global_exception_handler_agrees :
  (∀ cls message error_code details,
     let exc := TrackMintException cls message error_code details in
     global_exception_handler (Exc exc) = trackmint_exception_handler exc)
  ∧ (∀ status_code detail,
       global_exception_handler (Exc (HTTPException status_code detail))
       = Return (http_exception_handler status_code detail))
  ∧ (∀ errors,
       global_exception_handler (RequestValidationError errors)
       = Return (validation_exception_handler errors))
  ∧ (∀ status_code detail,
       global_exception_handler (StarletteHTTPException status_code detail)
       = Return (http_exception_handler status_code detail)
       ∧ answers 500
           (format_error_response
              (StarletteHTTPException status_code detail) status_code true))
  ∧ (∀ name status_code include_details,
       global_exception_handler (Exc (PyError name))
       = format_error_response (Exc (PyError name)) status_code
           include_details).
Proof.
  repeat split; try reflexivity.
  eexists. reflexivity.
Qed.

End ErrorResponses.

(* ===================================================================== *)
(** * app/api/routes/stock.py: reading, changing and retiring a stock move *)
(* ===================================================================== *)

Module StockMoveUpdate.
Record t : Type := mk {
  product_id : option UUID;
  move_type_id : option UUID;
  quantity : option Z;
  unit_cost : option Q;
  reference_id : option UUID;
  reference_type : option string;
  location_id : option UUID;
  notes : option string }.
End StockMoveUpdate.

Module StockMoves.
Import Stock.

(** The stock tables together with the [updated_by_id] columns of the stock
    moves and of the locations, which the rows of [Stock.DB] do not carry:
    the user per row id, no entry for NULL. *)
Record DB : Type := mkDB {
  tables : Stock.DB;
  stock_move_updated_by_id : gmap UUID UUID;
  location_updated_by_id : gmap UUID UUID }.

Definition set_stock_move (db : DB) (stock_move_id : UUID)
    (stock_move : StockMove.t) (updated_by_id : UUID) : DB :=
  {| tables :=
       {| products := products (tables db);
          stock_move_types := stock_move_types (tables db);
          locations := locations (tables db);
          stock_moves :=
            <[stock_move_id := stock_move]> (stock_moves (tables db)) |};
     stock_move_updated_by_id :=
       <[stock_move_id := updated_by_id]> (stock_move_updated_by_id db);
     location_updated_by_id := location_updated_by_id db |}.

(** [GET /stock/moves/{stock_move_id}] *)
Definition read_stock_move (stock_move_id : UUID) (db : DB)
  : result StockMove.t :=
  match query_get true (stock_moves (tables db)) (stock_moves (tables db))
          stock_move_id (λ m, is_None (StockMove.deleted_at m)) with
  | Some stock_move => Return stock_move
  | None => Raise (HTTPException 404 "Stock move not found")
  end.

(** [PUT /stock/moves/{stock_move_id}]; [current_user] is the administrator
    the route's dependency has let through. *)
Definition update_stock_move (stock_move_id : UUID)
    (stock_move_update : StockMoveUpdate.t) (current_user : User.t) (db : DB)
  : result (DB * StockMove.t) :=
  stock_move ←
    match query_get true (stock_moves (tables db)) (stock_moves (tables db))
            stock_move_id (λ m, is_None (StockMove.deleted_at m)) with
    | Some m => Return m
    | None => Raise (HTTPException 404 "Stock move not found")
    end;
  (* For simplicity, we'll only allow updating notes *)
  match StockMoveUpdate.notes stock_move_update with
  | Some notes =>
      let stock_move' :=
        {| StockMove.product_id := StockMove.product_id stock_move;
           StockMove.move_type_id := StockMove.move_type_id stock_move;
           StockMove.quantity := StockMove.quantity stock_move;
           StockMove.unit_cost := StockMove.unit_cost stock_move;
           StockMove.reference_id := StockMove.reference_id stock_move;
           StockMove.reference_type := StockMove.reference_type stock_move;
           StockMove.location_id := StockMove.location_id stock_move;
           StockMove.notes := Some notes;
           StockMove.created_by_id := StockMove.created_by_id stock_move;
           StockMove.deleted_at := StockMove.deleted_at stock_move |} in
      (* db.commit() *)
      Return (set_stock_move db stock_move_id stock_move'
                (User.id current_user),
              stock_move')
  | None => Return (db, stock_move)
  end.

(** [DELETE /stock/moves/{stock_move_id}]; [utcnow] is
    [datetime.utcnow()]. *)
Definition delete_stock_move (stock_move_id : UUID) (current_user : User.t)
    (db : DB) (utcnow : datetime) : result (DB * unit) :=
  stock_move ←
    match query_get true (stock_moves (tables db)) (stock_moves (tables db))
            stock_move_id (λ m, is_None (StockMove.deleted_at m)) with
    | Some m => Return m
    | None => Raise (HTTPException 404 "Stock move not found")
    end;
  (* Soft delete *)
  let stock_move' :=
    {| StockMove.product_id := StockMove.product_id stock_move;
       StockMove.move_type_id := StockMove.move_type_id stock_move;
       StockMove.quantity := StockMove.quantity stock_move;
       StockMove.unit_cost := StockMove.unit_cost stock_move;
       StockMove.reference_id := StockMove.reference_id stock_move;
       StockMove.reference_type := StockMove.reference_type stock_move;
       StockMove.location_id := StockMove.location_id stock_move;
       StockMove.notes := StockMove.notes stock_move;
       StockMove.created_by_id := StockMove.created_by_id stock_move;
       StockMove.deleted_at := Some utcnow |} in
  (* db.commit() *)
  Return (set_stock_move db stock_move_id stock_move' (User.id current_user),
          tt).

(** [GET /stock/locations/{location_id}] *)
Definition read_location (location_id : UUID) (db : DB) : result Location.t :=
  match query_get true (locations (tables db)) (locations (tables db))
          location_id (λ l, is_None (Location.deleted_at l)) with
  | Some location => Return location
  | None => Raise (HTTPException 404 "Location not found")
  end.

(** [DELETE /stock/locations/{location_id}] *)
Definition delete_location (location_id : UUID) (current_user : User.t)
    (db : DB) (utcnow : datetime) : result (DB * unit) :=
  _ ←
    match query_get true (locations (tables db)) (locations (tables db))
            location_id (λ l, is_None (Location.deleted_at l)) with
    | Some l => Return l
    | None => Raise (HTTPException 404 "Location not found")
    end;
  (* Check if location is used in any stock moves *)
  let stock_moves :=
    head (query_all true (stock_moves (tables db)) (stock_moves (tables db))
            (λ m, N.eqb (StockMove.location_id m) location_id
                  && is_None (StockMove.deleted_at m))) in
  match stock_moves with
  | Some _ =>
      Raise (HTTPException 400
               "Cannot delete location that is used in stock movements")
  | None =>
      (* Soft delete; db.commit() *)
      Return
        ({| tables :=
              {| products := products (tables db);
                 stock_move_types := stock_move_types (tables db);
                 locations :=
                   <[location_id := {| Location.deleted_at := Some utcnow |}]>
                     (locations (tables db));
                 stock_moves := Stock.stock_moves (tables db) |};
            stock_move_updated_by_id := stock_move_updated_by_id db;
            location_updated_by_id :=
              <[location_id := User.id current_user]>
                (location_updated_by_id db) |},
         tt)
  end.

End StockMoves.



Section UnchangedTableQueries.

(** A query of an unchanged table finds a first row exactly when some row
    passes the filter. *)
Lemma query_all_head {R} (autoflush : bool) (table : gmap N R)
    (P : R → bool) :
  head (query_all autoflush table table P) = None
  ↔ ∀ i r, table !! i = Some r → P r = false.
Proof.
  unfold query_all. rewrite flushed_same.
  assert (Hrows : ∀ i r, table !! i = Some r ↔ (i, r) ∈ map_to_list table)
    by (intros; symmetry; apply elem_of_map_to_list).
  setoid_rewrite Hrows. clear Hrows.
  induction (map_to_list table) as [|[i r] l IH]; csimpl.
  - split; [ intros _ i r Hin; inversion Hin | reflexivity ].
  - destruct (P r) eqn:HP; csimpl.
    + split; [ discriminate | ].
      intros Hall. rewrite (Hall i r) in HP; [ discriminate | ].
      apply elem_of_cons. left. reflexivity.
    + rewrite IH. split.
      * intros Hall i' r' Hin. apply elem_of_cons in Hin as [[= -> ->]|Hin];
          [ exact HP | apply (Hall i' r' Hin) ].
      * intros Hall i' r' Hin. apply (Hall i' r'), elem_of_cons. auto.
Qed.

Lemma query_get_Some {R} (autoflush : bool) (table : gmap N R) (id : N)
    (P : R → bool) (r : R) :
  query_get autoflush table table id P = Some r →
  table !! id = Some r ∧ P r = true.
Proof.
  unfold query_get. rewrite flushed_same.
  destruct (table !! id) as [r'|]; [ | discriminate ].
  destruct (P r') eqn:HP; [ | discriminate ].
  cbn. intros [= <-]. auto.
Qed.

End UnchangedTableQueries.

Section StockMoveEdits.
Import Stock StockMoves.


Lemma read_stock_move_Return (stock_move_id : N) (db : StockMoves.DB)
    (stock_move : StockMove.t) :
  read_stock_move stock_move_id db = Return stock_move
  ↔ stock_moves (tables db) !! stock_move_id = Some stock_move
    ∧ StockMove.deleted_at stock_move = None.
Proof.
  unfold read_stock_move, query_get, flushed.
  destruct (stock_moves (tables db) !! stock_move_id) as [m|] eqn:Hm.
  - destruct (StockMove.deleted_at m) eqn:Hd; cbn.
    + split; [ discriminate | intros [[= <-] Hnone]; congruence ].
    + split; [ intros [= <-]; auto | intros [[= <-] _]; reflexivity ].
  - split; [ discriminate | intros [[=] _] ].
Qed.



End StockMoveEdits.

(** ** Locations in use *)

Section LocationsInUse.
Import Stock StockMoves.

(** Every stock move that is not retired is at a location that exists and
    is not retired. *)
Definition moves_at_active_locations (tables : Stock.DB) : Prop :=
  ∀ i stock_move,
    stock_moves tables !! i = Some stock_move →
    StockMove.deleted_at stock_move = None →
    ∃ location,
      locations tables !! StockMove.location_id stock_move = Some location
      ∧ Location.deleted_at location = None.

(** The stock routes keep every stock move at a live location.  A location
    that a stock move which is not retired refers to cannot be retired:
    [delete_location] answers 400 and changes nothing.  And when every
    stock move is at a live location, it is still so after a stock move is
    changed or retired and after a location is retired. *)
Theorem stock_routes_keep_locations_in_use (current_user : User.t)
    (db : StockMoves.DB) :
  (∀ location_id utcnow i stock_move location,
     read_location location_id db = Return location →
     stock_moves (tables db) !! i = Some stock_move →
     StockMove.deleted_at stock_move = None →
     StockMove.location_id stock_move = location_id →
     delete_location location_id current_user db utcnow
     = Raise (HTTPException 400
                "Cannot delete location that is used in stock movements"))
  ∧ (moves_at_active_locations (tables db) →
     (∀ stock_move_id stock_move_update db' stock_move',
        update_stock_move stock_move_id stock_move_update current_user db
          = Return (db', stock_move') →
        moves_at_active_locations (tables db'))
     ∧ (∀ stock_move_id utcnow db',
          delete_stock_move stock_move_id current_user db utcnow
            = Return (db', tt) →
          moves_at_active_locations (tables db'))
     ∧ (∀ location_id utcnow db',
          delete_location location_id current_user db utcnow
            = Return (db', tt) →
          moves_at_active_locations (tables db'))).
Proof.
  split.
  - intros location_id utcnow i stock_move location Hread Hmove Hactive Hat.
    unfold read_location in Hread. unfold delete_location.
    destruct (query_get _ _ _ _ _); [ | discriminate ].
    cbn. destruct (head _) as [found|] eqn:Hhead; [ reflexivity | exfalso ].
    pose proof (proj1 (query_all_head _ _ _) Hhead i stock_move Hmove)
      as Hnone.
    cbv beta in Hnone. rewrite Hat, N.eqb_refl, Hactive in Hnone.
    discriminate Hnone.
  - intros Hinv. split; [ | split ].
    + intros stock_move_id stock_move_update db' stock_move'.
      unfold update_stock_move.
      destruct (query_get _ _ _ _ _) as [found|] eqn:Hfound;
        [ | discriminate ].
      apply query_get_Some in Hfound as [Hfound Hlive].
      cbn. destruct (StockMoveUpdate.notes stock_move_update) as [notes|];
        intros [= <- <-]; [ | exact Hinv ].
      intros i m. cbn. rewrite lookup_insert_Some.
      intros [[<- <-] | [_ Hm]] Hactive; [ | exact (Hinv i m Hm Hactive) ].
      cbn in *. exact (Hinv stock_move_id found Hfound Hactive).
    + intros stock_move_id utcnow db'. unfold delete_stock_move.
      destruct (query_get _ _ _ _ _) as [found|]; [ | discriminate ].
      cbn. intros [= <-]. intros i m. cbn. rewrite lookup_insert_Some.
      intros [[<- <-] | [_ Hm]] Hactive; [ discriminate Hactive | ].
      exact (Hinv i m Hm Hactive).
    + intros location_id utcnow db'. unfold delete_location.
      destruct (query_get _ _ _ _ _) as [found|]; [ | discriminate ].
      cbn. destruct (head _) as [used|] eqn:Hhead; [ discriminate | ].
      intros [= <-]. intros i m. cbn. intros Hm Hactive.
      pose proof (proj1 (query_all_head _ _ _) Hhead i m Hm) as Hnone.
      cbv beta in Hnone. rewrite Hactive, andb_true_r in Hnone.
      apply N.eqb_neq in Hnone.
      rewrite lookup_insert_ne by congruence.
      exact (Hinv i m Hm Hactive).
Qed.

(** Location 1 holds stock move 4, a receipt of 50 at 16.00: it cannot be
    retired. *)
Lemma stock_routes_keep_locations_in_use_witness :
  let db :=
    {| tables :=
         Scenario.stock_db (Scenario.widget 150 12)
           {[ 4%N := Scenario.stock_move_row 1 50 16 ]};
       stock_move_updated_by_id := ∅;
       location_updated_by_id := ∅ |} in
  delete_location 1%N Scenario.operator db 77
  = Raise (HTTPException 400
             "Cannot delete location that is used in stock movements").
Proof.
  cbv zeta.
  apply (proj1 (stock_routes_keep_locations_in_use Scenario.operator _)
           1%N 77 4%N (Scenario.stock_move_row 1 50 16)
           {| Location.deleted_at := None |});
    reflexivity.
Defined.

End LocationsInUse.

(* ===================================================================== *)
(** * app/api/routes/manufacturing_orders.py, work_orders.py: reading and
      retiring an order *)
(* ===================================================================== *)

Module OrderRoutes.
Import Orders.

(** [GET /manufacturing-orders/{order_id}] *)
Definition read_manufacturing_order (order_id : UUID) (db : DB)
  : result ManufacturingOrder.t :=
  match query_get true (manufacturing_orders db) (manufacturing_orders db)
          order_id (λ o, is_None (ManufacturingOrder.deleted_at o)) with
  | Some order => Return order
  | None => Raise (HTTPException 404 "Manufacturing order not found")
  end.

(** [DELETE /manufacturing-orders/{order_id}]; [utcnow] is
    [datetime.utcnow()]. *)
Definition delete_manufacturing_order (order_id : UUID)
    (current_user : User.t) (db : DB) (utcnow : datetime)
  : result (DB * unit) :=
  order ←
    match query_get true (manufacturing_orders db) (manufacturing_orders db)
            order_id (λ o, is_None (ManufacturingOrder.deleted_at o)) with
    | Some o => Return o
    | None => Raise (HTTPException 404 "Manufacturing order not found")
    end;
  (* Soft delete *)
  let order' :=
    {| ManufacturingOrder.order_number :=
         ManufacturingOrder.order_number order;
       ManufacturingOrder.product_id := ManufacturingOrder.product_id order;
       ManufacturingOrder.bom_id := ManufacturingOrder.bom_id order;
       ManufacturingOrder.quantity := ManufacturingOrder.quantity order;
       ManufacturingOrder.status_id := ManufacturingOrder.status_id order;
       ManufacturingOrder.priority_id := ManufacturingOrder.priority_id order;
       ManufacturingOrder.planned_start_date :=
         ManufacturingOrder.planned_start_date order;
       ManufacturingOrder.planned_end_date :=
         ManufacturingOrder.planned_end_date order;
       ManufacturingOrder.actual_start_date :=
         ManufacturingOrder.actual_start_date order;
       ManufacturingOrder.actual_end_date :=
         ManufacturingOrder.actual_end_date order;
       ManufacturingOrder.assigned_to_id :=
         ManufacturingOrder.assigned_to_id order;
       ManufacturingOrder.notes := ManufacturingOrder.notes order;
       ManufacturingOrder.created_by_id :=
         ManufacturingOrder.created_by_id order;
       ManufacturingOrder.updated_by_id := Some (User.id current_user);
       ManufacturingOrder.deleted_at := Some utcnow |} in
  (* db.commit() *)
  Return
    ({| manufacturing_orders :=
          <[order_id := order']> (manufacturing_orders db);
        work_orders := work_orders db;
        order_statuses := order_statuses db |},
     tt).

(** [GET /work-orders/{work_order_id}].  The query is built with the
    relationships to load as its options: [WorkOrder.manufacturing_order],
    which the class has, and then [WorkOrder.operation], which it has not
    (its relationship is [bom_operation]).  The query is not run. *)
Definition read_work_order (work_order_id : UUID) (db : DB)
  : result WorkOrder.t :=
  _ ← Models.getattr Models.WorkOrder "manufacturing_order";
  operation ← Models.getattr Models.WorkOrder "operation";
  match operation : Empty_set with end.

(** [DELETE /work-orders/{work_order_id}] *)
Definition delete_work_order (work_order_id : UUID) (current_user : User.t)
    (db : DB) (utcnow : datetime) : result (DB * unit) :=
  work_order ←
    match query_get true (work_orders db) (work_orders db) work_order_id
            (λ w, is_None (WorkOrder.deleted_at w)) with
    | Some w => Return w
    | None => Raise (HTTPException 404 "Work order not found")
    end;
  (* Soft delete *)
  let work_order' :=
    {| WorkOrder.work_order_number := WorkOrder.work_order_number work_order;
       WorkOrder.manufacturing_order_id :=
         WorkOrder.manufacturing_order_id work_order;
       WorkOrder.bom_operation_id := WorkOrder.bom_operation_id work_order;
       WorkOrder.status_id := WorkOrder.status_id work_order;
       WorkOrder.assigned_operator_id :=
         WorkOrder.assigned_operator_id work_order;
       WorkOrder.planned_duration := WorkOrder.planned_duration work_order;
       WorkOrder.actual_duration := WorkOrder.actual_duration work_order;
       WorkOrder.start_time := WorkOrder.start_time work_order;
       WorkOrder.end_time := WorkOrder.end_time work_order;
       WorkOrder.comments := WorkOrder.comments work_order;
       WorkOrder.issues := WorkOrder.issues work_order;
       WorkOrder.created_by_id := WorkOrder.created_by_id work_order;
       WorkOrder.updated_by_id := Some (User.id current_user);
       WorkOrder.deleted_at := Some utcnow |} in
  (* db.commit() *)
  Return
    ({| manufacturing_orders := manufacturing_orders db;
        work_orders := <[work_order_id := work_order']> (work_orders db);
        order_statuses := order_statuses db |},
     tt).

End OrderRoutes.

(** A query of a table the request has not changed is the same with and
    without a flush. *)
Lemma query_get_same {R} (autoflush : bool) (table : gmap N R) (id : N)
    (P : R → bool) :
  query_get autoflush table table id P = query_get true table table id P.
Proof. unfold query_get. rewrite !flushed_same. reflexivity. Qed.

(** ** The work-order routes *)

Section WorkOrderRoutes.
Import Orders OrderRoutes.

(** A work order can be neither created nor read through the routes:
    [POST /work-orders] and [GET /work-orders/{work_order_id}] end in
    [AttributeError] for every request, the first on the column
    [order_number], the second on the relationship [operation]; the class
    [WorkOrder] has [work_order_number] and [bom_operation]. *)
Theorem work_orders_are_not_created_or_read :
  (∀ work_order_data current_user db today new_id,
     create_work_order work_order_data current_user db today new_id
     = Raise (PyError "AttributeError"))
  ∧ (∀ work_order_id db,
       read_work_order work_order_id db = Raise (PyError "AttributeError"))
  ∧ str_in "order_number" Models.WorkOrder = false
  ∧ str_in "work_order_number" Models.WorkOrder = true
  ∧ str_in "operation" Models.WorkOrder = false
  ∧ str_in "bom_operation" Models.WorkOrder = true.
Proof. repeat split; reflexivity. Qed.

(** The status route never returns and commits nothing: it answers 404 for
    a work order that does not exist or is retired, and ends in
    [AttributeError] for every work order that exists and is not retired,
    whoever the user is and whatever status is requested. *)
Theorem update_work_order_status_refusals (autoflush : bool)
    (work_order_id : N) (status_update : WorkOrderStatusUpdate.t)
    (current_user : User.t) (db : DB) (stamp : string) (utcnow : Z) :
  let outcome :=
    update_work_order_status autoflush work_order_id status_update
      current_user db stamp utcnow in
  ((∀ work_order,
      work_orders db !! work_order_id = Some work_order →
      WorkOrder.deleted_at work_order ≠ None) →
   outcome = Raise (HTTPException 404 "Work order not found"))
  ∧ (∀ work_order,
       work_orders db !! work_order_id = Some work_order →
       WorkOrder.deleted_at work_order = None →
       outcome = Raise (PyError "AttributeError"))
  ∧ committed db outcome = db.
Proof.
  cbv zeta. rewrite update_work_order_status_outcome.
  destruct (work_orders db !! work_order_id) as [work_order|].
  - destruct (WorkOrder.deleted_at work_order) as [retired|] eqn:Hretired;
      cbn.
    + split; [ reflexivity | ]. split; [ | reflexivity ].
      intros w [= <-]. congruence.
    + split; [ | split; reflexivity ].
      intros Hall. destruct (Hall work_order eq_refl Hretired).
  - split; [ reflexivity | ]. split; [ discriminate | reflexivity ].
Qed.

(** Work order 1 was retired at time 5: the status route answers 404. *)
Lemma update_work_order_status_refusals_witness :
  update_work_order_status true 1%N (Scenario.status_update 2%N)
    Scenario.operator
    (Scenario.orders_db
       {[ 1%N := Scenario.work_order "WO-20240101-0001" 1%N (Some 5) ]})
    "2024-01-01 10:00" 50
  = Raise (HTTPException 404 "Work order not found").
Proof.
  apply (proj1 (update_work_order_status_refusals true 1%N
                  (Scenario.status_update 2%N) Scenario.operator
                  (Scenario.orders_db
                     {[ 1%N := Scenario.work_order "WO-20240101-0001" 1%N
                                 (Some 5) ]})
                  "2024-01-01 10:00" 50)).
  intros work_order Hfound. cbn in Hfound.
  apply lookup_singleton_Some in Hfound as [_ <-]. discriminate.
Defined.

(** The columns of a work order that retiring it does not write. *)
Definition kept_columns (work_order : WorkOrder.t)
  : string * N * N * N * option N * Z * option Z * option Z * option Z
    * option string * option string * option N :=
  (WorkOrder.work_order_number work_order,
   WorkOrder.manufacturing_order_id work_order,
   WorkOrder.bom_operation_id work_order, WorkOrder.status_id work_order,
   WorkOrder.assigned_operator_id work_order,
   WorkOrder.planned_duration work_order,
   WorkOrder.actual_duration work_order, WorkOrder.start_time work_order,
   WorkOrder.end_time work_order, WorkOrder.comments work_order,
   WorkOrder.issues work_order, WorkOrder.created_by_id work_order).

(** Retiring a work order stamps its [deleted_at] and [updated_by_id] and
    leaves its other columns ([kept_columns]), the other work orders and
    the manufacturing orders as they are: no completion is cascaded, even
    when the retired work order was the last one not done.  The retired
    work order is hidden from the status route and cannot be retired a
    second time: both answer 404. *)
Theorem retired_work_order_is_hidden (work_order_id : N)
    (current_user : User.t) (db db' : DB) (utcnow : Z) :
  delete_work_order work_order_id current_user db utcnow = Return (db', tt) →
  (∃ work_order work_order',
     work_orders db !! work_order_id = Some work_order
     ∧ WorkOrder.deleted_at work_order = None
     ∧ work_orders db' !! work_order_id = Some work_order'
     ∧ WorkOrder.deleted_at work_order' = Some utcnow
     ∧ WorkOrder.updated_by_id work_order' = Some (User.id current_user)
     ∧ kept_columns work_order' = kept_columns work_order)
  ∧ (∀ autoflush status_update user stamp utcnow',
       update_work_order_status autoflush work_order_id status_update user
         db' stamp utcnow'
       = Raise (HTTPException 404 "Work order not found"))
  ∧ (∀ user utcnow',
       delete_work_order work_order_id user db' utcnow'
       = Raise (HTTPException 404 "Work order not found"))
  ∧ (∀ i, i ≠ work_order_id → work_orders db' !! i = work_orders db !! i)
  ∧ manufacturing_orders db' = manufacturing_orders db
  ∧ order_statuses db' = order_statuses db.
Proof.
  unfold delete_work_order. setoid_rewrite update_work_order_status_outcome.
  unfold query_get, flushed.
  destruct (work_orders db !! work_order_id) as [work_order|] eqn:Horder;
    [ | discriminate ].
  destruct (WorkOrder.deleted_at work_order) as [retired|] eqn:Hactive;
    [ discriminate | ].
  cbn. intros [= <-]. cbn [manufacturing_orders work_orders order_statuses].
  rewrite lookup_insert_eq. cbn.
  split.
  { eexists work_order, _. split; [ reflexivity | ].
    split; [ exact Hactive | ]. split; [ reflexivity | ].
    repeat split; reflexivity. }
  split; [ reflexivity | ]. split; [ reflexivity | ].
  split; [ intros i Hi; apply lookup_insert_ne; congruence | ].
  split; reflexivity.
Qed.

(** Manufacturing order 1 has a single work order, in Started; it is
    retired: the manufacturing orders are as before and the status route
    no longer finds the work order. *)
Lemma retired_work_order_is_hidden_witness :
  let db :=
    Scenario.orders_db
      {[ 1%N := Scenario.work_order "WO-20240101-0001" 2%N None ]} in
  let db' := committed db (delete_work_order 1%N Scenario.operator db 77) in
  manufacturing_orders db' = manufacturing_orders db
  ∧ update_work_order_status true 1%N (Scenario.status_update 4%N)
      Scenario.operator db' "2024-01-01 10:00" 80
    = Raise (HTTPException 404 "Work order not found").
Proof.
  cbv zeta.
  set (db := Scenario.orders_db _).
  pose proof (retired_work_order_is_hidden 1%N Scenario.operator db
                (committed db (delete_work_order 1%N Scenario.operator db 77))
                77 eq_refl) as (_ & Hstatus & _ & _ & Hsame & _).
  split; [ exact Hsame | apply Hstatus ].
Defined.

End WorkOrderRoutes.

(** ** Order numbers: gaps and retired orders *)

Section OrderNumbersReserved.

Lemma counters_of_range (prefix today : string) (l : list string) (m : Z) :
  (∀ s, s ∈ l → ∃ j, 0 ≤ j ≤ m ∧ s = order_number prefix today j) →
  ∃ counters,
    l = map (order_number prefix today) counters
    ∧ Forall (λ j, 0 ≤ j ≤ m) counters.
Proof.
  induction l as [|s l IH]; intros Hall.
  - exists []. split; [ reflexivity | constructor ].
  - destruct (Hall s) as (j & Hj & ->); [ apply elem_of_cons; auto | ].
    destruct IH as (counters & -> & Hrange).
    { intros s' Hs'. apply Hall, elem_of_cons. auto. }
    exists (j :: counters). split; [ reflexivity | constructor; assumption ].
Qed.

(** The generator looks at the greatest counter of the scope only.  When the
    order numbers of the scope have four-digit counters of which [m], below
    9999, is the greatest, the next number has the counter [m + 1],
    whichever smaller counters are missing: a gap is never filled, and the
    number returned is not in the table. *)
Theorem generator_follows_greatest_counter (prefix today : string)
    (table : list string) (m : Z) :
  0 ≤ m < 9999 →
  order_number prefix today m ∈ table →
  (∀ s, s ∈ table → OrderNumber.like prefix today s = true →
        ∃ j, 0 ≤ j ≤ m ∧ s = order_number prefix today j) →
  OrderNumber.generate_order_number prefix today table
  = Return (prefix +:+ "-" +:+ today +:+ "-"
            +:+ OrderNumber.format_04d (m + 1))
  ∧ prefix +:+ "-" +:+ today +:+ "-" +:+ OrderNumber.format_04d (m + 1)
    ∉ table.
Proof.
  intros Hm Hin Honly.
  destruct (counter_round_trip_below_10000 (m + 1)) as (Hformat & _);
    [ lia | ].
  rewrite Hformat. fold (order_number prefix today (m + 1)). split.
  - unfold OrderNumber.generate_order_number.
    destruct (counters_of_range prefix today
                (filter (λ s, OrderNumber.like prefix today s = true) table) m)
      as (counters & Hfiltered & Hrange).
    { intros s Hs. apply list_elem_of_filter in Hs as [Hlike Hs]. auto. }
    assert (Hmin : m ∈ counters).
    { assert (Hon : order_number prefix today m
                    ∈ map (order_number prefix today) counters).
      { rewrite <- Hfiltered. apply list_elem_of_filter.
        split; [ apply like_order_number | exact Hin ]. }
      apply list_elem_of_fmap in Hon as (j & Heq & Hj).
      rewrite Forall_forall in Hrange.
      apply order_number_inj in Heq; [ | lia | ].
      - subst j. exact Hj.
      - specialize (Hrange j Hj). cbn in Hrange. lia. }
    rewrite Hfiltered. unfold OrderNumber.order_by_desc_first.
    pose proof (order_by_desc_first_counters prefix today counters None)
      as Hfold.
    cbn [fmap option_fmap option_map] in Hfold. rewrite Hfold; clear Hfold.
    2: { eapply Forall_impl; [ exact Hrange | ]. cbn. intros; lia. }
    2: { intros b [=]. }
    pose proof (greatest_counter_spec counters None) as Hgreatest.
    destruct (greatest_counter counters None) as [g|]; cbn.
    + destruct Hgreatest as ([Hg | [=]] & Hmax & _).
      rewrite Forall_forall in Hrange.
      assert (g = m).
      { specialize (Hmax m Hmin). specialize (Hrange g Hg). cbn in Hrange.
        lia. }
      subst g.
      rewrite last_split_order_number by lia.
      destruct (counter_round_trip_below_10000 m) as (_ & -> & _); [ lia | ].
      cbn. rewrite Hformat. reflexivity.
    + destruct Hgreatest as [-> _]. inversion Hmin.
  - intros Hnew.
    destruct (Honly _ Hnew (like_order_number _ _ _)) as (j & Hj & Heq).
    apply order_number_inj in Heq; lia.
Qed.

(** Counters 1, 2 and 5 in the scope, 3 and 4 missing: the next is 6. *)
Lemma generator_follows_greatest_counter_witness :
  OrderNumber.generate_order_number "MO" "20240101"
    [ "MO-20240101-0005"; "MO-20240101-0001"; "WO-20240101-0009";
      "MO-20240101-0002" ]
  = Return "MO-20240101-0006".
Proof.
  refine (proj1 (generator_follows_greatest_counter "MO" "20240101" _ 5
                   _ _ _)).
  - lia.
  - apply elem_of_cons. left. reflexivity.
  - intros s Hs Hlike.
    repeat (apply elem_of_cons in Hs as [->|Hs];
            [ first [ discriminate Hlike
                    | exists 5; split; [ lia | reflexivity ]
                    | exists 1; split; [ lia | reflexivity ]
                    | exists 2; split; [ lia | reflexivity ] ] | ]).
    inversion Hs.
Defined.

Import Orders OrderRoutes.

(** The order-number column after a row is replaced by one with the same
    order number. *)
Lemma column_update {R} (f : R → string) (table : gmap N R) (i : N)
    (row row' : R) :
  table !! i = Some row → f row' = f row →
  ∀ s, s ∈ map (λ ir : N * R, f ir.2) (map_to_list (<[i := row']> table))
       ↔ s ∈ map (λ ir : N * R, f ir.2) (map_to_list table).
Proof.
  intros Hrow Hsame s. split.
  - intros Hs. apply list_elem_of_fmap in Hs as ([i' r] & -> & Hin).
    apply elem_of_map_to_list in Hin.
    apply lookup_insert_Some in Hin as [[<- <-] | [_ Hin]];
      apply list_elem_of_fmap.
    + exists (i, row). split; [ exact Hsame | ].
      apply elem_of_map_to_list, Hrow.
    + exists (i', r). split; [ reflexivity | ].
      apply elem_of_map_to_list, Hin.
  - intros Hs. apply list_elem_of_fmap in Hs as ([i' r] & -> & Hin).
    apply elem_of_map_to_list in Hin.
    apply list_elem_of_fmap.
    destruct (decide (i' = i)) as [->|Hne].
    + exists (i, row'). split.
      * cbn. rewrite Hrow in Hin. injection Hin as <-. symmetry. exact Hsame.
      * apply elem_of_map_to_list, lookup_insert_eq.
    + exists (i', r). split; [ reflexivity | ].
      apply elem_of_map_to_list. rewrite lookup_insert_ne by congruence.
      exact Hin.
Qed.

Lemma scope_holds_members (prefix today : string) (table table' : list string)
    (k : Z) :
  (∀ s, s ∈ table' ↔ s ∈ table) →
  scope_holds prefix today table k → scope_holds prefix today table' k.
Proof.
  intros Hmembers [Honly Hevery]. split.
  - intros s Hs. apply Honly, Hmembers, Hs.
  - intros j Hj. apply Hmembers, Hevery, Hj.
Qed.

(** Retiring a manufacturing order hides it from reading and keeps its order
    number in the table: the work orders are left as they are, not retired
    with it, and the next manufacturing order of the day still gets the
    number after the greatest one, the retired order's number is not given
    out again. *)
Theorem retired_manufacturing_order_keeps_number (order_id : N)
    (current_user : User.t) (db db' : DB) (utcnow : Z) :
  delete_manufacturing_order order_id current_user db utcnow
    = Return (db', tt) →
  read_manufacturing_order order_id db'
    = Raise (HTTPException 404 "Manufacturing order not found")
  ∧ (∀ i, i ≠ order_id →
          manufacturing_orders db' !! i = manufacturing_orders db !! i)
  ∧ work_orders db' = work_orders db
  ∧ (∀ s, s ∈ manufacturing_order_numbers db'
          ↔ s ∈ manufacturing_order_numbers db)
  ∧ (∀ order_data user today new_id k,
       0 ≤ k < 9999 →
       scope_holds "MO" today (manufacturing_order_numbers db) k →
       manufacturing_orders db !! new_id = None →
       ∃ db'' new_order,
         create_manufacturing_order order_data user db' today new_id
           = Return (db'', new_order)
         ∧ ManufacturingOrder.order_number new_order
           = "MO-" +:+ today +:+ "-" +:+ OrderNumber.format_04d (k + 1)).
Proof.
  unfold delete_manufacturing_order, read_manufacturing_order, query_get,
    flushed.
  destruct (manufacturing_orders db !! order_id) as [order|] eqn:Horder;
    [ | discriminate ].
  destruct (is_None (ManufacturingOrder.deleted_at order)) eqn:Hactive;
    [ | discriminate ].
  cbn. intros [= <-]. cbn [manufacturing_orders work_orders].
  rewrite lookup_insert_eq. cbn.
  split; [ reflexivity | ].
  split; [ intros i Hi; apply lookup_insert_ne; congruence | ].
  split; [ reflexivity | ].
  match goal with
  | |- context [<[order_id := ?o]> _] => set (order' := o)
  end.
  assert (Hmembers :
    ∀ s, s ∈ manufacturing_order_numbers
               {| manufacturing_orders :=
                    <[order_id := order']> (manufacturing_orders db);
                  work_orders := work_orders db;
                  order_statuses := order_statuses db |}
         ↔ s ∈ manufacturing_order_numbers db).
  { intros s. unfold manufacturing_order_numbers.
    cbn [manufacturing_orders].
    apply (column_update ManufacturingOrder.order_number _ _ order);
      [ exact Horder | reflexivity ]. }
  split; [ exact Hmembers | ].
  intros order_data user today new_id k Hk Hscope Hfresh.
  destruct (create_manufacturing_order_next order_data user
              {| manufacturing_orders := _; work_orders := work_orders db;
                 order_statuses := order_statuses db |}
              today new_id k Hk
              (scope_holds_members _ _ _ _ _ Hmembers Hscope))
    as (db'' & new_order & Hret & Hnumber & _).
  { cbn. rewrite lookup_insert_ne; [ exact Hfresh | ]. congruence. }
  exists db'', new_order. split; [ exact Hret | ].
  rewrite Hnumber.
  destruct (counter_round_trip_below_10000 (k + 1)) as (-> & _); [ lia | ].
  reflexivity.
Qed.

Lemma retired_manufacturing_order_keeps_number_witness :
  let db := Scenario.orders_db ∅ in
  let db' :=
    committed db (delete_manufacturing_order 1%N Scenario.operator db 77) in
  read_manufacturing_order 1%N db'
    = Raise (HTTPException 404 "Manufacturing order not found")
  ∧ ∃ db'' new_order,
      create_manufacturing_order (Scenario.manufacturing_order_data 5)
        Scenario.operator db' "20240101" 2%N = Return (db'', new_order)
      ∧ ManufacturingOrder.order_number new_order = "MO-20240101-0002".
Proof.
  cbv zeta.
  pose proof (retired_manufacturing_order_keeps_number 1%N Scenario.operator
                (Scenario.orders_db ∅)
                (committed (Scenario.orders_db ∅)
                   (delete_manufacturing_order 1%N Scenario.operator
                      (Scenario.orders_db ∅) 77))
                77 eq_refl) as (Hread & _ & _ & _ & Hnext).
  split; [ exact Hread | ].
  apply (Hnext (Scenario.manufacturing_order_data 5) Scenario.operator
           "20240101" 2%N 1); [ lia | | reflexivity ].
  change (manufacturing_order_numbers (Scenario.orders_db ∅))
    with ["MO-20240101-0001"].
  split.
  - intros s Hs _. apply list_elem_of_singleton in Hs as ->.
    exists 1. split; [ lia | reflexivity ].
  - intros j Hj. assert (j = 1) as -> by lia.
    apply list_elem_of_singleton. reflexivity.
Defined.

End OrderNumbersReserved.

(** ** Adding a component to a BOM *)

Section ComponentCreation.

(** [POST /bom/{bom_id}/components] never returns and commits nothing: it
    answers 404 when the BOM does not exist or is retired, and for every
    BOM that exists and is not retired it ends in [AttributeError], raised
    by the query for the product.  No component is added through the
    route, and the total cost of the BOM is not recalculated. *)
Theorem create_bom_component_never_returns (autoflush : bool) (bom_id : N)
    (component_data : BOMComponentCreate.t) (current_user : User.t)
    (db : Bom.DB) (new_id : N) :
  let outcome :=
    Bom.create_bom_component autoflush bom_id component_data current_user db
      new_id in
  ((∀ bom, Bom.boms db !! bom_id = Some bom → BOM.deleted_at bom ≠ None) →
   outcome = Raise (HTTPException 404 "BOM not found"))
  ∧ (∀ bom, Bom.boms db !! bom_id = Some bom → BOM.deleted_at bom = None →
            outcome = Raise (PyError "AttributeError"))
  ∧ committed db outcome = db.
Proof.
  cbv zeta. unfold Bom.create_bom_component, query_get.
  rewrite flushed_same.
  destruct (Bom.boms db !! bom_id) as [bom|].
  - destruct (BOM.deleted_at bom) as [retired|] eqn:Hretired; cbn.
    + split; [ reflexivity | ]. split; [ | reflexivity ].
      intros b [= <-]. congruence.
    + split; [ | split; reflexivity ].
      intros Hall. destruct (Hall bom eq_refl Hretired).
  - split; [ reflexivity | ]. split; [ discriminate | reflexivity ].
Qed.

(** BOM 1 exists: a component of 2 at 5.00 is not added. *)
Lemma create_bom_component_never_returns_witness :
  Bom.create_bom_component true 1%N (Scenario.component_data 2 5)
    Scenario.operator (Scenario.bom_db 0 ∅) 7%N
  = Raise (PyError "AttributeError").
Proof.
  apply (proj1 (proj2 (create_bom_component_never_returns true 1%N
                         (Scenario.component_data 2 5) Scenario.operator
                         (Scenario.bom_db 0 ∅) 7%N))
           {| BOM.total_cost := 0; BOM.deleted_at := None |});
    reflexivity.
Defined.

End ComponentCreation.

(** ** Printing and parsing a counter *)

Section CounterRoundTrip.

Lemma length_append (s t : string) :
  String.length (s +:+ t) = (String.length s + String.length t)%nat.
Proof.
  induction s as [|c s IH]; [ reflexivity | ].
  rewrite append_cons. cbn. rewrite IH. reflexivity.
Qed.

Lemma length_zeros (k : nat) :
  String.length (string_of_list_ascii (replicate k "0"%char)) = k.
Proof. induction k as [|k IH]; cbn; [ reflexivity | rewrite IH; reflexivity ]. Qed.

(** Leading zeros do not change the number parsed. *)
Lemma uint_of_string_zeros (k : nat) (s : string) (d : Decimal.uint) :
  NilEmpty.uint_of_string s = Some d →
  ∃ d', NilEmpty.uint_of_string
          (string_of_list_ascii (replicate k "0"%char) +:+ s) = Some d'
        ∧ Pos.of_uint d' = Pos.of_uint d.
Proof.
  intros Hs. induction k as [|k (d' & Hd' & Heq)].
  - exists d. cbn. rewrite append_nil. auto.
  - exists (Decimal.D0 d'). cbn [replicate string_of_list_ascii].
    rewrite append_cons. cbn. rewrite Hd'. cbn. auto.
Qed.

Lemma str_int_digits (n : Z) :
  0 ≤ n →
  ∃ d, str_int n = NilEmpty.string_of_uint d
       ∧ str_int n ≠ ""
       ∧ Z.of_N (Pos.of_uint d) = n.
Proof.
  intros Hn. unfold str_int.
  pose proof (DecimalZ.of_to n) as Hround.
  destruct n as [|p|p]; [ | | lia ].
  - exists (Decimal.D0 Decimal.Nil). repeat split. discriminate.
  - cbn in *. exists (Pos.to_uint p).
    unfold NilZero.string_of_uint.
    pose proof (DecimalPos.Unsigned.to_uint_nonnil p) as Hnonnil.
    destruct (Pos.to_uint p) eqn:Hp; try contradiction;
      (split; [ reflexivity | split; [ discriminate | exact Hround ] ]).
Qed.

(** Every counter that is not negative is parsed back from its printed
    form, which has four characters or more: [int] of [f"{n:04d}"] is
    [n]. *)
Theorem counter_parsed_back (n : Z) :
  0 ≤ n →
  OrderNumber.int (OrderNumber.format_04d n) = Return n
  ∧ (4 ≤ String.length (OrderNumber.format_04d n))%nat.
Proof.
  intros Hn. unfold OrderNumber.format_04d, OrderNumber.zfill.
  destruct (Z.ltb_spec n 0) as [|_]; [ lia | ].
  destruct (str_int_digits n Hn) as (d & Hstr & Hnonempty & Hvalue).
  split.
  - unfold OrderNumber.int, NilZero.uint_of_string.
    destruct (uint_of_string_zeros (4 - String.length (str_int n))
                (str_int n) d) as (d' & Hparse & Hsame).
    { rewrite Hstr. apply NilEmpty.usu. }
    destruct (_ +:+ str_int n) as [|c s] eqn:Happ.
    + exfalso. apply (f_equal String.length) in Happ.
      rewrite length_append in Happ. cbn in Happ.
      destruct (str_int n); [ congruence | cbn in Happ; lia ].
    + rewrite Hparse. unfold N.of_uint. rewrite Hsame, Hvalue. reflexivity.
  - rewrite length_append, length_zeros. lia.
Qed.

Lemma counter_parsed_back_witness :
  OrderNumber.int (OrderNumber.format_04d 12345) = Return 12345
  ∧ (4 ≤ String.length (OrderNumber.format_04d 12345))%nat.
Proof. apply (counter_parsed_back 12345). lia. Defined.

End CounterRoundTrip.

(* ===================================================================== *)
(** * app/api/routes/manufacturing_orders.py: the dashboard statistics *)
(* ===================================================================== *)

Module ManufacturingOrderStats.
Record t : Type := mk {
  total : nat;
  planned : nat;
  in_progress : nat;
  done : nat;
  canceled : nat }.
End ManufacturingOrderStats.

Module Dashboard.
Import Orders.

(** [db.query(OrderStatus).filter(OrderStatus.name == name).first()] *)
Definition status_named (db : DB) (name : string)
  : option (UUID * OrderStatus.t) :=
  head (query_all true (order_statuses db) (order_statuses db)
          (λ s, String.eqb (OrderStatus.name s) name)).

(** The count of the orders in a status:
    [db.query(ManufacturingOrder).filter(status_id == status.id,
      deleted_at == None).count() if status else 0]. *)
Definition count_in_status (db : DB) (status : option (UUID * OrderStatus.t))
  : nat :=
  match status with
  | Some (status_id, _) =>
      query_count true (manufacturing_orders db) (manufacturing_orders db)
        (λ o, N.eqb (ManufacturingOrder.status_id o) status_id
              && is_None (ManufacturingOrder.deleted_at o))
  | None => 0%nat
  end.

(** [GET /manufacturing-orders/dashboard]: the [stats] of the response. *)
Definition get_dashboard_data_stats (db : DB) : ManufacturingOrderStats.t :=
  (* Get order statuses *)
  let planned_status := status_named db "Planned" in
  let in_progress_status := status_named db "In Progress" in
  let done_status := status_named db "Done" in
  let canceled_status := status_named db "Canceled" in
  (* Count orders by status *)
  let total_count :=
    query_count true (manufacturing_orders db) (manufacturing_orders db)
      (λ o, is_None (ManufacturingOrder.deleted_at o)) in
  let planned_count := count_in_status db planned_status in
  let in_progress_count := count_in_status db in_progress_status in
  let done_count := count_in_status db done_status in
  let canceled_count := count_in_status db canceled_status in
  {| ManufacturingOrderStats.total := total_count;
     ManufacturingOrderStats.planned := planned_count;
     ManufacturingOrderStats.in_progress := in_progress_count;
     ManufacturingOrderStats.done := done_count;
     ManufacturingOrderStats.canceled := canceled_count |}.

End Dashboard.

(** ** Dashboard statistics *)

Section DashboardStatistics.
Import Orders Dashboard.

(** The number of rows that pass a filter, row by row. *)
Lemma count_cons {R} (P : R → bool) (ir : N * R) (l : list (N * R)) :
  length (filter (λ ir : N * R, P ir.2 = true) (ir :: l))
  = ((if P ir.2 then 1 else 0)
     + length (filter (λ ir : N * R, P ir.2 = true) l))%nat.
Proof.
  rewrite filter_cons. destruct (decide (P ir.2 = true)) as [->|Hf].
  - reflexivity.
  - apply not_true_is_false in Hf. rewrite Hf. reflexivity.
Qed.

(** The status a name query returns is a row of that name. *)
Lemma status_named_Some (db : DB) (name : string) (status_id : N)
    (status : OrderStatus.t) :
  status_named db name = Some (status_id, status) →
  order_statuses db !! status_id = Some status
  ∧ OrderStatus.name status = name.
Proof.
  unfold status_named, query_all, flushed.
  assert (Hrows : ∀ ir, ir ∈ map_to_list (order_statuses db) →
                        order_statuses db !! ir.1 = Some ir.2).
  { intros [i r] Hin. apply elem_of_map_to_list, Hin. }
  induction (map_to_list (order_statuses db)) as [|[i r] l IH];
    [ discriminate | ].
  pose proof (Hrows (i, r) ltac:(apply elem_of_cons; left; reflexivity))
    as Hrow.
  csimpl in *. destruct (String.eqb_spec (OrderStatus.name r) name) as [Hn|].
  - rewrite Hrow. cbn. intros [= <- <-]. auto.
  - apply IH. intros ir Hin. apply Hrows, elem_of_cons. auto.
Qed.

Lemma status_named_distinct (db : DB) (name name' : string)
    (status_id status_id' : N) (status status' : OrderStatus.t) :
  name ≠ name' →
  status_named db name = Some (status_id, status) →
  status_named db name' = Some (status_id', status') →
  status_id ≠ status_id'.
Proof.
  intros Hne Hs Hs' <-.
  apply status_named_Some in Hs as [Hrow Hname].
  apply status_named_Some in Hs' as [Hrow' Hname'].
  congruence.
Qed.

(** The membership of an order in the count of a status. *)
Definition counted (status : option (N * OrderStatus.t))
    (order : ManufacturingOrder.t) : bool :=
  match status with
  | Some (status_id, _) =>
      N.eqb (ManufacturingOrder.status_id order) status_id
      && is_None (ManufacturingOrder.deleted_at order)
  | None => false
  end.

Lemma count_in_status_counted (db : DB) (status : option (N * OrderStatus.t)) :
  count_in_status db status
  = length (filter (λ ir : N * ManufacturingOrder.t, counted status ir.2 = true)
              (map_to_list (manufacturing_orders db))).
Proof.
  unfold count_in_status, query_count, flushed.
  destruct status as [[status_id ?]|]; [ reflexivity | ].
  induction (map_to_list _) as [|ir l IH]; [ reflexivity | ].
  rewrite (count_cons (counted None)). exact IH.
Qed.

Lemma counts_within {R} (P1 P2 P3 P4 P : R → bool) (l : list (N * R)) :
  (∀ r, (Nat.b2n (P1 r) + Nat.b2n (P2 r) + Nat.b2n (P3 r) + Nat.b2n (P4 r)
         ≤ Nat.b2n (P r))%nat) →
  (length (filter (λ ir : N * R, P1 ir.2 = true) l)
   + length (filter (λ ir : N * R, P2 ir.2 = true) l)
   + length (filter (λ ir : N * R, P3 ir.2 = true) l)
   + length (filter (λ ir : N * R, P4 ir.2 = true) l)
   ≤ length (filter (λ ir : N * R, P ir.2 = true) l))%nat.
Proof.
  intros Hpoint. induction l as [|[i r] l IH]; [ cbn; lia | ].
  rewrite (count_cons P1), (count_cons P2), (count_cons P3), (count_cons P4),
    (count_cons P).
  specialize (Hpoint r). cbn [snd].
  destruct (P1 r), (P2 r), (P3 r), (P4 r), (P r); cbn in Hpoint; lia.
Qed.

(** An order is counted for at most one of two different statuses. *)
Lemma counted_once (status status' : option (N * OrderStatus.t))
    (order : ManufacturingOrder.t) :
  (∀ i s i' s', status = Some (i, s) → status' = Some (i', s') → i ≠ i') →
  counted status order = true → counted status' order = false.
Proof.
  intros Hne. unfold counted.
  destruct status as [[i s]|]; [ | discriminate ].
  destruct status' as [[i' s']|]; [ | reflexivity ].
  specialize (Hne i s i' s' eq_refl eq_refl).
  intros [Hi _]%andb_true_iff. apply N.eqb_eq in Hi.
  apply andb_false_iff. left. apply N.eqb_neq. congruence.
Qed.

Lemma counted_active (status : option (N * OrderStatus.t))
    (order : ManufacturingOrder.t) :
  counted status order = true →
  is_None (ManufacturingOrder.deleted_at order) = true.
Proof.
  unfold counted. destruct status as [[i s]|]; [ | discriminate ].
  intros [_ H]%andb_true_iff. exact H.
Qed.

(** The four counts by status never add up to more than the total. *)
Lemma counts_by_status_within_total (db : DB) :
  let stats := get_dashboard_data_stats db in
  (ManufacturingOrderStats.planned stats
   + ManufacturingOrderStats.in_progress stats
   + ManufacturingOrderStats.done stats
   + ManufacturingOrderStats.canceled stats
   ≤ ManufacturingOrderStats.total stats)%nat.
Proof.
  cbv zeta. unfold get_dashboard_data_stats.
  cbn [ManufacturingOrderStats.planned ManufacturingOrderStats.in_progress
       ManufacturingOrderStats.done ManufacturingOrderStats.canceled
       ManufacturingOrderStats.total].
  rewrite !count_in_status_counted. unfold query_count, flushed.
  apply (counts_within (counted (status_named db "Planned"))
           (counted (status_named db "In Progress"))
           (counted (status_named db "Done"))
           (counted (status_named db "Canceled"))
           (λ o, is_None (ManufacturingOrder.deleted_at o))).
  intros order.
  assert (Hdistinct :
    ∀ name name', name ≠ name' →
      counted (status_named db name) order = true →
      counted (status_named db name') order = false).
  { intros name name' Hne. apply counted_once.
    intros i s i' s' Hs Hs'.
    exact (status_named_distinct db name name' i i' s s' Hne Hs Hs'). }
  pose proof (counted_active (status_named db "Planned") order) as A1.
  pose proof (counted_active (status_named db "In Progress") order) as A2.
  pose proof (counted_active (status_named db "Done") order) as A3.
  pose proof (counted_active (status_named db "Canceled") order) as A4.
  pose proof (Hdistinct "Planned" "In Progress" ltac:(discriminate)) as D12.
  pose proof (Hdistinct "Planned" "Done" ltac:(discriminate)) as D13.
  pose proof (Hdistinct "Planned" "Canceled" ltac:(discriminate)) as D14.
  pose proof (Hdistinct "In Progress" "Done" ltac:(discriminate)) as D23.
  pose proof (Hdistinct "In Progress" "Canceled" ltac:(discriminate)) as D24.
  pose proof (Hdistinct "Done" "Canceled" ltac:(discriminate)) as D34.
  destruct (counted (status_named db "Planned") order),
    (counted (status_named db "In Progress") order),
    (counted (status_named db "Done") order),
    (counted (status_named db "Canceled") order),
    (is_None (ManufacturingOrder.deleted_at order));
    cbn; try lia;
    try (discriminate (D12 eq_refl)); try (discriminate (D13 eq_refl));
    try (discriminate (D14 eq_refl)); try (discriminate (D23 eq_refl));
    try (discriminate (D24 eq_refl)); try (discriminate (D34 eq_refl));
    try (discriminate (A1 eq_refl)); try (discriminate (A2 eq_refl));
    try (discriminate (A3 eq_refl)); try (discriminate (A4 eq_refl)).
Qed.


(** The status row a manufacturing order refers to has the given name. *)
Definition in_status_named (db : DB) (name : string)
    (order : ManufacturingOrder.t) : bool :=
  match order_statuses db !! ManufacturingOrder.status_id order with
  | Some status => String.eqb (OrderStatus.name status) name
  | None => false
  end.

(** The number of manufacturing orders that are not retired and pass [P]. *)
Definition active_orders (db : DB) (P : ManufacturingOrder.t → bool) : nat :=
  length (filter (λ ir : N * ManufacturingOrder.t,
                    is_None (ManufacturingOrder.deleted_at ir.2) && P ir.2
                    = true)
            (map_to_list (manufacturing_orders db))).

(** The [unique=True] constraint of [OrderStatus.name]. *)
Definition unique_status_names (db : DB) : Prop :=
  NoDup (map (λ ir : N * OrderStatus.t, OrderStatus.name ir.2)
           (map_to_list (order_statuses db))).

Lemma NoDup_fmap_inj {A B} (f : A → B) (l : list A) (x y : A) :
  NoDup (map f l) → x ∈ l → y ∈ l → f x = f y → x = y.
Proof.
  induction l as [|z l IH]; cbn; [ intros _ Hx; inversion Hx | ].
  intros [Hz Hl]%NoDup_cons Hx Hy Hf.
  apply elem_of_cons in Hx as [->|Hx]; apply elem_of_cons in Hy as [->|Hy].
  - reflexivity.
  - exfalso. apply Hz. rewrite Hf. apply list_elem_of_fmap. eauto.
  - exfalso. apply Hz. rewrite <- Hf. apply list_elem_of_fmap. eauto.
  - auto.
Qed.

Lemma unique_status_names_inj (db : DB) (i j : N) (s s' : OrderStatus.t) :
  unique_status_names db →
  order_statuses db !! i = Some s → order_statuses db !! j = Some s' →
  OrderStatus.name s = OrderStatus.name s' → i = j.
Proof.
  intros Hunique Hi Hj Hname.
  apply elem_of_map_to_list in Hi, Hj.
  pose proof (NoDup_fmap_inj (λ ir : N * OrderStatus.t, OrderStatus.name ir.2)
                _ (i, s) (j, s') Hunique Hi Hj Hname) as Heq.
  congruence.
Qed.

Lemma count_ext {R} (P Q : R → bool) (l : list (N * R)) :
  (∀ r, P r = Q r) →
  length (filter (λ ir : N * R, P ir.2 = true) l)
  = length (filter (λ ir : N * R, Q ir.2 = true) l).
Proof.
  intros Hext. induction l as [|ir l IH]; [ reflexivity | ].
  rewrite (count_cons P), (count_cons Q), IH, Hext. reflexivity.
Qed.

(** With unique status names, the count of a status is the number of the
    orders that are not retired and refer to the status row of that
    name. *)
Lemma count_in_status_named (db : DB) (name : string) :
  unique_status_names db →
  count_in_status db (status_named db name)
  = active_orders db (in_status_named db name).
Proof.
  intros Hunique. unfold count_in_status, active_orders.
  destruct (status_named db name) as [[status_id status]|] eqn:Hstatus.
  - apply status_named_Some in Hstatus as [Hrow Hname].
    unfold query_count. rewrite flushed_same.
    apply (count_ext
             (λ o, N.eqb (ManufacturingOrder.status_id o) status_id
                   && is_None (ManufacturingOrder.deleted_at o))
             (λ o, is_None (ManufacturingOrder.deleted_at o)
                   && in_status_named db name o)).
    intros order. rewrite andb_comm. f_equal. unfold in_status_named.
    destruct (N.eqb_spec (ManufacturingOrder.status_id order) status_id)
      as [->|Hne].
    + rewrite Hrow. symmetry. apply String.eqb_eq, Hname.
    + destruct (order_statuses db !! ManufacturingOrder.status_id order)
        as [status'|] eqn:Hrow'; [ | reflexivity ].
      symmetry. apply String.eqb_neq. intros Hname'. apply Hne.
      apply (unique_status_names_inj db _ _ status' status Hunique Hrow' Hrow).
      congruence.
  - unfold status_named in Hstatus.
    pose proof (proj1 (query_all_head _ _ _) Hstatus) as Hnone.
    cbv beta in Hnone.
    rewrite (count_ext
               (λ o, is_None (ManufacturingOrder.deleted_at o)
                     && in_status_named db name o)
               (λ _ : ManufacturingOrder.t, false)).
    + induction (map_to_list _) as [|ir l IH]; [ reflexivity | ].
      rewrite (count_cons (λ _ : ManufacturingOrder.t, false)). exact IH.
    + intros order. unfold in_status_named.
      destruct (order_statuses db !! ManufacturingOrder.status_id order)
        as [status'|] eqn:Hrow'.
      * rewrite (Hnone _ _ Hrow'). apply andb_false_r.
      * apply andb_false_r.
Qed.

(** The statistics of the dashboard.  The total is the number of the
    manufacturing orders that are not retired.  When the names of the
    status rows are unique, as the column constraint demands, each count by
    status is the number of the orders that are not retired and whose
    status row has that name; an order in another status, or in a status
    whose row is missing, is in the total only, so the four counts never
    add up to more than the total. *)
Theorem dashboard_counts_by_status (db : DB) :
  unique_status_names db →
  let stats := get_dashboard_data_stats db in
  ManufacturingOrderStats.total stats = active_orders db (λ _, true)
  ∧ ManufacturingOrderStats.planned stats
    = active_orders db (in_status_named db "Planned")
  ∧ ManufacturingOrderStats.in_progress stats
    = active_orders db (in_status_named db "In Progress")
  ∧ ManufacturingOrderStats.done stats
    = active_orders db (in_status_named db "Done")
  ∧ ManufacturingOrderStats.canceled stats
    = active_orders db (in_status_named db "Canceled")
  ∧ (ManufacturingOrderStats.planned stats
     + ManufacturingOrderStats.in_progress stats
     + ManufacturingOrderStats.done stats
     + ManufacturingOrderStats.canceled stats
     ≤ ManufacturingOrderStats.total stats)%nat.
Proof.
  intros Hunique. cbv zeta.
  split.
  { unfold get_dashboard_data_stats, active_orders, query_count.
    cbn [ManufacturingOrderStats.total]. rewrite flushed_same.
    apply (count_ext (λ o, is_None (ManufacturingOrder.deleted_at o))
             (λ o, is_None (ManufacturingOrder.deleted_at o) && true)).
    intros order. symmetry. apply andb_true_r. }
  split; [ apply (count_in_status_named db "Planned" Hunique) | ].
  split; [ apply (count_in_status_named db "In Progress" Hunique) | ].
  split; [ apply (count_in_status_named db "Done" Hunique) | ].
  split; [ apply (count_in_status_named db "Canceled" Hunique) | ].
  apply counts_by_status_within_total.
Qed.

(** Four manufacturing orders: two planned, one done, and a planned one
    that is retired.  The dashboard counts a total of 3, of which 2 planned
    and 1 done. *)
Lemma dashboard_counts_by_status_witness :
  let db :=
    {| manufacturing_orders :=
         <[ 1%N := Scenario.manufacturing_order "MO-20240101-0001" 10 1%N ]>
         (<[ 2%N := Scenario.manufacturing_order "MO-20240101-0002" 5 1%N ]>
          (<[ 3%N := Scenario.manufacturing_order "MO-20240101-0003" 7 3%N ]>
           {[ 4%N :=
                {| ManufacturingOrder.order_number := "MO-20240101-0004";
                   ManufacturingOrder.product_id := 1%N;
                   ManufacturingOrder.bom_id := 1%N;
                   ManufacturingOrder.quantity := 2;
                   ManufacturingOrder.status_id := 1%N;
                   ManufacturingOrder.priority_id := 1%N;
                   ManufacturingOrder.planned_start_date := 0;
                   ManufacturingOrder.planned_end_date := 100;
                   ManufacturingOrder.actual_start_date := None;
                   ManufacturingOrder.actual_end_date := None;
                   ManufacturingOrder.assigned_to_id := None;
                   ManufacturingOrder.notes := None;
                   ManufacturingOrder.created_by_id := None;
                   ManufacturingOrder.updated_by_id := Some 9%N;
                   ManufacturingOrder.deleted_at := Some 50 |} ]}));
       work_orders := ∅;
       order_statuses :=
         <[ 1%N := {| OrderStatus.name := "Planned" |} ]>
         (<[ 2%N := {| OrderStatus.name := "In Progress" |} ]>
          (<[ 3%N := {| OrderStatus.name := "Done" |} ]>
           {[ 4%N := {| OrderStatus.name := "Canceled" |} ]})) |} in
  let stats := get_dashboard_data_stats db in
  ManufacturingOrderStats.total stats = 3%nat
  ∧ ManufacturingOrderStats.planned stats = 2%nat
  ∧ ManufacturingOrderStats.done stats = 1%nat.
Proof.
  cbv zeta.
  match goal with
  | |- context [get_dashboard_data_stats ?d] => set (db := d)
  end.
  assert (Hunique : unique_status_names db).
  { unfold unique_status_names. apply (bool_decide_unpack (NoDup _)).
    vm_compute. exact I. }
  destruct (dashboard_counts_by_status db Hunique)
    as (Htotal & Hplanned & _ & Hdone & _).
  cbv zeta in Htotal, Hplanned, Hdone.
  rewrite Htotal, Hplanned, Hdone. repeat split; vm_compute; reflexivity.
Defined.

End DashboardStatistics.

(* ===================================================================== *)
(** * app/api/routes/manufacturing_orders.py: changing an order *)
(* ===================================================================== *)

(** The body of an update.  Every field is optional: the outer [None] is a
    field the request left unset ([dict(exclude_unset=True)] skips it),
    [Some None] a field the request set to null. *)
Module ManufacturingOrderUpdate.
Record t : Type := mk {
  product_id : option (option UUID);
  bom_id : option (option UUID);
  quantity : option (option Z);
  status_id : option (option UUID);
  priority_id : option (option UUID);
  planned_start_date : option (option datetime);
  planned_end_date : option (option datetime);
  actual_start_date : option (option datetime);
  actual_end_date : option (option datetime);
  assigned_to_id : option (option UUID);
  notes : option (option string) }.
End ManufacturingOrderUpdate.

Module OrderUpdates.
Import Orders.

(** [setattr(order, field, value)] for a [nullable=False] column, as the
    commit sees it: a null is refused with [IntegrityError]. *)
Definition not_null {A} (old : A) (update : option (option A)) : result A :=
  match update with
  | None => Return old
  | Some (Some value) => Return value
  | Some None => Raise (PyError "IntegrityError")
  end.

(** [setattr(order, field, value)] for a nullable column. *)
Definition nullable {A} (old : option A) (update : option (option A))
  : option A :=
  match update with
  | None => old
  | Some value => value
  end.

(** [PUT /manufacturing-orders/{order_id}] *)
Definition update_manufacturing_order (order_id : UUID)
    (order_update : ManufacturingOrderUpdate.t) (current_user : User.t)
    (db : DB) : result (DB * ManufacturingOrder.t) :=
  order ←
    match query_get true (manufacturing_orders db) (manufacturing_orders db)
            order_id (λ o, is_None (ManufacturingOrder.deleted_at o)) with
    | Some o => Return o
    | None => Raise (HTTPException 404 "Manufacturing order not found")
    end;
  (* Update order fields; db.commit() *)
  product_id ← not_null (ManufacturingOrder.product_id order)
                  (ManufacturingOrderUpdate.product_id order_update);
  bom_id ← not_null (ManufacturingOrder.bom_id order)
              (ManufacturingOrderUpdate.bom_id order_update);
  quantity ← not_null (ManufacturingOrder.quantity order)
                (ManufacturingOrderUpdate.quantity order_update);
  status_id ← not_null (ManufacturingOrder.status_id order)
                 (ManufacturingOrderUpdate.status_id order_update);
  priority_id ← not_null (ManufacturingOrder.priority_id order)
                   (ManufacturingOrderUpdate.priority_id order_update);
  planned_start_date ←
    not_null (ManufacturingOrder.planned_start_date order)
      (ManufacturingOrderUpdate.planned_start_date order_update);
  planned_end_date ←
    not_null (ManufacturingOrder.planned_end_date order)
      (ManufacturingOrderUpdate.planned_end_date order_update);
  let order' :=
    {| ManufacturingOrder.order_number :=
         ManufacturingOrder.order_number order;
       ManufacturingOrder.product_id := product_id;
       ManufacturingOrder.bom_id := bom_id;
       ManufacturingOrder.quantity := quantity;
       ManufacturingOrder.status_id := status_id;
       ManufacturingOrder.priority_id := priority_id;
       ManufacturingOrder.planned_start_date := planned_start_date;
       ManufacturingOrder.planned_end_date := planned_end_date;
       ManufacturingOrder.actual_start_date :=
         nullable (ManufacturingOrder.actual_start_date order)
           (ManufacturingOrderUpdate.actual_start_date order_update);
       ManufacturingOrder.actual_end_date :=
         nullable (ManufacturingOrder.actual_end_date order)
           (ManufacturingOrderUpdate.actual_end_date order_update);
       ManufacturingOrder.assigned_to_id :=
         nullable (ManufacturingOrder.assigned_to_id order)
           (ManufacturingOrderUpdate.assigned_to_id order_update);
       ManufacturingOrder.notes :=
         nullable (ManufacturingOrder.notes order)
           (ManufacturingOrderUpdate.notes order_update);
       ManufacturingOrder.created_by_id :=
         ManufacturingOrder.created_by_id order;
       (* Update updated_by field *)
       ManufacturingOrder.updated_by_id := Some (User.id current_user);
       ManufacturingOrder.deleted_at := ManufacturingOrder.deleted_at order |}
  in
  Return
    ({| manufacturing_orders :=
          <[order_id := order']> (manufacturing_orders db);
        work_orders := work_orders db;
        order_statuses := order_statuses db |},
     order').

End OrderUpdates.

(** ** What an update of a manufacturing order can change *)

Section ManufacturingOrderUpdates.
Import Orders OrderRoutes OrderUpdates.

(** The update that sets no field. *)
Definition unset : ManufacturingOrderUpdate.t :=
  {| ManufacturingOrderUpdate.product_id := None;
     ManufacturingOrderUpdate.bom_id := None;
     ManufacturingOrderUpdate.quantity := None;
     ManufacturingOrderUpdate.status_id := None;
     ManufacturingOrderUpdate.priority_id := None;
     ManufacturingOrderUpdate.planned_start_date := None;
     ManufacturingOrderUpdate.planned_end_date := None;
     ManufacturingOrderUpdate.actual_start_date := None;
     ManufacturingOrderUpdate.actual_end_date := None;
     ManufacturingOrderUpdate.assigned_to_id := None;
     ManufacturingOrderUpdate.notes := None |}.

(** The columns of a manufacturing order other than [updated_by_id]. *)
Definition order_columns (order : ManufacturingOrder.t) :=
  (ManufacturingOrder.order_number order, ManufacturingOrder.product_id order,
   ManufacturingOrder.bom_id order, ManufacturingOrder.quantity order,
   ManufacturingOrder.status_id order, ManufacturingOrder.priority_id order,
   ManufacturingOrder.planned_start_date order,
   ManufacturingOrder.planned_end_date order,
   ManufacturingOrder.actual_start_date order,
   ManufacturingOrder.actual_end_date order,
   ManufacturingOrder.assigned_to_id order, ManufacturingOrder.notes order,
   ManufacturingOrder.created_by_id order,
   ManufacturingOrder.deleted_at order).

(** An update of a manufacturing order that is accepted writes that order
    and nothing else: the other manufacturing orders, the work orders and
    the statuses are as before.  The order keeps its order number, its
    creator and stays active, so it can still be read and the numbers in
    use are the same; whatever status is set, no actual end date is written
    unless the request sets one.  The update that sets no field leaves every
    column but [updated_by_id] as it was.  A null for a column that must not
    be null is refused with [IntegrityError] and nothing is committed. *)
Theorem update_manufacturing_order_frame (order_id : N)
    (order_update : ManufacturingOrderUpdate.t) (current_user : User.t)
    (db : DB) :
  (∀ db' order',
     update_manufacturing_order order_id order_update current_user db
       = Return (db', order') →
     ∃ order,
       read_manufacturing_order order_id db = Return order
       ∧ read_manufacturing_order order_id db' = Return order'
       ∧ (∀ i, i ≠ order_id →
               manufacturing_orders db' !! i = manufacturing_orders db !! i)
       ∧ work_orders db' = work_orders db
       ∧ order_statuses db' = order_statuses db
       ∧ ManufacturingOrder.order_number order'
         = ManufacturingOrder.order_number order
       ∧ ManufacturingOrder.created_by_id order'
         = ManufacturingOrder.created_by_id order
       ∧ ManufacturingOrder.updated_by_id order' = Some (User.id current_user)
       ∧ (∀ s, s ∈ manufacturing_order_numbers db'
               ↔ s ∈ manufacturing_order_numbers db)
       ∧ (ManufacturingOrderUpdate.actual_end_date order_update = None →
          ManufacturingOrder.actual_end_date order'
          = ManufacturingOrder.actual_end_date order)
       ∧ (order_update = unset → order_columns order' = order_columns order))
  ∧ (∀ order,
       read_manufacturing_order order_id db = Return order →
       ManufacturingOrderUpdate.product_id order_update = Some None
       ∨ ManufacturingOrderUpdate.bom_id order_update = Some None
       ∨ ManufacturingOrderUpdate.quantity order_update = Some None
       ∨ ManufacturingOrderUpdate.status_id order_update = Some None
       ∨ ManufacturingOrderUpdate.priority_id order_update = Some None
       ∨ ManufacturingOrderUpdate.planned_start_date order_update = Some None
       ∨ ManufacturingOrderUpdate.planned_end_date order_update = Some None →
       update_manufacturing_order order_id order_update current_user db
       = Raise (PyError "IntegrityError")).
Proof.
  split.
  - intros db' order'.
    unfold update_manufacturing_order, read_manufacturing_order.
    destruct (query_get _ _ _ _ _) as [order|] eqn:Hfound;
      [ | discriminate ].
    apply query_get_Some in Hfound as [Hfound Hactive].
    cbn [mbind result_bind].
    destruct (not_null _ (ManufacturingOrderUpdate.product_id _))
      as [product_id|] eqn:H1; [ | discriminate ].
    destruct (not_null _ (ManufacturingOrderUpdate.bom_id _))
      as [bom_id|] eqn:H2; [ | discriminate ].
    destruct (not_null _ (ManufacturingOrderUpdate.quantity _))
      as [quantity|] eqn:H3; [ | discriminate ].
    destruct (not_null _ (ManufacturingOrderUpdate.status_id _))
      as [status_id|] eqn:H4; [ | discriminate ].
    destruct (not_null _ (ManufacturingOrderUpdate.priority_id _))
      as [priority_id|] eqn:H5; [ | discriminate ].
    destruct (not_null _ (ManufacturingOrderUpdate.planned_start_date _))
      as [planned_start_date|] eqn:H6; [ | discriminate ].
    destruct (not_null _ (ManufacturingOrderUpdate.planned_end_date _))
      as [planned_end_date|] eqn:H7; [ | discriminate ].
    intros [= <- <-]. exists order.
    split; [ reflexivity | ].
    split.
    { unfold query_get, flushed. cbn [manufacturing_orders].
      rewrite lookup_insert_eq. cbn [ManufacturingOrder.deleted_at].
      rewrite Hactive. reflexivity. }
    cbn [manufacturing_orders work_orders order_statuses
         ManufacturingOrder.order_number ManufacturingOrder.created_by_id
         ManufacturingOrder.updated_by_id ManufacturingOrder.actual_end_date].
    split; [ intros i Hi; apply lookup_insert_ne; congruence | ].
    split; [ reflexivity | ]. split; [ reflexivity | ].
    split; [ reflexivity | ]. split; [ reflexivity | ].
    split; [ reflexivity | ].
    split.
    { intros s. unfold manufacturing_order_numbers.
      cbn [manufacturing_orders].
      apply (column_update ManufacturingOrder.order_number _ _ order);
        [ exact Hfound | reflexivity ]. }
    split; [ intros ->; reflexivity | ].
    intros ->. cbn in H1, H2, H3, H4, H5, H6, H7.
    injection H1 as <-. injection H2 as <-. injection H3 as <-.
    injection H4 as <-. injection H5 as <-. injection H6 as <-.
    injection H7 as <-. reflexivity.
  - intros order. unfold update_manufacturing_order, read_manufacturing_order.
    destruct (query_get _ _ _ _ _) as [found|]; [ | discriminate ].
    intros [= ->] Hnull.
    destruct order_update as [u1 u2 u3 u4 u5 u6 u7 ? ? ? ?].
    cbn in Hnull. cbn [ManufacturingOrderUpdate.product_id
      ManufacturingOrderUpdate.bom_id ManufacturingOrderUpdate.quantity
      ManufacturingOrderUpdate.status_id ManufacturingOrderUpdate.priority_id
      ManufacturingOrderUpdate.planned_start_date
      ManufacturingOrderUpdate.planned_end_date mbind result_bind].
    destruct u1 as [[?|]|]; cbn [not_null]; [ | reflexivity | ];
      (destruct u2 as [[?|]|]; cbn [not_null]; [ | reflexivity | ]);
      (destruct u3 as [[?|]|]; cbn [not_null]; [ | reflexivity | ]);
      (destruct u4 as [[?|]|]; cbn [not_null]; [ | reflexivity | ]);
      (destruct u5 as [[?|]|]; cbn [not_null]; [ | reflexivity | ]);
      (destruct u6 as [[?|]|]; cbn [not_null]; [ | reflexivity | ]);
      (destruct u7 as [[?|]|]; cbn [not_null]; [ | reflexivity | ]);
      decompose [or] Hnull; discriminate.
Qed.

Lemma update_manufacturing_order_frame_witness :
  let db := Scenario.orders_db ∅ in
  ∃ db' order',
    update_manufacturing_order 1%N unset Scenario.operator db
      = Return (db', order')
    ∧ order_columns order'
      = order_columns (Scenario.manufacturing_order "MO-20240101-0001" 10 2%N).
Proof.
  cbv zeta.
  destruct (update_manufacturing_order 1%N unset Scenario.operator
              (Scenario.orders_db ∅)) as [[db' order']|e] eqn:Hret;
    [ | discriminate Hret ].
  destruct (proj1 (update_manufacturing_order_frame 1%N unset
                     Scenario.operator (Scenario.orders_db ∅))
              db' order' Hret)
    as (order & Hread & _ & _ & _ & _ & _ & _ & _ & _ & _ & Hunset).
  injection Hread as <-.
  exists db', order'. split; [ reflexivity | exact (Hunset eq_refl) ].
Defined.

End ManufacturingOrderUpdates.
